(** * DDoS mitigation system: a shallow embedding of the decision pipeline

    The development follows the classes of [src/core]:
    [RateLimiter] (rate_limiter.py), [IPFilter] (ip_filter.py),
    [TrafficMonitor] (traffic_monitor.py), [DDoSMitigationSystem]
    (mitigation_system.py) and the key lookup of [ConfigManager]
    (config.py).

    Modelling conventions.
    - Every call of [time.time()] is an explicit argument: a leaf operation
      takes the clock reading [now] it would observe, and [process_request]
      takes one reading per call site (record [ticks]).
    - Python floats (clock readings, rates, the suspicious threshold) are
      rationals [Q]; floating-point rounding is not modelled, except for the
      products of [_calculate_severity], which are rounded to binary64
      ([py_float_mul]).
    - Python [int] configuration values are [Z].
    - [dict] and [defaultdict] are [gmap string _]; reading a missing key of a
      [defaultdict] yields the default, and where the source stores through
      such a read the entry is created here as well.
    - [set] is [gset string].
    - A raised [ZeroDivisionError] is the [None] of an [option] result.
    - Locks and logging have no effect on the sequential semantics and are
      left out. *)

From Stdlib Require Import QArith Qround Qabs Qpower Lqa.
From stdpp Require Import gmap strings list fin_maps.

Local Open Scope Z_scope.

(** ** Python primitives on rationals *)

(** [x < y] on floats. *)
Definition Qltb (x y : Q) : bool := negb (Qle_bool y x).

(** [int(x)]: truncation toward zero. *)
Definition py_int (q : Q) : Z := Z.quot (Qnum q) (Zpos (Qden q)).

(** [round(x)] to the nearest integer, ties to even. *)
Definition round_half_even (q : Q) : Z :=
  let f := Qfloor q in
  let r := (q - inject_Z f)%Q in
  if Qltb r (1 # 2) then f
  else if Qltb (1 # 2) r then f + 1
  else if Z.even f then f else f + 1.

(** [round(x, 2)]. *)
Definition py_round2 (q : Q) : Q :=
  (inject_Z (round_half_even (q * 100)) / 100)%Q.

(** The exponent [l] of the binade of a rational other than zero:
    [2 ^ l <= |q| < 2 ^ (l + 1)]. *)
Definition binade (q : Q) : Z :=
  let l0 := Z.log2 (Z.abs (Qnum q)) - Z.log2 (Zpos (Qden q)) in
  if Qle_bool (2 ^ l0) (Qabs q) then l0 else l0 - 1.

(** Rounding to the nearest number with a 53-bit significand and an
    exponent not below that of the subnormals, ties to even; the exponent is
    not bounded above here. *)
Definition round64 (q : Q) : Q :=
  if Qeq_bool q 0 then 0%Q
  else
    let e := Z.max (binade q - 52) (-1074) in
    (inject_Z (round_half_even (q / 2 ^ e)) * 2 ^ e)%Q.

(** The binary64 results of an operation on finite operands. *)
Inductive float64 :=
| Finite (q : Q)
| PlusInfinity
| MinusInfinity.

(** The binary64 number nearest to a rational, with overflow to the
    infinities. *)
Definition float64_of (q : Q) : float64 :=
  let p := round64 q in
  if Qle_bool (2 ^ 1024) p then PlusInfinity
  else if Qle_bool p (- 2 ^ 1024) then MinusInfinity
  else Finite p.

(** [x * k] for a float [x] and an integer literal [k]: the exact product
    rounded to binary64.  The threshold is a float, as the constructor of
    [TrafficMonitor] annotates it. *)
Definition py_float_mul (x : Q) (k : Z) : float64 :=
  float64_of (x * inject_Z k).

(** [rate > p] for a finite float [rate] and a product [p]. *)
Definition py_gt (rate : Q) (p : float64) : bool :=
  match p with
  | Finite q => Qltb q rate
  | PlusInfinity => false
  | MinusInfinity => true
  end.

(** [n / d] for a length [n] and an integer [d]; [None] is
    [ZeroDivisionError]. *)
Definition py_div (n : nat) (d : Z) : option Q :=
  if d =? 0 then None else Some (inject_Z (Z.of_nat n) / inject_Z d)%Q.

(** [[t for t in l if now - t < window]], the pruning comprehension shared by
    the rate limiter and the traffic monitor. *)
Definition prune (window : Z) (now : Q) (l : list Q) : list Q :=
  List.filter (fun t => Qltb (now - t) (inject_Z window)) l.

(** [l[start:]] with Python's treatment of negative and out-of-range
    starts. *)
Definition py_slice_from {A} (start : Z) (l : list A) : list A :=
  let n := Z.of_nat (length l) in
  let i := if start <? 0 then Z.max 0 (start + n) else Z.min start n in
  drop (Z.to_nat i) l.

(** [d if d else dflt] and [d or dflt] for an [Optional[int]]: [None] and [0]
    are falsy. *)
Definition py_or (d : option Z) (dflt : Z) : Z :=
  match d with
  | Some v => if v =? 0 then dflt else v
  | None => dflt
  end.

(** ** rate_limiter.py *)
Module RateLimiter.

Record config := Config {
  max_requests : Z;
  time_window : Z;
  block_duration : Z
}.

Record t := Mk {
  requests : gmap string (list Q);
  blocked_ips : gmap string Q
}.

(** [RateLimiter.__init__]. *)
Definition init : t := Mk ∅ ∅.

(** The reasons [is_allowed] returns next to [False]. *)
Inductive reason :=
| IPBlocked (remaining : Z)
  (* f"IP blocked. Unblock in {remaining} seconds" *)
| RateLimitExceeded (duration : Z)
  (* f"Rate limit exceeded. IP blocked for {block_duration} seconds" *).

(** [self.requests[ip]] read through the [defaultdict]. *)
Definition window (s : t) (ip : string) : list Q :=
  default [] (requests s !! ip).

Definition set_requests (s : t) (ip : string) (l : list Q) : t :=
  Mk (<[ip := l]> (requests s)) (blocked_ips s).

Definition set_block (s : t) (ip : string) (expiry : Q) : t :=
  Mk (requests s) (<[ip := expiry]> (blocked_ips s)).

Definition del_block (s : t) (ip : string) : t :=
  Mk (requests s) (delete ip (blocked_ips s)).

(** Lines 57-71 of [is_allowed]: prune, compare with the limit, then block
    or record. *)
Definition check_window (cfg : config) (now : Q) (ip : string) (s : t)
  : t * (bool * option reason) :=
  let reqs := prune (time_window cfg) now (window s ip) in
  let s1 := set_requests s ip reqs in
  if max_requests cfg <=? Z.of_nat (length reqs) then
    (set_block s1 ip (now + inject_Z (block_duration cfg))%Q,
     (false, Some (RateLimitExceeded (block_duration cfg))))
  else
    (set_requests s1 ip (reqs ++ [now]), (true, None)).

Definition is_allowed (cfg : config) (now : Q) (ip : string) (s : t)
  : t * (bool * option reason) :=
  match blocked_ips s !! ip with
  | Some block_expiry =>
      if Qltb now block_expiry then
        (s, (false, Some (IPBlocked (py_int (block_expiry - now)))))
      else check_window cfg now ip (del_block s ip)
  | None => check_window cfg now ip s
  end.

Definition get_request_count (cfg : config) (now : Q) (ip : string) (s : t)
  : t * Z :=
  let reqs := prune (time_window cfg) now (window s ip) in
  (set_requests s ip reqs, Z.of_nat (length reqs)).

Definition is_blocked (now : Q) (ip : string) (s : t) : t * bool :=
  match blocked_ips s !! ip with
  | Some expiry =>
      if Qltb now expiry then (s, true) else (del_block s ip, false)
  | None => (s, false)
  end.

Definition block_ip (cfg : config) (now : Q) (ip : string)
    (duration : option Z) (s : t) : t :=
  let block_time := py_or duration (block_duration cfg) in
  set_block s ip (now + inject_Z block_time)%Q.

Definition unblock_ip (ip : string) (s : t) : t :=
  match blocked_ips s !! ip with
  | Some _ => del_block s ip
  | None => s
  end.

(** [get_stats] only reads; [active_blocks] is the part of its result that
    depends on the clock. *)
Definition active_blocks (now : Q) (s : t) : gmap string Z :=
  (fun expiry => py_int (expiry - now)) <$>
    filter (fun kv => Qltb now kv.2 = true) (blocked_ips s).

Definition reset (s : t) : t := Mk ∅ ∅.

(** The public operations, for statements about every reachable state. *)
Inductive op :=
| OpIsAllowed (now : Q) (ip : string)
| OpGetRequestCount (now : Q) (ip : string)
| OpIsBlocked (now : Q) (ip : string)
| OpBlockIp (now : Q) (ip : string) (duration : option Z)
| OpUnblockIp (ip : string)
| OpGetStats (now : Q)
| OpReset.

Definition step (cfg : config) (o : op) (s : t) : t :=
  match o with
  | OpIsAllowed now ip => (is_allowed cfg now ip s).1
  | OpGetRequestCount now ip => (get_request_count cfg now ip s).1
  | OpIsBlocked now ip => (is_blocked now ip s).1
  | OpBlockIp now ip d => block_ip cfg now ip d s
  | OpUnblockIp ip => unblock_ip ip s
  | OpGetStats _ => s
  | OpReset => reset s
  end.

Definition run (cfg : config) (ops : list op) (s : t) : t :=
  fold_left (fun s o => step cfg o s) ops s.

(** The dictionary returned by [get_stats]; the key ['blocked_ips'] is the
    field [stat_blocked_ips]. *)
Record stats := Stats {
  total_tracked_ips : nat;
  stat_blocked_ips : nat;
  blocked_ip_list : gmap string Z;
  stat_max_requests : Z;
  stat_time_window : Z
}.

Definition get_stats (cfg : config) (now : Q) (s : t) : stats :=
  Stats (size (requests s)) (size (active_blocks now s)) (active_blocks now s)
        (max_requests cfg) (time_window cfg).

End RateLimiter.

(** ** ip_filter.py *)
Module IPFilter.

Record t := Mk {
  whitelist : gset string;
  blacklist : gset string;
  temp_blocks : gmap string Q
}.

(** [IPFilter.__init__]: [set(whitelist or [])], [set(blacklist or [])]. *)
Definition init (wl bl : list string) : t :=
  Mk (list_to_set wl) (list_to_set bl) ∅.

(** The reasons [is_allowed] returns. *)
Inductive reason :=
| Whitelisted                  (* "Whitelisted" *)
| Blacklisted                  (* "IP is blacklisted" *)
| TempBlocked (remaining : Z)  (* f"IP temporarily blocked ({remaining}s remaining)" *)
| Allowed                      (* "Allowed" *).

Definition del_temp (s : t) (ip : string) : t :=
  Mk (whitelist s) (blacklist s) (delete ip (temp_blocks s)).

Definition is_allowed (now : Q) (ip : string) (s : t) : t * (bool * reason) :=
  if decide (ip ∈ whitelist s) then (s, (true, Whitelisted))
  else if decide (ip ∈ blacklist s) then (s, (false, Blacklisted))
  else match temp_blocks s !! ip with
       | Some expiry =>
           if Qltb now expiry then
             (s, (false, TempBlocked (py_int (expiry - now))))
           else (del_temp s ip, (true, Allowed))
       | None => (s, (true, Allowed))
       end.

Definition add_to_whitelist (ip : string) (s : t) : t :=
  Mk ({[ip]} ∪ whitelist s) (blacklist s ∖ {[ip]}) (delete ip (temp_blocks s)).

Definition remove_from_whitelist (ip : string) (s : t) : t :=
  Mk (whitelist s ∖ {[ip]}) (blacklist s) (temp_blocks s).

Definition add_to_blacklist (ip : string) (s : t) : t :=
  Mk (whitelist s ∖ {[ip]}) ({[ip]} ∪ blacklist s) (delete ip (temp_blocks s)).

Definition remove_from_blacklist (ip : string) (s : t) : t :=
  Mk (whitelist s) (blacklist s ∖ {[ip]}) (temp_blocks s).

Definition block_temporarily (now : Q) (ip : string) (duration : Z) (s : t) : t :=
  if decide ((ip ∉ whitelist s) ∧ (ip ∉ blacklist s)) then
    let expiry := (now + inject_Z duration)%Q in
    Mk (whitelist s) (blacklist s) (<[ip := expiry]> (temp_blocks s))
  else s.

Definition unblock (ip : string) (s : t) : t := del_temp s ip.

Definition is_whitelisted (ip : string) (s : t) : bool :=
  bool_decide (ip ∈ whitelist s).

Definition is_blacklisted (ip : string) (s : t) : bool :=
  bool_decide (ip ∈ blacklist s).

Definition is_temp_blocked (now : Q) (ip : string) (s : t) : t * bool :=
  match temp_blocks s !! ip with
  | Some expiry =>
      if Qltb now expiry then (s, true) else (del_temp s ip, false)
  | None => (s, false)
  end.

(** The state effect of [get_stats]: expired temporary blocks
    ([current_time >= expiry]) are deleted. *)
Definition get_stats_cleanup (now : Q) (s : t) : t :=
  Mk (whitelist s) (blacklist s)
     (filter (fun kv => Qltb now kv.2 = true) (temp_blocks s)).

Definition reset (s : t) : t := Mk (whitelist s) (blacklist s) ∅.

Inductive op :=
| OpIsAllowed (now : Q) (ip : string)
| OpAddToWhitelist (ip : string)
| OpRemoveFromWhitelist (ip : string)
| OpAddToBlacklist (ip : string)
| OpRemoveFromBlacklist (ip : string)
| OpBlockTemporarily (now : Q) (ip : string) (duration : Z)
| OpUnblock (ip : string)
| OpIsWhitelisted (ip : string)
| OpIsBlacklisted (ip : string)
| OpIsTempBlocked (now : Q) (ip : string)
| OpGetStats (now : Q)
| OpReset.

Definition step (o : op) (s : t) : t :=
  match o with
  | OpIsAllowed now ip => (is_allowed now ip s).1
  | OpAddToWhitelist ip => add_to_whitelist ip s
  | OpRemoveFromWhitelist ip => remove_from_whitelist ip s
  | OpAddToBlacklist ip => add_to_blacklist ip s
  | OpRemoveFromBlacklist ip => remove_from_blacklist ip s
  | OpBlockTemporarily now ip d => block_temporarily now ip d s
  | OpUnblock ip => unblock ip s
  | OpIsWhitelisted _ => s
  | OpIsBlacklisted _ => s
  | OpIsTempBlocked now ip => (is_temp_blocked now ip s).1
  | OpGetStats now => get_stats_cleanup now s
  | OpReset => reset s
  end.

Definition run (ops : list op) (s : t) : t :=
  fold_left (fun s o => step o s) ops s.

(** The dictionary returned by [get_stats]; [list(self.whitelist)] and
    [list(self.blacklist)] are kept as the sets they list. *)
Record stats := Stats {
  whitelist_count : nat;
  blacklist_count : nat;
  temp_blocked_count : nat;
  stat_whitelist : gset string;
  stat_blacklist : gset string;
  stat_temp_blocks : gmap string Z
}.

Definition get_stats (now : Q) (s : t) : t * stats :=
  let s1 := get_stats_cleanup now s in
  (s1, Stats (size (whitelist s1)) (size (blacklist s1)) (size (temp_blocks s1))
             (whitelist s1) (blacklist s1)
             ((fun expiry => py_int (expiry - now)) <$> temp_blocks s1)).

End IPFilter.

(** ** traffic_monitor.py *)
Module TrafficMonitor.

Record config := Config {
  suspicious_threshold : Q;
  detection_window : Z;
  alert_threshold : Z
}.

Inductive severity := CRITICAL | HIGH | MEDIUM | LOW.

(** The alert dictionary built by [_trigger_alert]. *)
Record alert := Alert {
  a_timestamp : Q;
  a_ip : string;
  a_request_rate : Q;
  a_endpoint : string;
  a_method : string;
  a_violation_count : Z;
  a_severity : severity
}.

(** The details dictionary returned by [is_suspicious]. *)
Record details := Details {
  d_request_rate : Q;
  d_threshold : Q;
  d_violations : Z;
  d_severity : severity
}.

Record t := Mk {
  ip_requests : gmap string (list Q);
  ip_violations : gmap string Z;
  alerts : list alert
}.

Definition init : t := Mk ∅ ∅ [].

Definition window (s : t) (ip : string) : list Q :=
  default [] (ip_requests s !! ip).

(** [self.ip_violations[ip]] read through the [defaultdict(int)]. *)
Definition violations (s : t) (ip : string) : Z :=
  default 0 (ip_violations s !! ip).

Definition set_requests (s : t) (ip : string) (l : list Q) : t :=
  Mk (<[ip := l]> (ip_requests s)) (ip_violations s) (alerts s).

Definition set_violations (s : t) (ip : string) (v : Z) : t :=
  Mk (ip_requests s) (<[ip := v]> (ip_violations s)) (alerts s).

Definition set_alerts (s : t) (l : list alert) : t :=
  Mk (ip_requests s) (ip_violations s) l.

(** The threshold is a float, as the configuration of the specification has
    it; the three products are binary64 products.  (For a threshold given as
    a Python [int] the products are exact, which is the same value as long
    as they stay below [2 ^ 53].) *)
Definition _calculate_severity (cfg : config) (request_rate : Q) : severity :=
  if py_gt request_rate (py_float_mul (suspicious_threshold cfg) 10) then CRITICAL
  else if py_gt request_rate (py_float_mul (suspicious_threshold cfg) 5) then HIGH
  else if py_gt request_rate (py_float_mul (suspicious_threshold cfg) 2) then MEDIUM
  else LOW.

(** [self.alerts.append(alert)] followed by [pop(0)] when the log holds
    more than 100 entries. *)
Definition append_alert (log : list alert) (a : alert) : list alert :=
  let log' := log ++ [a] in
  if (100 <? length log')%nat then drop 1 log' else log'.

Definition make_alert (cfg : config) (now : Q) (ip : string)
    (request_rate : Q) (endpoint method : string) (s : t) : alert :=
  Alert now ip (py_round2 request_rate) endpoint method
        (violations s ip) (_calculate_severity cfg request_rate).

Definition _trigger_alert (cfg : config) (now : Q) (ip : string)
    (request_rate : Q) (endpoint method : string) (s : t) : t :=
  set_alerts s
    (append_alert (alerts s) (make_alert cfg now ip request_rate endpoint method s)).

(** [now] is the reading taken by [record_request], [now_alert] the one
    taken inside [_trigger_alert]. *)
Definition record_request (cfg : config) (now now_alert : Q)
    (ip endpoint method : string) (s : t) : option t :=
  let reqs := prune (detection_window cfg) now (window s ip) ++ [now] in
  let s1 := set_requests s ip reqs in
  match py_div (length reqs) (detection_window cfg) with
  | None => None
  | Some request_rate =>
      if Qltb (suspicious_threshold cfg) request_rate then
        let s2 := set_violations s1 ip (violations s1 ip + 1) in
        if alert_threshold cfg <=? violations s2 ip then
          Some (_trigger_alert cfg now_alert ip request_rate endpoint method s2)
        else Some s2
      else Some s1
  end.

Definition is_suspicious (cfg : config) (now : Q) (ip : string) (s : t)
  : option (t * (bool * option details)) :=
  let reqs := prune (detection_window cfg) now (window s ip) in
  let s1 := set_requests s ip reqs in
  match reqs with
  | [] => Some (s1, (false, None))
  | _ :: _ =>
      match py_div (length reqs) (detection_window cfg) with
      | None => None
      | Some request_rate =>
          if Qltb (suspicious_threshold cfg) request_rate then
            (* the read [self.ip_violations[ip]] stores the default *)
            let s2 := set_violations s1 ip (violations s1 ip) in
            Some (s2, (true, Some (Details (py_round2 request_rate)
                                           (suspicious_threshold cfg)
                                           (violations s1 ip)
                                           (_calculate_severity cfg request_rate))))
          else Some (s1, (false, None))
      end
  end.

Definition get_recent_alerts (limit : Z) (s : t) : list alert :=
  py_slice_from (- limit) (alerts s).

Definition reset_violations (ip : string) (s : t) : t :=
  set_violations s ip 0.

Definition reset (s : t) : t := Mk ∅ ∅ [].

(** [get_stats] is not among the operations below: it calls
    [get_recent_alerts] while it holds the monitor's non-reentrant lock. *)
Inductive op :=
| OpRecordRequest (now now_alert : Q) (ip endpoint method : string)
| OpIsSuspicious (now : Q) (ip : string)
| OpGetRecentAlerts (limit : Z)
| OpResetViolations (ip : string)
| OpReset.

(** A raised exception leaves the monitor in a state the model does not
    track, so a run that raises has no result. *)
Definition step (cfg : config) (o : op) (s : t) : option t :=
  match o with
  | OpRecordRequest now now_alert ip e m => record_request cfg now now_alert ip e m s
  | OpIsSuspicious now ip => fst <$> is_suspicious cfg now ip s
  | OpGetRecentAlerts _ => Some s
  | OpResetViolations ip => Some (reset_violations ip s)
  | OpReset => Some (reset s)
  end.

Fixpoint run (cfg : config) (ops : list op) (s : t) : option t :=
  match ops with
  | [] => Some s
  | o :: ops' =>
      match step cfg o s with
      | Some s' => run cfg ops' s'
      | None => None
      end
  end.

End TrafficMonitor.

(** ** mitigation_system.py *)
Module System.

(** The configuration values the coordinator reads: the three component
    configurations, the initial lists and [ip_blocking.auto_block]. *)
Record config := Config {
  rate_cfg : RateLimiter.config;
  monitor_cfg : TrafficMonitor.config;
  initial_whitelist : list string;
  initial_blacklist : list string;
  auto_block : bool
}.

(** [ConfigManager.get_default_config]. *)
Definition default_config : config :=
  Config (RateLimiter.Config 100 60 300)
         (TrafficMonitor.Config 10 10 3)
         ["127.0.0.1"; "::1"]%string [] true.

Record t := Mk {
  rate_limiter : RateLimiter.t;
  traffic_monitor : TrafficMonitor.t;
  ip_filter : IPFilter.t
}.

(** [_initialize_components]. *)
Definition init (cfg : config) : t :=
  Mk RateLimiter.init TrafficMonitor.init
     (IPFilter.init (initial_whitelist cfg) (initial_blacklist cfg)).

(** The clock readings of one [process_request] call, one per
    [time.time()] call site that the call can reach. *)
Record ticks := Ticks {
  t_details : Q;     (* details['timestamp'] *)
  t_filter : Q;      (* IPFilter.is_allowed *)
  t_limiter : Q;     (* RateLimiter.is_allowed *)
  t_record : Q;      (* TrafficMonitor.record_request *)
  t_alert : Q;       (* TrafficMonitor._trigger_alert *)
  t_suspicious : Q;  (* TrafficMonitor.is_suspicious *)
  t_block : Q        (* IPFilter.block_temporarily *)
}.

(** The second component of the result of [process_request]. *)
Inductive reason :=
| FilterReason (r : IPFilter.reason)        (* filter_reason *)
| WhitelistedIP                             (* "Whitelisted IP" *)
| LimiterReason (r : option RateLimiter.reason)  (* rate_reason *)
| SuspiciousActivity (d : option TrafficMonitor.details)
  (* f"Suspicious activity: {suspicious_details}" *)
| RequestAllowed                            (* "Request allowed" *).

Inductive component := by_ip_filter | by_rate_limiter.
Inductive pass := by_whitelist | by_all_checks_passed.

(** The [details] dictionary. *)
Record details := Details {
  d_ip : string;
  d_endpoint : string;
  d_method : string;
  d_timestamp : Q;
  d_blocked_by : option component;
  d_reason : option reason;
  d_allowed_by : option pass;
  d_suspicious : bool;
  d_suspicious_details : option TrafficMonitor.details
}.

Definition result : Type := bool * reason * details.

Definition severity_in_high_critical (d : option TrafficMonitor.details) : bool :=
  match d with
  | Some d' =>
      match TrafficMonitor.d_severity d' with
      | TrafficMonitor.HIGH | TrafficMonitor.CRITICAL => true
      | _ => false
      end
  | None => false
  end.

Definition process_request (cfg : config) (tk : ticks)
    (ip endpoint method : string) (s : t) : option (t * result) :=
  let details := Details ip endpoint method (t_details tk) in
  let '(f1, (is_allowed, filter_reason)) :=
    IPFilter.is_allowed (t_filter tk) ip (ip_filter s) in
  let s := Mk (rate_limiter s) (traffic_monitor s) f1 in
  if negb is_allowed then
    Some (s, (false, FilterReason filter_reason,
              details (Some by_ip_filter) (Some (FilterReason filter_reason))
                      None false None))
  else if IPFilter.is_whitelisted ip (ip_filter s) then
    match TrafficMonitor.record_request (monitor_cfg cfg) (t_record tk) (t_alert tk)
            ip endpoint method (traffic_monitor s) with
    | None => None
    | Some m1 =>
        Some (Mk (rate_limiter s) m1 (ip_filter s),
              (true, WhitelistedIP,
               details None None (Some by_whitelist) false None))
    end
  else
    let '(r1, (is_allowed, rate_reason)) :=
      RateLimiter.is_allowed (rate_cfg cfg) (t_limiter tk) ip (rate_limiter s) in
    let s := Mk r1 (traffic_monitor s) (ip_filter s) in
    if negb is_allowed then
      let f2 :=
        if auto_block cfg then
          IPFilter.block_temporarily (t_block tk) ip
            (RateLimiter.block_duration (rate_cfg cfg)) (ip_filter s)
        else ip_filter s in
      Some (Mk (rate_limiter s) (traffic_monitor s) f2,
            (false, LimiterReason rate_reason,
             details (Some by_rate_limiter) (Some (LimiterReason rate_reason))
                     None false None))
    else
      match TrafficMonitor.record_request (monitor_cfg cfg) (t_record tk) (t_alert tk)
              ip endpoint method (traffic_monitor s) with
      | None => None
      | Some m1 =>
          match TrafficMonitor.is_suspicious (monitor_cfg cfg) (t_suspicious tk) ip m1 with
          | None => None
          | Some (m2, (is_suspicious, suspicious_details)) =>
              let s := Mk (rate_limiter s) m2 (ip_filter s) in
              if is_suspicious && auto_block cfg
                 && severity_in_high_critical suspicious_details then
                Some (Mk (rate_limiter s) (traffic_monitor s)
                         (IPFilter.block_temporarily (t_block tk) ip 600 (ip_filter s)),
                      (false, SuspiciousActivity suspicious_details,
                       details None None None true suspicious_details))
              else
                Some (s, (true, RequestAllowed,
                          details None None (Some by_all_checks_passed)
                                  is_suspicious
                                  (if is_suspicious then suspicious_details else None)))
          end
      end.

Definition block_ip (cfg : config) (now : Q) (ip : string)
    (duration : option Z) (permanent : bool) (s : t) : t :=
  if permanent then
    Mk (rate_limiter s) (traffic_monitor s)
       (IPFilter.add_to_blacklist ip (ip_filter s))
  else
    let block_time := py_or duration (RateLimiter.block_duration (rate_cfg cfg)) in
    Mk (rate_limiter s) (traffic_monitor s)
       (IPFilter.block_temporarily now ip block_time (ip_filter s)).

Definition unblock_ip (ip : string) (s : t) : t :=
  Mk (RateLimiter.unblock_ip ip (rate_limiter s))
     (TrafficMonitor.reset_violations ip (traffic_monitor s))
     (IPFilter.unblock ip (ip_filter s)).

Definition whitelist_ip (ip : string) (s : t) : t :=
  Mk (rate_limiter s) (traffic_monitor s)
     (IPFilter.add_to_whitelist ip (ip_filter s)).

Definition get_recent_alerts (limit : Z) (s : t) : list TrafficMonitor.alert :=
  TrafficMonitor.get_recent_alerts limit (traffic_monitor s).

Definition reset_all (s : t) : t :=
  Mk (RateLimiter.reset (rate_limiter s))
     (TrafficMonitor.reset (traffic_monitor s))
     (IPFilter.reset (ip_filter s)).

(** A run of [process_request] calls for one address, collecting the
    results; [None] when a call raises. *)
Fixpoint process_all (cfg : config) (tks : list ticks)
    (ip endpoint method : string) (s : t) : option (t * list result) :=
  match tks with
  | [] => Some (s, [])
  | tk :: tks' =>
      match process_request cfg tk ip endpoint method s with
      | None => None
      | Some (s1, r) =>
          match process_all cfg tks' ip endpoint method s1 with
          | None => None
          | Some (s2, rs) => Some (s2, r :: rs)
          end
      end
  end.

(** The denial taxonomy of the specification (section 7), read off the
    reason the code returns: a reason produced by the rate limiter is
    [RateLimited], a temporary block reported by the filter is
    [TempBlocked]. *)
Inductive verdict_class :=
| VWhitelisted | VBlacklisted | VTempBlocked | VRateLimited
| VSuspiciousActivity | VAllowed.

Definition classify (r : reason) : verdict_class :=
  match r with
  | FilterReason IPFilter.Whitelisted => VWhitelisted
  | FilterReason IPFilter.Blacklisted => VBlacklisted
  | FilterReason (IPFilter.TempBlocked _) => VTempBlocked
  | FilterReason IPFilter.Allowed => VAllowed
  | WhitelistedIP => VWhitelisted
  | LimiterReason _ => VRateLimited
  | SuspiciousActivity _ => VSuspiciousActivity
  | RequestAllowed => VAllowed
  end.

End System.

(** ** config.py *)
Module ConfigManager.

(** The values a loaded YAML document is made of. *)
#[local] Unset Elimination Schemes.
Inductive value :=
| VNone
| VBool (b : bool)
| VInt (z : Z)
| VFloat (q : Q)
| VStr (s : string)
| VList (l : list value)
| VDict (d : gmap string value).
#[local] Set Elimination Schemes.

(** The character ['.']. *)
Definition dot : Ascii.ascii := Ascii.ascii_of_nat 46.

(** [s.split(sep)] for a one-character separator. *)
Fixpoint split_on (sep : Ascii.ascii) (s : string) : list string :=
  match s with
  | EmptyString => [EmptyString]
  | String c s' =>
      if Ascii.eqb c sep then EmptyString :: split_on sep s'
      else match split_on sep s' with
           | w :: ws => String c w :: ws
           | [] => [String c EmptyString]
           end
  end.

(** The loop of [get]: descend one key at a time; a missing key, a [None]
    value or a value that is not a dictionary ends it with [default]. *)
Fixpoint walk (keys : list string) (current default : value) : value :=
  match keys with
  | [] => current
  | k :: keys' =>
      match current with
      | VDict d =>
          match d !! k with
          | Some VNone | None => default
          | Some v => walk keys' v default
          end
      | _ => default
      end
  end.

Definition get (config : value) (key : string) (default : value) : value :=
  walk (split_on dot key) config default.

(** Python truthiness, as used by [if self.config.get(...)]. *)
Definition truthy (v : value) : bool :=
  match v with
  | VNone => false
  | VBool b => b
  | VInt z => negb (z =? 0)
  | VFloat q => negb (Qeq_bool q 0)
  | VStr s => negb (String.eqb s "")
  | VList l => match l with [] => false | _ => true end
  | VDict d => negb (Nat.eqb (size d) 0)
  end.

(** [self.config.get('ip_blocking.auto_block', True)] as a condition. *)
Definition auto_block (config : value) : bool :=
  truthy (get config "ip_blocking.auto_block" (VBool true)).

End ConfigManager.

(** ** Ghost definitions used by the statements *)

(** [".".join(keys)]. *)
Fixpoint join_dot (keys : list string) : string :=
  match keys with
  | [] => EmptyString
  | [k] => k
  | k :: keys' => (k ++ String ConfigManager.dot (join_dot keys'))%string
  end.

(** A key without a dot. *)
Fixpoint dot_free (s : string) : bool :=
  match s with
  | EmptyString => true
  | String c s' => negb (Ascii.eqb c ConfigManager.dot) && dot_free s'
  end.

(** The binary64 product [x * k] is the exact product. *)
Definition exact_product (x : Q) (k : Z) : Prop :=
  match py_float_mul x k with
  | Finite p => (p == x * inject_Z k)%Q
  | _ => False
  end.

(** The order of the severities. *)
Definition severity_rank (v : TrafficMonitor.severity) : nat :=
  match v with
  | TrafficMonitor.LOW => 0
  | TrafficMonitor.MEDIUM => 1
  | TrafficMonitor.HIGH => 2
  | TrafficMonitor.CRITICAL => 3
  end.

(** The readings of the calls that [RateLimiter.is_allowed] allowed. *)
Fixpoint allowed_times (ts : list Q)
    (rs : list (bool * option RateLimiter.reason)) : list Q :=
  match ts, rs with
  | now :: ts', (ok, _) :: rs' =>
      if ok then now :: allowed_times ts' rs' else allowed_times ts' rs'
  | _, _ => []
  end.

(** The entries the three components hold for one address. *)
Definition same_for (addr : string) (s s' : System.t) : Prop :=
  RateLimiter.requests (System.rate_limiter s') !! addr
    = RateLimiter.requests (System.rate_limiter s) !! addr
  /\ RateLimiter.blocked_ips (System.rate_limiter s') !! addr
    = RateLimiter.blocked_ips (System.rate_limiter s) !! addr
  /\ TrafficMonitor.ip_requests (System.traffic_monitor s') !! addr
    = TrafficMonitor.ip_requests (System.traffic_monitor s) !! addr
  /\ TrafficMonitor.ip_violations (System.traffic_monitor s') !! addr
    = TrafficMonitor.ip_violations (System.traffic_monitor s) !! addr
  /\ ((addr ∈ IPFilter.whitelist (System.ip_filter s'))
       <-> (addr ∈ IPFilter.whitelist (System.ip_filter s)))
  /\ ((addr ∈ IPFilter.blacklist (System.ip_filter s'))
       <-> (addr ∈ IPFilter.blacklist (System.ip_filter s)))
  /\ IPFilter.temp_blocks (System.ip_filter s') !! addr
    = IPFilter.temp_blocks (System.ip_filter s) !! addr.

(** Monitor operations other than the two resets. *)
Definition keeps_counters (o : TrafficMonitor.op) : bool :=
  match o with
  | TrafficMonitor.OpResetViolations _ | TrafficMonitor.OpReset => false
  | _ => true
  end.

(** The last [n] elements of a list, in their order. *)
Definition lastn {A} (n : nat) (l : list A) : list A :=
  drop (length l - n) l.

Module MonitorTrace.
Import TrafficMonitor.

(** The alert a monitor operation hands to [_trigger_alert], if any.
    [step_alerts] below ties it to [record_request]. *)
Definition raised_by (cfg : config) (o : op) (s : t) : list alert :=
  match o with
  | OpRecordRequest now now_alert ip endpoint method =>
      let reqs := prune (detection_window cfg) now (window s ip) ++ [now] in
      match py_div (length reqs) (detection_window cfg) with
      | Some request_rate =>
          if Qltb (suspicious_threshold cfg) request_rate
             && (alert_threshold cfg <=? violations s ip + 1) then
            [Alert now_alert ip (py_round2 request_rate) endpoint method
                   (violations s ip + 1)
                   (_calculate_severity cfg request_rate)]
          else []
      | None => []
      end
  | _ => []
  end.

(** Every alert raised along a run since the last [reset], oldest
    first. *)
Fixpoint history (cfg : config) (ops : list op) (s : t) (h : list alert)
  : list alert :=
  match ops with
  | [] => h
  | o :: ops' =>
      match step cfg o s with
      | Some s' =>
          history cfg ops' s'
            (match o with OpReset => [] | _ => h ++ raised_by cfg o s end)
      | None => h
      end
  end.

End MonitorTrace.

(** No address is in both lists of a registry state. *)
Definition exclusive (s : IPFilter.t) : Prop :=
  forall ip : string,
    ~ ((ip ∈ IPFilter.whitelist s) /\ (ip ∈ IPFilter.blacklist s)).

(** Every window of a rate-limiter state holds at most [max_requests]
    timestamps. *)
Definition windows_bounded (cfg : RateLimiter.config) (s : RateLimiter.t) : Prop :=
  forall addr : string,
    Z.of_nat (length (RateLimiter.window s addr)) <= RateLimiter.max_requests cfg.

(** Successive [RateLimiter.is_allowed] calls for one address, at the given
    clock readings. *)
Fixpoint calls (cfg : RateLimiter.config) (ts : list Q) (ip : string)
    (s : RateLimiter.t) : RateLimiter.t * list (bool * option RateLimiter.reason) :=
  match ts with
  | [] => (s, [])
  | now :: ts' =>
      let '(s1, r) := RateLimiter.is_allowed cfg now ip s in
      let '(s2, rs) := calls cfg ts' ip s1 in
      (s2, r :: rs)
  end.

(** The clock readings of one [process_request] call, and the calls whose
    readings all lie in [[lo, hi)]. *)
Definition readings (tk : System.ticks) : list Q :=
  [System.t_details tk; System.t_filter tk; System.t_limiter tk;
   System.t_record tk; System.t_alert tk; System.t_suspicious tk;
   System.t_block tk].

Definition within (lo hi : Q) (tk : System.ticks) : Prop :=
  Forall (fun r : Q => (lo <= r /\ r < hi)%Q) (readings tk).

(** The verdict of a result: the [allowed] flag and the class of the
    reason. *)
Definition verdict (r : System.result) : bool * System.verdict_class :=
  (r.1.1, System.classify r.1.2).

(** An address that no list and no block holds, with [k] readings, all in
    [[lo, lo + 1)], in its rate-limiter window and at most [k] in its monitor
    window. *)
Definition admitted (lo : Q) (ip : string) (k : nat) (s : System.t) : Prop :=
  (ip ∉ IPFilter.whitelist (System.ip_filter s))
  /\ (ip ∉ IPFilter.blacklist (System.ip_filter s))
  /\ IPFilter.temp_blocks (System.ip_filter s) !! ip = None
  /\ RateLimiter.blocked_ips (System.rate_limiter s) !! ip = None
  /\ length (RateLimiter.window (System.rate_limiter s) ip) = k
  /\ Forall (fun r : Q => (lo <= r /\ r < lo + 1)%Q)
            (RateLimiter.window (System.rate_limiter s) ip)
  /\ (length (TrafficMonitor.window (System.traffic_monitor s) ip) <= k)%nat.

(** An address held until [lo + 300] at least: by a temporary block of the
    registry when auto-block is on, by the rate limiter's block otherwise. *)
Definition held (cfg : System.config) (lo : Q) (ip : string) (s : System.t) : Prop :=
  (ip ∉ IPFilter.whitelist (System.ip_filter s))
  /\ (ip ∉ IPFilter.blacklist (System.ip_filter s))
  /\ if System.auto_block cfg then
       exists ex : Q,
         IPFilter.temp_blocks (System.ip_filter s) !! ip = Some ex
         /\ (lo + 300 <= ex)%Q
     else
       IPFilter.temp_blocks (System.ip_filter s) !! ip = None
       /\ exists ex : Q,
            RateLimiter.blocked_ips (System.rate_limiter s) !! ip = Some ex
            /\ (lo + 300 <= ex)%Q.

(** * Properties *)

(** ** Comparisons and pruning *)

Lemma Qltb_lt (x y : Q) : Qltb x y = true <-> (x < y)%Q.
Proof.
  unfold Qltb. rewrite negb_true_iff, <- not_true_iff_false, Qle_bool_iff.
  split; [apply Qnot_le_lt | apply Qlt_not_le].
Qed.

Lemma Qltb_ge (x y : Q) : Qltb x y = false <-> (y <= x)%Q.
Proof.
  unfold Qltb. rewrite negb_false_iff. apply Qle_bool_iff.
Qed.

Lemma prune_length (w : Z) (now : Q) (l : list Q) :
  (length (prune w now l) <= length l)%nat.
Proof. apply List.filter_length_le. Qed.

Lemma prune_all (w : Z) (now : Q) (l : list Q) :
  Forall (fun t => (now - t < inject_Z w)%Q) l -> prune w now l = l.
Proof.
  unfold prune. induction 1 as [|t l Ht _ IH]; simpl; [done|].
  apply Qltb_lt in Ht. by rewrite Ht, IH.
Qed.

Lemma prune_none (w : Z) (now : Q) (l : list Q) :
  Forall (fun t => (inject_Z w <= now - t)%Q) l -> prune w now l = [].
Proof.
  unfold prune. induction 1 as [|t l Ht _ IH]; simpl; [done|].
  apply Qltb_ge in Ht. by rewrite Ht, IH.
Qed.

(** ** Severity bands *)

Lemma exact_product_gt (x : Q) (k : Z) (r : Q) :
  exact_product x k ->
  py_gt r (py_float_mul x k) = true <-> (x * inject_Z k < r)%Q.
Proof.
  unfold exact_product. destruct (py_float_mul x k) as [p| |]; [|done|done].
  intros Hp. simpl. rewrite Qltb_lt. by rewrite Hp.
Qed.

Lemma py_gt_false (r : Q) (p : float64) :
  py_gt r p = false <-> py_gt r p <> true.
Proof. by destruct (py_gt r p). Qed.

(** C4, as amended. The severity is found by testing the rate against the
    products [T * 10], [T * 5] and [T * 2] as binary64 computes them, from
    the highest down.  Whenever the three products are exact (as for the
    default threshold 10), for every rate [r > T] the severity is CRITICAL
    iff [r > 10T], HIGH iff [5T < r <= 10T], MEDIUM iff [2T < r <= 5T] and
    LOW iff [T < r <= 2T]. *)
Theorem severity_bands (cfg : TrafficMonitor.config) (r : Q) :
  (TrafficMonitor.suspicious_threshold cfg < r)%Q ->
  let T := TrafficMonitor.suspicious_threshold cfg in
  let sev := TrafficMonitor._calculate_severity cfg r in
  ((sev = TrafficMonitor.CRITICAL <-> py_gt r (py_float_mul T 10) = true) /\
   (sev = TrafficMonitor.HIGH
    <-> py_gt r (py_float_mul T 5) = true
        /\ py_gt r (py_float_mul T 10) = false) /\
   (sev = TrafficMonitor.MEDIUM
    <-> py_gt r (py_float_mul T 2) = true
        /\ py_gt r (py_float_mul T 5) = false
        /\ py_gt r (py_float_mul T 10) = false) /\
   (sev = TrafficMonitor.LOW
    <-> py_gt r (py_float_mul T 2) = false
        /\ py_gt r (py_float_mul T 5) = false
        /\ py_gt r (py_float_mul T 10) = false)) /\
  (exact_product T 10 -> exact_product T 5 -> exact_product T 2 ->
   (sev = TrafficMonitor.CRITICAL <-> (10 * T < r)%Q) /\
   (sev = TrafficMonitor.HIGH <-> (5 * T < r /\ r <= 10 * T)%Q) /\
   (sev = TrafficMonitor.MEDIUM <-> (2 * T < r /\ r <= 5 * T)%Q) /\
   (sev = TrafficMonitor.LOW <-> (T < r /\ r <= 2 * T)%Q)).
Proof.
  intros HT T sev. subst sev. unfold TrafficMonitor._calculate_severity.
  fold T. fold T in HT. split.
  - destruct (py_gt r (py_float_mul T 10));
      destruct (py_gt r (py_float_mul T 5));
      destruct (py_gt r (py_float_mul T 2));
      repeat split; intros; try discriminate; try tauto;
      repeat match goal with
             | H : _ /\ _ |- _ => destruct H
             end; discriminate.
  - intros H10 H5 H2.
    pose proof (exact_product_gt T 10 r H10) as E10.
    pose proof (exact_product_gt T 5 r H5) as E5.
    pose proof (exact_product_gt T 2 r H2) as E2.
    change (inject_Z 10) with 10%Q in E10.
    change (inject_Z 5) with 5%Q in E5.
    change (inject_Z 2) with 2%Q in E2.
    destruct (py_gt r (py_float_mul T 10));
      destruct (py_gt r (py_float_mul T 5));
      destruct (py_gt r (py_float_mul T 2));
      repeat match goal with
             | H : true = true <-> _ |- _ =>
                 let H' := fresh in pose proof (proj1 H eq_refl) as H'; clear H
             | H : false = true <-> ?P |- _ =>
                 let H' := fresh in
                 assert (H' : ~ P) by (intros ?; by apply H in H0); clear H
             end;
      repeat split; intros; try discriminate; try lra.
Qed.

Lemma severity_bands_witness :
  TrafficMonitor._calculate_severity (TrafficMonitor.Config 10 10 3) 25
    = TrafficMonitor.MEDIUM
  <-> (2 * 10 < 25 /\ 25 <= 5 * 10)%Q.
Proof.
  assert (H : (TrafficMonitor.suspicious_threshold
                 (TrafficMonitor.Config 10 10 3) < 25)%Q) by reflexivity.
  refine (proj1 (proj2 (proj2
            (proj2 (severity_bands (TrafficMonitor.Config 10 10 3) 25 H)
               _ _ _)))); by vm_compute.
Defined.

(** C4, as stated, fails for a threshold whose products are rounded: with
    the float nearest to 0.3 as threshold, [T * 10] is rounded up to 3.0, so
    the rate 3.0, which exceeds ten times the threshold, is classified HIGH
    and not CRITICAL. *)
Lemma severity_bands_rounded_edge :
  TrafficMonitor._calculate_severity
    (TrafficMonitor.Config (5404319552844595 # 18014398509481984) 10 3) 3
  = TrafficMonitor.HIGH
  /\ ((5404319552844595 # 18014398509481984) < 3)%Q
  /\ (10 * (5404319552844595 # 18014398509481984) < 3)%Q.
Proof. by vm_compute. Qed.

(** ** The alert log *)

Section AlertLog.
Import TrafficMonitor MonitorTrace.
Variable cfg : config.

Lemma lastn_short {A} (n : nat) (l : list A) :
  (length l <= n)%nat -> lastn n l = l.
Proof.
  intros H. unfold lastn. replace (length l - n)%nat with 0%nat by lia.
  apply drop_0.
Qed.

Lemma lastn_length {A} (n : nat) (l : list A) :
  length (lastn n l) = Nat.min n (length l).
Proof. unfold lastn. rewrite length_drop. lia. Qed.

Lemma append_alert_lastn (h : list alert) (a : alert) :
  append_alert (lastn 100 h) a = lastn 100 (h ++ [a]).
Proof.
  unfold append_alert.
  assert (Hlen : length (lastn 100 h ++ [a]) = (Nat.min 100 (length h) + 1)%nat).
  { by rewrite length_app, lastn_length. }
  destruct (Nat.ltb_spec 100 (length (lastn 100 h ++ [a]))) as [Hfull|Hroom].
  - unfold lastn. rewrite length_app. cbn [length].
    rewrite <- drop_app_le by lia. rewrite drop_drop. f_equal. lia.
  - rewrite (lastn_short 100 h) by lia.
    symmetry. apply lastn_short. rewrite length_app. cbn [length]. lia.
Qed.

Lemma append_alert_length (log : list alert) (a : alert) :
  (length log <= 100)%nat -> (length (append_alert log a) <= 100)%nat.
Proof.
  intros H. unfold append_alert.
  destruct (Nat.ltb_spec 100 (length (log ++ [a]))) as [Hfull|Hroom];
    [rewrite length_drop|]; rewrite length_app in *; simpl in *; lia.
Qed.

(** [raised_by] is the alert [record_request] appends: the log after a
    step is the log before it with the raised alerts pushed, or empty after
    [reset]. *)
Lemma step_alerts (o : op) (s s' : t) :
  step cfg o s = Some s' ->
  alerts s' =
    match o with
    | OpReset => []
    | _ => fold_left append_alert (raised_by cfg o s) (alerts s)
    end.
Proof.
  destruct o as [now na ip e m|now ip|limit|ip|]; simpl.
  - unfold record_request.
    destruct (py_div _ _) as [rate|]; [|done].
    destruct (Qltb (suspicious_threshold cfg) rate); simpl.
    + replace (violations (set_violations _ ip _) ip)
        with (violations s ip + 1).
      2:{ unfold violations, set_violations, set_requests. simpl.
          by rewrite lookup_insert_eq. }
      destruct (alert_threshold cfg <=? violations s ip + 1); simpl.
      * intros [= <-]. unfold _trigger_alert, make_alert. simpl.
        repeat f_equal.
        unfold violations, set_violations, set_requests. simpl.
        by rewrite lookup_insert_eq.
      * by intros [= <-].
    + by intros [= <-].
  - unfold is_suspicious.
    destruct (prune _ _ _) as [|q l] eqn:E; [by intros [= <-]|].
    destruct (py_div _ _) as [rate|]; [|done]. simpl.
    destruct (Qltb (suspicious_threshold cfg) rate); by intros [= <-].
  - by intros [= <-].
  - by intros [= <-].
  - by intros [= <-].
Qed.

Lemma fold_append_alert_lastn (as_ h : list alert) :
  fold_left append_alert as_ (lastn 100 h) = lastn 100 (h ++ as_).
Proof.
  revert h. induction as_ as [|a as_ IH]; intros h; simpl.
  - by rewrite app_nil_r.
  - rewrite append_alert_lastn, IH, <- app_assoc. done.
Qed.

Lemma run_alerts (ops : list op) (s s' : t) (h : list alert) :
  alerts s = lastn 100 h ->
  run cfg ops s = Some s' ->
  alerts s' = lastn 100 (history cfg ops s h).
Proof.
  revert s h. induction ops as [|o ops IH]; intros s h Hs; simpl.
  - by intros [= <-].
  - destruct (step cfg o s) as [s1|] eqn:Hstep; [|done].
    apply IH. rewrite (step_alerts _ _ _ Hstep).
    destruct o; try (rewrite Hs; apply fold_append_alert_lastn).
    reflexivity.
Qed.

Lemma get_recent_alerts_all (limit : Z) (s : t) :
  Z.of_nat (length (alerts s)) <= limit ->
  get_recent_alerts limit s = alerts s.
Proof.
  intros H. unfold get_recent_alerts, py_slice_from.
  destruct (Z.ltb_spec (- limit) 0) as [Hneg|Hpos].
  - replace (Z.to_nat _) with 0%nat by lia. apply drop_0.
  - replace (Z.to_nat _) with 0%nat by lia. apply drop_0.
Qed.

(** C6. Along every run of monitor operations from a fresh monitor the
    alert log holds at most 100 entries, namely the most recent 100 alerts
    raised (since the last reset) in the order they were raised; and
    [get_recent_alerts limit] with [limit >= 100] returns exactly that
    log, which has 100 entries once more than 100 alerts were raised. *)
Theorem alert_log_bound (ops : list op) (s : t) (limit : Z) :
  run cfg ops init = Some s ->
  100 <= limit ->
  (length (alerts s) <= 100)%nat /\
  alerts s = lastn 100 (history cfg ops init []) /\
  get_recent_alerts limit s = lastn 100 (history cfg ops init []) /\
  ((100 < length (history cfg ops init []))%nat ->
   length (get_recent_alerts limit s) = 100%nat).
Proof.
  intros Hrun Hlimit.
  assert (Hlog : alerts s = lastn 100 (history cfg ops init [])).
  { by apply (run_alerts ops init s []). }
  assert (Hlen : (length (alerts s) <= 100)%nat).
  { rewrite Hlog, lastn_length. lia. }
  assert (Hget : get_recent_alerts limit s = alerts s).
  { apply get_recent_alerts_all. lia. }
  repeat split; [done|done|congruence|].
  intros Hmany. rewrite Hget, Hlog, lastn_length. lia.
Qed.

(** C10. [get_recent_alerts 0] returns the whole stored log, not the empty
    list: the slice [alerts[-0:]] is [alerts[0:]]. *)
Theorem get_recent_alerts_zero (s : t) :
  get_recent_alerts 0 s = alerts s.
Proof.
  unfold get_recent_alerts, py_slice_from. change (- 0 <? 0) with false.
  cbv iota. replace (Z.to_nat _) with 0%nat by lia. apply drop_0.
Qed.

End AlertLog.

Lemma alert_log_bound_witness :
  length (TrafficMonitor.get_recent_alerts 1000
            (default TrafficMonitor.init
               (TrafficMonitor.run (TrafficMonitor.Config 0 1 1)
                  (replicate 150
                     (TrafficMonitor.OpRecordRequest 0 0 "10.0.0.1" "/" "GET"))
                  TrafficMonitor.init))) = 100%nat.
Proof.
  refine (proj2 (proj2 (proj2
            (alert_log_bound (TrafficMonitor.Config 0 1 1)
               (replicate 150
                  (TrafficMonitor.OpRecordRequest 0 0 "10.0.0.1" "/" "GET"))
               _ 1000 _ _))) _).
  - vm_compute. reflexivity.
  - lia.
  - vm_compute. lia.
Defined.

(** ** The access registry *)

Section Exclusion.
Import IPFilter.

Lemma step_exclusive (o : op) (s : t) : exclusive s -> exclusive (step o s).
Proof.
  unfold exclusive. intros Hs.
  destruct o as [now a|a|a|a|a|now a d|a|a|a|now a|now|]; simpl;
    try exact Hs.
  - unfold is_allowed. repeat case_decide; simpl; try exact Hs.
    destruct (temp_blocks s !! a) as [e|]; [|exact Hs].
    destruct (Qltb now e); exact Hs.
  - intros ip. specialize (Hs ip). simpl.
    rewrite elem_of_union, elem_of_difference, elem_of_singleton. tauto.
  - intros ip. specialize (Hs ip). simpl.
    rewrite elem_of_difference. tauto.
  - intros ip. specialize (Hs ip). simpl.
    rewrite elem_of_union, elem_of_difference, elem_of_singleton. tauto.
  - intros ip. specialize (Hs ip). simpl.
    rewrite elem_of_difference. tauto.
  - unfold block_temporarily. case_decide; exact Hs.
  - unfold is_temp_blocked. destruct (temp_blocks s !! a) as [e|]; [|exact Hs].
    destruct (Qltb now e); exact Hs.
Qed.

Lemma run_exclusive (ops : list op) (s : t) :
  exclusive s -> exclusive (run ops s).
Proof.
  unfold run. revert s. induction ops as [|o ops IH]; intros s Hs; simpl.
  - exact Hs.
  - apply IH. by apply step_exclusive.
Qed.

(** C7, as amended. When the lists handed to the constructor are disjoint,
    no address is in both the whitelist and the blacklist in any state
    reached by any sequence of registry operations; [add_to_whitelist]
    removes the address from the blacklist and the temporary blocks, and
    [add_to_blacklist] removes it from the whitelist and the temporary
    blocks. *)
Theorem whitelist_blacklist_exclusive (wl bl : list string) (ops : list op) :
  (forall ip : string, ip ∈ wl -> ip ∉ bl) ->
  (forall ip : string,
      ~ ((ip ∈ whitelist (run ops (init wl bl)))
         /\ (ip ∈ blacklist (run ops (init wl bl))))) /\
  (forall (ip : string) (s : t),
      (ip ∈ whitelist (add_to_whitelist ip s))
      /\ (ip ∉ blacklist (add_to_whitelist ip s))
      /\ temp_blocks (add_to_whitelist ip s) !! ip = None) /\
  (forall (ip : string) (s : t),
      (ip ∈ blacklist (add_to_blacklist ip s))
      /\ (ip ∉ whitelist (add_to_blacklist ip s))
      /\ temp_blocks (add_to_blacklist ip s) !! ip = None).
Proof.
  intros Hdisj. split; [|split].
  - apply run_exclusive. intros ip. unfold init. simpl.
    rewrite !elem_of_list_to_set. intros [Hw Hb]. by apply (Hdisj ip).
  - intros ip s. simpl. rewrite lookup_delete_eq.
    rewrite elem_of_union, elem_of_difference, !elem_of_singleton. tauto.
  - intros ip s. simpl. rewrite lookup_delete_eq.
    rewrite elem_of_union, elem_of_difference, !elem_of_singleton. tauto.
Qed.

(** C7, as stated, fails: the constructor stores an address given in both
    initial lists in both sets. *)
Lemma whitelist_blacklist_overlap :
  ~ (forall (wl bl : list string) (ops : list op) (ip : string),
        ~ ((ip ∈ whitelist (run ops (init wl bl)))
           /\ (ip ∈ blacklist (run ops (init wl bl))))).
Proof.
  intros H. apply (H ["10.0.0.9"%string] ["10.0.0.9"%string] [] "10.0.0.9"%string).
  unfold run, init. cbn [fold_left whitelist blacklist].
  split; apply elem_of_list_to_set; left.
Qed.

End Exclusion.

Lemma whitelist_blacklist_exclusive_witness :
  ~ (("10.0.0.9"%string
        ∈ IPFilter.whitelist
            (IPFilter.run [IPFilter.OpAddToBlacklist "10.0.0.9"]
               (IPFilter.init ["10.0.0.9"%string] [])))
     /\ ("10.0.0.9"%string
        ∈ IPFilter.blacklist
            (IPFilter.run [IPFilter.OpAddToBlacklist "10.0.0.9"]
               (IPFilter.init ["10.0.0.9"%string] [])))).
Proof.
  refine (proj1 (whitelist_blacklist_exclusive ["10.0.0.9"%string] []
                   [IPFilter.OpAddToBlacklist "10.0.0.9"] _) "10.0.0.9"%string).
  intros ip _ Hin. inversion Hin.
Defined.

(** ** The rate limiter *)

Section Limiter.
Import RateLimiter.
Variable cfg : config.

Lemma window_set_requests (s : t) (ip addr : string) (l : list Q) :
  window (set_requests s ip l) addr
  = if decide (ip = addr) then l else window s addr.
Proof.
  unfold window, set_requests. simpl. rewrite lookup_insert.
  by case_decide.
Qed.

Lemma window_set_block (s : t) (ip addr : string) (e : Q) :
  window (set_block s ip e) addr = window s addr.
Proof. reflexivity. Qed.

Lemma window_del_block (s : t) (ip addr : string) :
  window (del_block s ip) addr = window s addr.
Proof. reflexivity. Qed.

(** What [check_window] does, by the comparison it makes. *)
Lemma check_window_full (now : Q) (ip : string) (s : t) :
  max_requests cfg <= Z.of_nat (length (prune (time_window cfg) now (window s ip))) ->
  check_window cfg now ip s
  = (set_block (set_requests s ip (prune (time_window cfg) now (window s ip)))
       ip (now + inject_Z (block_duration cfg))%Q,
     (false, Some (RateLimitExceeded (block_duration cfg)))).
Proof.
  intros H. unfold check_window.
  destruct (Z.leb_spec (max_requests cfg)
              (Z.of_nat (length (prune (time_window cfg) now (window s ip)))));
    [done|lia].
Qed.

Lemma check_window_room (now : Q) (ip : string) (s : t) :
  Z.of_nat (length (prune (time_window cfg) now (window s ip))) < max_requests cfg ->
  check_window cfg now ip s
  = (set_requests (set_requests s ip (prune (time_window cfg) now (window s ip)))
       ip (prune (time_window cfg) now (window s ip) ++ [now]),
     (true, None)).
Proof.
  intros H. unfold check_window.
  destruct (Z.leb_spec (max_requests cfg)
              (Z.of_nat (length (prune (time_window cfg) now (window s ip)))));
    [lia|done].
Qed.

Lemma check_window_bounded (now : Q) (ip : string) (s : t) :
  windows_bounded cfg s -> windows_bounded cfg (check_window cfg now ip s).1.
Proof.
  intros Hs addr.
  pose proof (prune_length (time_window cfg) now (window s ip)) as Hp.
  pose proof (Hs ip) as Hip. pose proof (Hs addr) as Haddr.
  destruct (Z.le_gt_cases (max_requests cfg)
              (Z.of_nat (length (prune (time_window cfg) now (window s ip)))))
    as [Hfull|Hroom].
  - rewrite check_window_full by done. simpl.
    rewrite window_set_block, window_set_requests. case_decide; lia.
  - rewrite check_window_room by lia. simpl.
    rewrite !window_set_requests. case_decide; [|done].
    rewrite length_app. simpl. lia.
Qed.

Lemma step_bounded (o : op) (s : t) :
  0 <= max_requests cfg ->
  windows_bounded cfg s -> windows_bounded cfg (step cfg o s).
Proof.
  intros HM Hs. destruct o as [now ip|now ip|now ip|now ip d|ip|now|]; simpl.
  - unfold is_allowed. destruct (blocked_ips s !! ip) as [e|].
    + destruct (Qltb now e); [exact Hs|].
      by apply check_window_bounded.
    + by apply check_window_bounded.
  - intros addr. rewrite window_set_requests.
    pose proof (prune_length (time_window cfg) now (window s ip)).
    pose proof (Hs ip). pose proof (Hs addr). case_decide; lia.
  - unfold is_blocked. destruct (blocked_ips s !! ip) as [e|]; [|exact Hs].
    destruct (Qltb now e); exact Hs.
  - exact Hs.
  - unfold unblock_ip. destruct (blocked_ips s !! ip); exact Hs.
  - exact Hs.
  - intros addr. unfold reset, window. simpl. rewrite lookup_empty. simpl. lia.
Qed.

Lemma run_bounded (ops : list op) (s : t) :
  0 <= max_requests cfg ->
  windows_bounded cfg s -> windows_bounded cfg (run cfg ops s).
Proof.
  intros HM. unfold run. revert s.
  induction ops as [|o ops IH]; intros s Hs; simpl; [done|].
  apply IH. by apply step_bounded.
Qed.

(** An allowed call found room in the pruned window and appended its
    reading to it. *)
Lemma is_allowed_true (now : Q) (ip : string) (s : t) :
  (is_allowed cfg now ip s).2.1 = true ->
  Z.of_nat (length (prune (time_window cfg) now (window s ip))) < max_requests cfg
  /\ window (is_allowed cfg now ip s).1 ip
     = prune (time_window cfg) now (window s ip) ++ [now].
Proof.
  assert (Hcw : forall s0 : t,
    (check_window cfg now ip s0).2.1 = true ->
    Z.of_nat (length (prune (time_window cfg) now (window s0 ip))) < max_requests cfg
    /\ window (check_window cfg now ip s0).1 ip
       = prune (time_window cfg) now (window s0 ip) ++ [now]).
  { intros s0.
    destruct (Z.le_gt_cases (max_requests cfg)
                (Z.of_nat (length (prune (time_window cfg) now (window s0 ip)))))
      as [Hfull|Hroom].
    - rewrite check_window_full by done. done.
    - rewrite check_window_room by lia. simpl. intros _. split; [lia|].
      rewrite window_set_requests. by case_decide. }
  unfold is_allowed. destruct (blocked_ips s !! ip) as [e|].
  - destruct (Qltb now e); [done|]. intros H.
    apply (Hcw (del_block s ip)) in H. by rewrite window_del_block in H.
  - apply Hcw.
Qed.

(** A call that finds the pruned window at the limit is denied and its
    reading is not recorded: the window is left as it was (call denied by
    a running block) or pruned. *)
Lemma is_allowed_full (now : Q) (ip : string) (s : t) :
  max_requests cfg <= Z.of_nat (length (prune (time_window cfg) now (window s ip))) ->
  (is_allowed cfg now ip s).2.1 = false
  /\ (window (is_allowed cfg now ip s).1 ip = window s ip
      \/ window (is_allowed cfg now ip s).1 ip
         = prune (time_window cfg) now (window s ip)).
Proof.
  intros Hfull. unfold is_allowed. destruct (blocked_ips s !! ip) as [e|].
  - destruct (Qltb now e); [by split; [|left]|].
    rewrite check_window_full by (by rewrite window_del_block). simpl.
    split; [done|right]. rewrite window_set_block, window_set_requests.
    rewrite window_del_block. by case_decide.
  - rewrite check_window_full by done. simpl.
    split; [done|right]. rewrite window_set_block, window_set_requests.
    by case_decide.
Qed.

(** C8. With a non-negative limit, after any sequence of rate-limiter
    operations on a fresh limiter every window holds at most
    [max_requests] timestamps; a reading is appended only when the pruned
    window is strictly below the limit, and a call that finds the pruned
    window at the limit is denied without being recorded. *)
Theorem window_size_invariant (ops : list op) :
  0 <= max_requests cfg ->
  (forall addr : string,
      Z.of_nat (length (window (run cfg ops init) addr)) <= max_requests cfg) /\
  (forall (now : Q) (ip : string) (s : t),
      (is_allowed cfg now ip s).2.1 = true ->
      Z.of_nat (length (prune (time_window cfg) now (window s ip)))
        < max_requests cfg
      /\ window (is_allowed cfg now ip s).1 ip
         = prune (time_window cfg) now (window s ip) ++ [now]) /\
  (forall (now : Q) (ip : string) (s : t),
      max_requests cfg
        <= Z.of_nat (length (prune (time_window cfg) now (window s ip))) ->
      (is_allowed cfg now ip s).2.1 = false
      /\ (window (is_allowed cfg now ip s).1 ip = window s ip
          \/ window (is_allowed cfg now ip s).1 ip
             = prune (time_window cfg) now (window s ip))).
Proof.
  intros HM. split; [|split].
  - apply run_bounded; [done|]. intros addr. unfold init, window. simpl.
    rewrite lookup_empty. simpl. lia.
  - apply is_allowed_true.
  - apply is_allowed_full.
Qed.

End Limiter.

Lemma window_size_invariant_witness :
  Z.of_nat (length (RateLimiter.window
                      (RateLimiter.run (RateLimiter.Config 2 60 300)
                         [RateLimiter.OpIsAllowed 0 "10.0.0.1";
                          RateLimiter.OpIsAllowed 0 "10.0.0.1";
                          RateLimiter.OpIsAllowed 0 "10.0.0.1"]
                         RateLimiter.init) "10.0.0.1")) <= 2.
Proof.
  refine (proj1 (window_size_invariant (RateLimiter.Config 2 60 300)
                   [RateLimiter.OpIsAllowed 0 "10.0.0.1";
                    RateLimiter.OpIsAllowed 0 "10.0.0.1";
                    RateLimiter.OpIsAllowed 0 "10.0.0.1"] _) "10.0.0.1"%string).
  simpl. lia.
Defined.

Section Threshold.
Import RateLimiter.
Variable cfg : config.
Variable ip : string.

Lemma calls_allowed (ts pre : list Q) (s : t) :
  window s ip = pre ->
  blocked_ips s !! ip = None ->
  Z.of_nat (length pre + length ts) <= max_requests cfg ->
  (forall u v : Q,
      u ∈ pre ++ ts -> v ∈ pre ++ ts -> (u - v < inject_Z (time_window cfg))%Q) ->
  (calls cfg ts ip s).2 = replicate (length ts) (true, None)
  /\ window (calls cfg ts ip s).1 ip = pre ++ ts
  /\ blocked_ips (calls cfg ts ip s).1 !! ip = None.
Proof.
  revert pre s. induction ts as [|now ts IH]; intros pre s Hw Hb Hlen Hin.
  - simpl. by rewrite app_nil_r.
  - cbn [calls]. unfold is_allowed. rewrite Hb.
    assert (Hp : prune (time_window cfg) now (window s ip) = pre).
    { rewrite Hw. apply prune_all. apply Forall_forall. intros u Hu.
      apply Hin; rewrite elem_of_app, elem_of_cons; auto. }
    rewrite check_window_room by (rewrite Hp; simpl in Hlen; lia).
    rewrite Hp.
    set (s1 := set_requests (set_requests s ip pre) ip (pre ++ [now])).
    specialize (IH (pre ++ [now]) s1).
    destruct (calls cfg ts ip s1) as [s2 rs] eqn:E. simpl in *.
    destruct IH as (IH1 & IH2 & IH3).
    + unfold s1. rewrite window_set_requests. by case_decide.
    + exact Hb.
    + rewrite length_app. simpl. lia.
    + intros u v Hu Hv. rewrite <- app_assoc in Hu, Hv. by apply Hin.
    + rewrite IH1, IH2, <- app_assoc. done.
Qed.

(** C2, as amended. For a fresh address and [M = max_requests] calls at
    readings that lie within [time_window] seconds of each other and of the
    next call, the [M] calls are all allowed and their readings appended in
    order; the [(M+1)]-th call is denied, sets a block expiring at its
    reading plus [block_duration], and is not recorded.  Once the block has
    elapsed a further call is allowed exactly when fewer than [M] of the
    recorded readings are still within [time_window] seconds of it; this
    is the case when [M >= 1] and [block_duration >= time_window] on a
    non-decreasing clock. *)
Theorem rate_limit_threshold (s : t) (ts : list Q) (t' : Q) :
  window s ip = [] ->
  blocked_ips s !! ip = None ->
  Z.of_nat (length ts) = max_requests cfg ->
  (forall u v : Q,
      u ∈ ts ++ [t'] -> v ∈ ts ++ [t'] ->
      (u - v < inject_Z (time_window cfg))%Q) ->
  (calls cfg ts ip s).2 = replicate (length ts) (true, None)
  /\ window (calls cfg ts ip s).1 ip = ts
  /\ (is_allowed cfg t' ip (calls cfg ts ip s).1).2
     = (false, Some (RateLimitExceeded (block_duration cfg)))
  /\ blocked_ips (is_allowed cfg t' ip (calls cfg ts ip s).1).1 !! ip
     = Some (t' + inject_Z (block_duration cfg))%Q
  /\ window (is_allowed cfg t' ip (calls cfg ts ip s).1).1 ip = ts
  /\ (forall t'' : Q,
        (t' + inject_Z (block_duration cfg) <= t'')%Q ->
        ((is_allowed cfg t'' ip (is_allowed cfg t' ip (calls cfg ts ip s).1).1).2.1
           = true
         <-> Z.of_nat (length (prune (time_window cfg) t'' ts))
             < max_requests cfg))
  /\ (1 <= max_requests cfg ->
      time_window cfg <= block_duration cfg ->
      (forall u : Q, u ∈ ts -> (u <= t')%Q) ->
      forall t'' : Q,
        (t' + inject_Z (block_duration cfg) <= t'')%Q ->
        (is_allowed cfg t'' ip (is_allowed cfg t' ip (calls cfg ts ip s).1).1).2
        = (true, None)).
Proof.
  intros Hfresh Hnoblock Hlen Hnear.
  destruct (calls_allowed ts [] s Hfresh Hnoblock) as (Hrs & Hwin & Hblk).
  { simpl. lia. }
  { intros u v Hu Hv. apply Hnear; rewrite elem_of_app; auto. }
  simpl in Hwin.
  set (s1 := (calls cfg ts ip s).1) in *.
  assert (Hp : prune (time_window cfg) t' (window s1 ip) = ts).
  { rewrite Hwin. apply prune_all, Forall_forall. intros u Hu.
    apply Hnear; rewrite elem_of_app, list_elem_of_singleton; auto. }
  assert (Hdeny : is_allowed cfg t' ip s1
                  = (set_block (set_requests s1 ip ts) ip
                       (t' + inject_Z (block_duration cfg))%Q,
                     (false, Some (RateLimitExceeded (block_duration cfg))))).
  { unfold is_allowed. rewrite Hblk.
    rewrite check_window_full by (rewrite Hp; lia). by rewrite Hp. }
  rewrite Hdeny. cbn [fst snd].
  set (s2 := set_block (set_requests s1 ip ts) ip
               (t' + inject_Z (block_duration cfg))%Q).
  assert (Hwin2 : window s2 ip = ts).
  { unfold s2. rewrite window_set_block, window_set_requests. by case_decide. }
  assert (Hblk2 : blocked_ips s2 !! ip
                  = Some (t' + inject_Z (block_duration cfg))%Q).
  { unfold s2, set_block. simpl. apply lookup_insert_eq. }
  assert (Hlater : forall t'' : Q,
    (t' + inject_Z (block_duration cfg) <= t'')%Q ->
    is_allowed cfg t'' ip s2 = check_window cfg t'' ip (del_block s2 ip)).
  { intros t'' Hle. unfold is_allowed. rewrite Hblk2.
    apply Qltb_ge in Hle. by rewrite Hle. }
  repeat split; try done.
  - rewrite Hlater by done. intros Hok.
    destruct (Z.le_gt_cases (max_requests cfg)
                (Z.of_nat (length (prune (time_window cfg) t'' ts))))
      as [Hfull|Hroom]; [|lia].
    rewrite check_window_full in Hok
      by (by rewrite window_del_block, Hwin2). done.
  - rewrite Hlater by done. intros Hroom.
    rewrite check_window_room by (by rewrite window_del_block, Hwin2). done.
  - intros HM HWD Hmono t'' Hle. rewrite Hlater by done.
    assert (Hnone : prune (time_window cfg) t'' (window (del_block s2 ip) ip) = []).
    { rewrite window_del_block, Hwin2. apply prune_none, Forall_forall.
      intros u Hu. specialize (Hmono u Hu).
      assert ((inject_Z (time_window cfg) <= inject_Z (block_duration cfg))%Q)
        by (by rewrite <- Zle_Qle).
      lra. }
    rewrite check_window_room by (rewrite Hnone; simpl; lia).
    done.
Qed.

End Threshold.

Lemma rate_limit_threshold_witness :
  (RateLimiter.is_allowed (RateLimiter.Config 2 60 300) 400 "10.0.0.1"
     (RateLimiter.is_allowed (RateLimiter.Config 2 60 300) 1 "10.0.0.1"
        (calls (RateLimiter.Config 2 60 300) [0; (1 # 2)]%Q "10.0.0.1"
           RateLimiter.init).1).1).2
  = (true, None).
Proof.
  refine (proj2 (proj2 (proj2 (proj2 (proj2 (proj2
            (rate_limit_threshold (RateLimiter.Config 2 60 300) "10.0.0.1"
               RateLimiter.init [0; (1 # 2)]%Q 1 _ _ _ _))))))
            _ _ _ 400%Q _).
  - reflexivity.
  - reflexivity.
  - reflexivity.
  - intros u v Hu Hv.
    repeat (apply elem_of_cons in Hu as [->|Hu]);
      try (by apply elem_of_nil in Hu);
    repeat (apply elem_of_cons in Hv as [->|Hv]);
      try (by apply elem_of_nil in Hv); reflexivity.
  - simpl. lia.
  - simpl. lia.
  - intros u Hu.
    repeat (apply elem_of_cons in Hu as [->|Hu]);
      try (by apply elem_of_nil in Hu); by vm_compute.
  - by vm_compute.
Defined.

(** C2, as stated, fails when the block is shorter than the window: with
    [max_requests = 2], [time_window = 60] and [block_duration = 10], two
    calls at second 0 are allowed, the third is denied, and the call at
    second 11, when the block has elapsed, is denied again. *)
Lemma rate_limit_threshold_short_block :
  (calls (RateLimiter.Config 2 60 10) [0; 0; 0; 11]%Q "10.0.0.1"
     RateLimiter.init).2
  = [(true, None); (true, None);
     (false, Some (RateLimiter.RateLimitExceeded 10));
     (false, Some (RateLimiter.RateLimitExceeded 10))].
Proof. vm_compute. reflexivity. Qed.

(** ** The monitor below the suspicious threshold *)

Section Monitor.
Import TrafficMonitor.
Variable cfg : config.

Lemma window_set_requests_mon (s : t) (ip addr : string) (l : list Q) :
  window (set_requests s ip l) addr
  = if decide (ip = addr) then l else window s addr.
Proof.
  unfold window, set_requests. simpl. rewrite lookup_insert.
  by case_decide.
Qed.

Lemma record_request_some (now na : Q) (ip e m : string) (s : t) :
  detection_window cfg <> 0 ->
  exists s' : t,
    record_request cfg now na ip e m s = Some s'
    /\ window s' ip = prune (detection_window cfg) now (window s ip) ++ [now].
Proof.
  intros Hdw. unfold record_request, py_div.
  destruct (Z.eqb_spec (detection_window cfg) 0) as [|_]; [done|].
  match goal with
  | |- context [Qltb ?a ?b] => destruct (Qltb a b)
  end.
  - match goal with
    | |- context [?a <=? ?b] => destruct (a <=? b)
    end; eexists; (split; [reflexivity|]);
      unfold _trigger_alert, window; simpl; by rewrite lookup_insert_eq.
  - eexists. split; [reflexivity|].
    unfold window. simpl. by rewrite lookup_insert_eq.
Qed.

Lemma rate_quiet (n : nat) :
  0 < detection_window cfg ->
  (inject_Z (Z.of_nat n)
     <= suspicious_threshold cfg * inject_Z (detection_window cfg))%Q ->
  Qltb (suspicious_threshold cfg)
       (inject_Z (Z.of_nat n) / inject_Z (detection_window cfg)) = false.
Proof.
  intros Hdw Hn. apply Qltb_ge. apply Qle_shift_div_r; [|done].
  change 0%Q with (inject_Z 0). by rewrite <- Zlt_Qlt.
Qed.

Lemma quiet_shorter (n k : nat) :
  (k <= n)%nat ->
  (inject_Z (Z.of_nat n)
     <= suspicious_threshold cfg * inject_Z (detection_window cfg))%Q ->
  (inject_Z (Z.of_nat k)
     <= suspicious_threshold cfg * inject_Z (detection_window cfg))%Q.
Proof.
  intros Hk Hn. eapply Qle_trans; [|exact Hn].
  rewrite <- Zle_Qle. lia.
Qed.

(** With at most [T * detection_window] requests in the window after
    recording, [record_request] only updates the window. *)
Lemma record_request_quiet (now na : Q) (ip e m : string) (s : t) :
  0 < detection_window cfg ->
  (inject_Z (Z.of_nat (length (window s ip) + 1))
     <= suspicious_threshold cfg * inject_Z (detection_window cfg))%Q ->
  record_request cfg now na ip e m s
  = Some (set_requests s ip
            (prune (detection_window cfg) now (window s ip) ++ [now])).
Proof.
  intros Hdw Hn. unfold record_request, py_div.
  destruct (Z.eqb_spec (detection_window cfg) 0) as [|_]; [lia|].
  rewrite rate_quiet; [done|done|].
  eapply quiet_shorter; [|exact Hn].
  rewrite length_app. simpl.
  pose proof (prune_length (detection_window cfg) now (window s ip)). lia.
Qed.

Lemma is_suspicious_quiet (now : Q) (ip : string) (s : t) :
  0 < detection_window cfg ->
  (inject_Z (Z.of_nat (length (window s ip)))
     <= suspicious_threshold cfg * inject_Z (detection_window cfg))%Q ->
  is_suspicious cfg now ip s
  = Some (set_requests s ip (prune (detection_window cfg) now (window s ip)),
          (false, None)).
Proof.
  intros Hdw Hn. unfold is_suspicious.
  destruct (prune (detection_window cfg) now (window s ip)) as [|q l] eqn:E;
    [done|].
  unfold py_div.
  destruct (Z.eqb_spec (detection_window cfg) 0) as [|_]; [lia|].
  rewrite rate_quiet; [done|done|].
  eapply quiet_shorter; [|exact Hn].
  rewrite <- E. apply prune_length.
Qed.

End Monitor.

(** ** The coordinator *)

Section Pipeline.
Import System.
Variable cfg : config.

Lemma filter_is_allowed_whitelisted (now : Q) (ip : string) (f : IPFilter.t) :
  ip ∈ IPFilter.whitelist f ->
  IPFilter.is_allowed now ip f = (f, (true, IPFilter.Whitelisted)).
Proof. intros H. unfold IPFilter.is_allowed. by rewrite decide_True. Qed.

Lemma filter_is_allowed_clear (now : Q) (ip : string) (f : IPFilter.t) :
  ip ∉ IPFilter.whitelist f ->
  ip ∉ IPFilter.blacklist f ->
  IPFilter.temp_blocks f !! ip = None ->
  IPFilter.is_allowed now ip f = (f, (true, IPFilter.Allowed)).
Proof.
  intros Hw Hb Ht. unfold IPFilter.is_allowed.
  rewrite decide_False by done. rewrite decide_False by done.
  by rewrite Ht.
Qed.

Lemma filter_is_allowed_temp (now e : Q) (ip : string) (f : IPFilter.t) :
  ip ∉ IPFilter.whitelist f ->
  ip ∉ IPFilter.blacklist f ->
  IPFilter.temp_blocks f !! ip = Some e ->
  (now < e)%Q ->
  IPFilter.is_allowed now ip f
  = (f, (false, IPFilter.TempBlocked (py_int (e - now)))).
Proof.
  intros Hw Hb Ht Hlt. unfold IPFilter.is_allowed.
  rewrite decide_False by done. rewrite decide_False by done.
  rewrite Ht. apply Qltb_lt in Hlt. by rewrite Hlt.
Qed.

(** The whitelisted path of [process_request]. *)
Lemma process_request_whitelisted (tk : ticks) (ip e m : string) (s : t) :
  ip ∈ IPFilter.whitelist (ip_filter s) ->
  process_request cfg tk ip e m s
  = match TrafficMonitor.record_request (monitor_cfg cfg) (t_record tk)
            (t_alert tk) ip e m (traffic_monitor s) with
    | None => None
    | Some m1 =>
        Some (Mk (rate_limiter s) m1 (ip_filter s),
              (true, WhitelistedIP,
               Details ip e m (t_details tk) None None (Some by_whitelist)
                       false None))
    end.
Proof.
  intros Hw. unfold process_request.
  rewrite filter_is_allowed_whitelisted by done.
  cbn [negb ip_filter rate_limiter traffic_monitor].
  unfold IPFilter.is_whitelisted. by rewrite bool_decide_eq_true_2.
Qed.


End Pipeline.


Section Decision.
Import System.
Variable cfg : config.

Lemma prune_app_keep (w : Z) (now t0 : Q) (l : list Q) :
  (now - t0 < inject_Z w)%Q ->
  prune w now (l ++ [t0]) = prune w now l ++ [t0].
Proof.
  intros H. unfold prune. rewrite List.filter_app. simpl.
  apply Qltb_lt in H. by rewrite H.
Qed.

(** The steps of [process_request] for an address the registry lets
    through and that is not whitelisted. *)
Lemma process_request_unlisted (tk : ticks) (ip e m : string) (s : t) :
  ip ∉ IPFilter.whitelist (ip_filter s) ->
  ip ∉ IPFilter.blacklist (ip_filter s) ->
  IPFilter.temp_blocks (ip_filter s) !! ip = None ->
  process_request cfg tk ip e m s
  = let '(r1, (is_allowed, rate_reason)) :=
      RateLimiter.is_allowed (rate_cfg cfg) (t_limiter tk) ip (rate_limiter s) in
    if negb is_allowed then
      Some (Mk r1 (traffic_monitor s)
               (if auto_block cfg then
                  IPFilter.block_temporarily (t_block tk) ip
                    (RateLimiter.block_duration (rate_cfg cfg)) (ip_filter s)
                else ip_filter s),
            (false, LimiterReason rate_reason,
             Details ip e m (t_details tk) (Some by_rate_limiter)
                     (Some (LimiterReason rate_reason)) None false None))
    else
      match TrafficMonitor.record_request (monitor_cfg cfg) (t_record tk)
              (t_alert tk) ip e m (traffic_monitor s) with
      | None => None
      | Some m1 =>
          match TrafficMonitor.is_suspicious (monitor_cfg cfg)
                  (t_suspicious tk) ip m1 with
          | None => None
          | Some (m2, (is_suspicious, suspicious_details)) =>
              if is_suspicious && auto_block cfg
                 && severity_in_high_critical suspicious_details then
                Some (Mk r1 m2
                         (IPFilter.block_temporarily (t_block tk) ip 600
                            (ip_filter s)),
                      (false, SuspiciousActivity suspicious_details,
                       Details ip e m (t_details tk) None None None true
                               suspicious_details))
              else
                Some (Mk r1 m2 (ip_filter s),
                      (true, RequestAllowed,
                       Details ip e m (t_details tk) None None
                               (Some by_all_checks_passed) is_suspicious
                               (if is_suspicious then suspicious_details
                                else None)))
          end
      end.
Proof.
  intros Hw Hb Ht. unfold process_request.
  rewrite filter_is_allowed_clear by done.
  cbn [negb ip_filter rate_limiter traffic_monitor].
  unfold IPFilter.is_whitelisted. rewrite bool_decide_eq_false_2 by done.
  destruct (RateLimiter.is_allowed _ _ _ _) as [r1 [ok rr]].
  cbn [ip_filter rate_limiter traffic_monitor].
  destruct (negb ok); [destruct s; done|].
  destruct (TrafficMonitor.record_request _ _ _ _ _ _ _) as [m1|]; [|done].
  destruct (TrafficMonitor.is_suspicious _ _ _ _) as [[m2 [sus sd]]|]; [|done].
  cbn [ip_filter rate_limiter traffic_monitor].
  destruct (sus && auto_block cfg && severity_in_high_critical sd);
    destruct s; done.
Qed.

(** C9. When [process_request] denies with the suspicious-activity reason,
    the state it leaves holds the request's reading at the end of the
    rate-limiter window of the address, and (the check following the
    recording by less than the detection window) at the end of the monitor
    window as well: nothing is rolled back. *)
Theorem suspicious_denial_recorded (tk : ticks) (ip e m : string) (s s' : t)
    (d : option TrafficMonitor.details) (dt : details) :
  process_request cfg tk ip e m s
    = Some (s', (false, SuspiciousActivity d, dt)) ->
  (t_suspicious tk - t_record tk
     < inject_Z (TrafficMonitor.detection_window (monitor_cfg cfg)))%Q ->
  RateLimiter.window (rate_limiter s') ip
    = prune (RateLimiter.time_window (rate_cfg cfg)) (t_limiter tk)
        (RateLimiter.window (rate_limiter s) ip) ++ [t_limiter tk]
  /\ TrafficMonitor.window (traffic_monitor s') ip
    = prune (TrafficMonitor.detection_window (monitor_cfg cfg)) (t_suspicious tk)
        (prune (TrafficMonitor.detection_window (monitor_cfg cfg)) (t_record tk)
           (TrafficMonitor.window (traffic_monitor s) ip)) ++ [t_record tk].
Proof.
  intros Hreq Hnear.
  destruct (decide (ip ∈ IPFilter.whitelist (ip_filter s))) as [Hw|Hw].
  { rewrite process_request_whitelisted in Hreq by done.
    destruct (TrafficMonitor.record_request _ _ _ _ _ _ _); done. }
  unfold process_request in Hreq.
  destruct (IPFilter.is_allowed (t_filter tk) ip (ip_filter s))
    as [f1 [ok fr]] eqn:Hf.
  destruct ok; cbn [negb] in Hreq; [|done].
  cbn [ip_filter rate_limiter traffic_monitor] in Hreq.
  assert (Hw1 : IPFilter.is_whitelisted ip f1 = false).
  { unfold IPFilter.is_whitelisted. apply bool_decide_eq_false_2.
    unfold IPFilter.is_allowed in Hf.
    rewrite decide_False in Hf by done.
    destruct (decide (ip ∈ IPFilter.blacklist (ip_filter s))); [done|].
    destruct (IPFilter.temp_blocks (ip_filter s) !! ip) as [ex|].
    - destruct (Qltb (t_filter tk) ex); [done|].
      injection Hf as <- _. done.
    - injection Hf as <- _. done. }
  rewrite Hw1 in Hreq.
  pose proof (is_allowed_true (rate_cfg cfg) (t_limiter tk) ip (rate_limiter s))
    as Hrl.
  destruct (RateLimiter.is_allowed (rate_cfg cfg) (t_limiter tk) ip
              (rate_limiter s)) as [r1 [ok rr]].
  destruct ok; cbn [negb] in Hreq; [|done].
  cbn [ip_filter rate_limiter traffic_monitor fst snd] in *.
  destruct Hrl as [_ Hrl]; [done|].
  destruct (TrafficMonitor.record_request (monitor_cfg cfg) (t_record tk)
              (t_alert tk) ip e m (traffic_monitor s)) as [m1|] eqn:Hrec;
    [|done].
  assert (Hdw : TrafficMonitor.detection_window (monitor_cfg cfg) <> 0).
  { intros H0. unfold TrafficMonitor.record_request, py_div in Hrec.
    rewrite H0 in Hrec. done. }
  destruct (record_request_some (monitor_cfg cfg) (t_record tk) (t_alert tk)
              ip e m (traffic_monitor s) Hdw) as (m1' & Hrec' & Hwin1).
  rewrite Hrec in Hrec'. injection Hrec' as <-.
  unfold TrafficMonitor.is_suspicious in Hreq. rewrite Hwin1 in Hreq.
  rewrite prune_app_keep in Hreq by done.
  remember (prune (TrafficMonitor.detection_window (monitor_cfg cfg))
              (t_suspicious tk)
              (prune (TrafficMonitor.detection_window (monitor_cfg cfg))
                 (t_record tk)
                 (TrafficMonitor.window (traffic_monitor s) ip))
            ++ [t_record tk]) as reqs eqn:Hreqs.
  destruct reqs as [|q l]; [done|].
  destruct (py_div _ _) as [rate|]; [|done].
  destruct (Qltb _ rate); [|done].
  match type of Hreq with
  | (if ?c then _ else _) = _ => destruct c; [|done]
  end.
  injection Hreq as <- _ _. cbn [rate_limiter traffic_monitor].
  split; [done|].
  unfold TrafficMonitor.window, TrafficMonitor.set_violations,
    TrafficMonitor.set_requests. simpl. by rewrite lookup_insert_eq.
Qed.

End Decision.

Lemma suspicious_denial_recorded_witness :
  exists (s' : System.t) (d : option TrafficMonitor.details) (dt : System.details),
    System.process_request
      (System.Config (RateLimiter.Config 100 60 300)
         (TrafficMonitor.Config (1 # 10) 1 3) [] [] true)
      (System.Ticks 0 0 0 0 0 0 0) "10.0.0.1" "/" "GET"
      (System.init (System.Config (RateLimiter.Config 100 60 300)
                      (TrafficMonitor.Config (1 # 10) 1 3) [] [] true))
    = Some (s', (false, System.SuspiciousActivity d, dt))
    /\ RateLimiter.window (System.rate_limiter s') "10.0.0.1" = [0%Q]
    /\ TrafficMonitor.window (System.traffic_monitor s') "10.0.0.1" = [0%Q].
Proof.
  eexists _, _, _. split; [vm_compute; reflexivity|].
  refine (suspicious_denial_recorded
            (System.Config (RateLimiter.Config 100 60 300)
               (TrafficMonitor.Config (1 # 10) 1 3) [] [] true)
            (System.Ticks 0 0 0 0 0 0 0) "10.0.0.1" "/" "GET"
            (System.init (System.Config (RateLimiter.Config 100 60 300)
                            (TrafficMonitor.Config (1 # 10) 1 3) [] [] true))
            _ _ _ _ _).
  - vm_compute. reflexivity.
  - reflexivity.
Defined.

Section Unblock.
Import System.
Variable cfg : config.

Lemma limiter_unblock_ip_window (ip addr : string) (r : RateLimiter.t) :
  RateLimiter.window (RateLimiter.unblock_ip ip r) addr = RateLimiter.window r addr.
Proof.
  unfold RateLimiter.unblock_ip.
  by destruct (RateLimiter.blocked_ips r !! ip).
Qed.

Lemma limiter_unblock_ip_clear (ip : string) (r : RateLimiter.t) :
  RateLimiter.blocked_ips (RateLimiter.unblock_ip ip r) !! ip = None.
Proof.
  unfold RateLimiter.unblock_ip.
  destruct (RateLimiter.blocked_ips r !! ip) eqn:E; [|done].
  simpl. apply lookup_delete_eq.
Qed.

Lemma block_temporarily_lists (now : Q) (ip : string) (d : Z) (f : IPFilter.t) :
  IPFilter.whitelist (IPFilter.block_temporarily now ip d f) = IPFilter.whitelist f
  /\ IPFilter.blacklist (IPFilter.block_temporarily now ip d f) = IPFilter.blacklist f.
Proof. unfold IPFilter.block_temporarily. by case_decide. Qed.

(** What [unblock_ip] clears, in any state. *)
Lemma unblock_ip_clears (ip : string) (s : t) :
  IPFilter.temp_blocks (ip_filter (unblock_ip ip s)) !! ip = None
  /\ RateLimiter.blocked_ips (rate_limiter (unblock_ip ip s)) !! ip = None
  /\ TrafficMonitor.violations (traffic_monitor (unblock_ip ip s)) ip = 0.
Proof.
  unfold unblock_ip. cbn [ip_filter rate_limiter traffic_monitor].
  split; [apply lookup_delete_eq|].
  split; [apply limiter_unblock_ip_clear|].
  unfold TrafficMonitor.violations, TrafficMonitor.reset_violations. simpl.
  by rewrite lookup_insert_eq.
Qed.

(** C3, as amended. [unblock_ip] clears the temporary block and the
    rate-limiter block of the address and sets its violation counter to
    zero, in every state.  For an address that is not blacklisted, whose
    rate-limiter window has room at the next request and whose monitor
    window, the request included, stays within [threshold *
    detection_window], the request following a temporary block and
    [unblock_ip] is allowed, and the violation counter still reads zero
    after it. *)
Theorem unblock_restores_access (now : Q) (duration : option Z) (tk : ticks)
    (ip e m : string) (s : t) :
  ip ∉ IPFilter.blacklist (ip_filter s) ->
  0 < TrafficMonitor.detection_window (monitor_cfg cfg) ->
  (inject_Z (Z.of_nat (length (TrafficMonitor.window (traffic_monitor s) ip) + 1))
     <= TrafficMonitor.suspicious_threshold (monitor_cfg cfg)
        * inject_Z (TrafficMonitor.detection_window (monitor_cfg cfg)))%Q ->
  Z.of_nat (length (prune (RateLimiter.time_window (rate_cfg cfg)) (t_limiter tk)
                      (RateLimiter.window (rate_limiter s) ip)))
    < RateLimiter.max_requests (rate_cfg cfg) ->
  (forall s0 : t,
      IPFilter.temp_blocks (ip_filter (unblock_ip ip s0)) !! ip = None
      /\ RateLimiter.blocked_ips (rate_limiter (unblock_ip ip s0)) !! ip = None
      /\ TrafficMonitor.violations (traffic_monitor (unblock_ip ip s0)) ip = 0)
  /\ exists (s2 : t) (r : reason) (dt : details),
       process_request cfg tk ip e m
         (unblock_ip ip (block_ip cfg now ip duration false s))
       = Some (s2, (true, r, dt))
       /\ TrafficMonitor.violations (traffic_monitor s2) ip = 0.
Proof.
  intros Hb Hdw Hquiet Hroom. split; [intros s0; apply unblock_ip_clears|].
  set (s1 := unblock_ip ip (block_ip cfg now ip duration false s)).
  destruct (unblock_ip_clears ip (block_ip cfg now ip duration false s))
    as (Ht1 & Hb1 & Hv1). fold s1 in Ht1, Hb1, Hv1.
  pose proof (block_temporarily_lists now ip
                (py_or duration (RateLimiter.block_duration (rate_cfg cfg)))
                (ip_filter s)) as [Hwl Hbl].
  assert (Hwin1 : TrafficMonitor.window (traffic_monitor s1) ip
                  = TrafficMonitor.window (traffic_monitor s) ip) by done.
  assert (Hrec : TrafficMonitor.record_request (monitor_cfg cfg) (t_record tk)
                   (t_alert tk) ip e m (traffic_monitor s1)
                 = Some (TrafficMonitor.set_requests (traffic_monitor s1) ip
                           (prune (TrafficMonitor.detection_window (monitor_cfg cfg))
                              (t_record tk)
                              (TrafficMonitor.window (traffic_monitor s1) ip)
                            ++ [t_record tk]))).
  { apply record_request_quiet; [done|]. by rewrite Hwin1. }
  destruct (decide (ip ∈ IPFilter.whitelist (ip_filter s))) as [Hw|Hw].
  - rewrite process_request_whitelisted by (by simpl; rewrite Hwl).
    rewrite Hrec. by eexists _, _, _.
  - rewrite process_request_unlisted;
      [|by simpl; rewrite Hwl|by simpl; rewrite Hbl|done].
    unfold RateLimiter.is_allowed. rewrite Hb1.
    rewrite check_window_room
      by (subst s1; simpl; by rewrite limiter_unblock_ip_window).
    cbn [negb]. rewrite Hrec.
    rewrite is_suspicious_quiet; [by eexists _, _, _|done|].
    rewrite window_set_requests_mon, decide_True by done.
    eapply quiet_shorter; [|exact Hquiet].
    rewrite length_app, Hwin1. simpl.
    pose proof (prune_length (TrafficMonitor.detection_window (monitor_cfg cfg))
                  (t_record tk) (TrafficMonitor.window (traffic_monitor s) ip)).
    lia.
Qed.

End Unblock.

Lemma unblock_restores_access_witness :
  exists (s2 : System.t) (r : System.reason) (dt : System.details),
    System.process_request System.default_config
      (System.Ticks 2 2 2 2 2 2 2) "10.0.0.3" "/api/data" "GET"
      (System.unblock_ip "10.0.0.3"
         (System.block_ip System.default_config 1 "10.0.0.3" (Some 10) false
            (System.init System.default_config)))
    = Some (s2, (true, r, dt))
    /\ TrafficMonitor.violations (System.traffic_monitor s2) "10.0.0.3" = 0.
Proof.
  refine (proj2 (unblock_restores_access System.default_config 1 (Some 10)
                   (System.Ticks 2 2 2 2 2 2 2) "10.0.0.3" "/api/data" "GET"
                   (System.init System.default_config) _ _ _ _)).
  - simpl. apply not_elem_of_empty.
  - reflexivity.
  - vm_compute. discriminate.
  - reflexivity.
Defined.

(** C3, as stated, fails for an address that had reached the rate limit:
    after 100 allowed requests under the default configuration, a temporary
    block followed by [unblock_ip] leaves the 100 readings in the window, and
    the next request is denied by the rate limiter. *)
Lemma unblock_after_limit_denied :
  match System.process_all System.default_config
          (replicate 100 (System.Ticks 0 0 0 0 0 0 0)) "10.0.0.3" "/" "GET"
          (System.init System.default_config) with
  | Some (s, rs) =>
      (map (fun r : System.result => r.1.1) rs,
       (fun x : System.t * System.result => x.2.1) <$>
         System.process_request System.default_config
           (System.Ticks 1 1 1 1 1 1 1) "10.0.0.3" "/" "GET"
           (System.unblock_ip "10.0.0.3"
              (System.block_ip System.default_config 0 "10.0.0.3" (Some 10) false s)))
  | None => ([], None)
  end
  = (replicate 100 true,
     Some (false, System.LimiterReason (Some (RateLimiter.RateLimitExceeded 300)))).
Proof. vm_compute. reflexivity. Qed.

(** ** The end-to-end scenario *)

Section EndToEnd.
Import System.
Variable cfg : config.
Variables ip e m : string.
Variable lo : Q.
Hypothesis Hrate : rate_cfg cfg = RateLimiter.Config 100 60 300.
Hypothesis Hdw : 0 < TrafficMonitor.detection_window (monitor_cfg cfg).
Hypothesis Hquiet :
  (inject_Z 100
     <= TrafficMonitor.suspicious_threshold (monitor_cfg cfg)
        * inject_Z (TrafficMonitor.detection_window (monitor_cfg cfg)))%Q.

Lemma within_fields (hi : Q) (tk : ticks) :
  within lo hi tk ->
  (lo <= t_filter tk /\ t_filter tk < hi)%Q
  /\ (lo <= t_limiter tk /\ t_limiter tk < hi)%Q
  /\ (lo <= t_block tk /\ t_block tk < hi)%Q.
Proof.
  unfold within, readings. intros H.
  repeat match goal with
         | H : Forall _ (_ :: _) |- _ => apply Forall_cons in H as [? H]
         end.
  done.
Qed.

Lemma process_all_app (tks1 tks2 : list ticks) (s : t) :
  process_all cfg (tks1 ++ tks2) ip e m s
  = match process_all cfg tks1 ip e m s with
    | Some (s1, rs1) =>
        match process_all cfg tks2 ip e m s1 with
        | Some (s2, rs2) => Some (s2, rs1 ++ rs2)
        | None => None
        end
    | None => None
    end.
Proof.
  revert s. induction tks1 as [|tk tks1 IH]; intros s; simpl.
  - by destruct (process_all cfg tks2 ip e m s) as [[??]|].
  - destruct (process_request cfg tk ip e m s) as [[s1 r]|]; [|done].
    rewrite IH. destruct (process_all cfg tks1 ip e m s1) as [[s2 rs1]|]; [|done].
    by destruct (process_all cfg tks2 ip e m s2) as [[??]|].
Qed.

(** Below the limit a request passes every check and is recorded. *)
Lemma admitted_step (k : nat) (tk : ticks) (s : t) :
  admitted lo ip k s -> (k < 100)%nat -> within lo (lo + 1) tk ->
  exists (s' : t) (dt : details),
    process_request cfg tk ip e m s = Some (s', (true, RequestAllowed, dt))
    /\ admitted lo ip (S k) s'.
Proof.
  intros (Hw & Hb & Ht & Hblk & Hlen & Hall & Hmon) Hk Htk.
  apply within_fields in Htk as (_ & Hlim & _).
  rewrite process_request_unlisted by done.
  unfold RateLimiter.is_allowed. rewrite Hblk.
  assert (Hp : prune (RateLimiter.time_window (rate_cfg cfg)) (t_limiter tk)
                 (RateLimiter.window (rate_limiter s) ip)
               = RateLimiter.window (rate_limiter s) ip).
  { apply prune_all. rewrite Hrate. simpl.
    eapply Forall_impl; [exact Hall|]. simpl. intros u Hu.
    change (inject_Z 60) with 60%Q. lra. }
  rewrite check_window_room by (rewrite Hp, Hrate; simpl; lia).
  rewrite Hp. cbn [negb].
  assert (Hq : forall n : nat, (n <= 100)%nat ->
    (inject_Z (Z.of_nat n)
       <= TrafficMonitor.suspicious_threshold (monitor_cfg cfg)
          * inject_Z (TrafficMonitor.detection_window (monitor_cfg cfg)))%Q).
  { intros n Hn. eapply Qle_trans; [|exact Hquiet]. rewrite <- Zle_Qle. lia. }
  rewrite record_request_quiet by (try done; apply Hq; lia).
  rewrite is_suspicious_quiet; [|done|].
  2:{ apply Hq. rewrite window_set_requests_mon, decide_True by done.
      rewrite length_app. simpl.
      pose proof (prune_length (TrafficMonitor.detection_window (monitor_cfg cfg))
                    (t_record tk) (TrafficMonitor.window (traffic_monitor s) ip)).
      lia. }
  eexists _, _. split; [reflexivity|].
  unfold admitted. cbn [ip_filter rate_limiter traffic_monitor].
  rewrite !window_set_requests, !window_set_requests_mon, !decide_True by done.
  repeat split; try done.
  - rewrite length_app. simpl. lia.
  - apply Forall_app. split; [done|]. by constructor.
  - etrans; [apply prune_length|]. rewrite length_app. simpl.
    pose proof (prune_length (TrafficMonitor.detection_window (monitor_cfg cfg))
                  (t_record tk) (TrafficMonitor.window (traffic_monitor s) ip)).
    lia.
Qed.

Lemma admitted_run (tks : list ticks) (k : nat) (s : t) :
  admitted lo ip k s -> (k + length tks <= 100)%nat ->
  Forall (within lo (lo + 1)) tks ->
  exists (s' : t) (rs : list result),
    process_all cfg tks ip e m s = Some (s', rs)
    /\ map verdict rs = replicate (length tks) (true, VAllowed)
    /\ admitted lo ip (k + length tks) s'.
Proof.
  revert k s. induction tks as [|tk tks IH]; intros k s Hs Hk Htks.
  - exists s, []. simpl. by rewrite Nat.add_0_r.
  - apply Forall_cons in Htks as [Htk Htks]. simpl in Hk.
    destruct (admitted_step k tk s Hs) as (s1 & dt & Hreq & Hs1); [lia|done|].
    destruct (IH (S k) s1 Hs1) as (s' & rs & Hrun & Hrs & Hs'); [lia|done|].
    cbn [process_all]. rewrite Hreq, Hrun.
    eexists _, _. split; [reflexivity|]. split.
    + simpl. by rewrite Hrs.
    + simpl. by rewrite Nat.add_succ_r.
Qed.

(** At the limit the rate limiter denies and blocks; with auto-block the
    registry takes the block over. *)
Lemma limit_step (tk : ticks) (s : t) :
  admitted lo ip 100 s -> within lo (lo + 1) tk ->
  exists (s' : t) (dt : details),
    process_request cfg tk ip e m s
    = Some (s', (false,
                 LimiterReason (Some (RateLimiter.RateLimitExceeded 300)), dt))
    /\ held cfg lo ip s'.
Proof.
  intros (Hw & Hb & Ht & Hblk & Hlen & Hall & Hmon) Htk.
  apply within_fields in Htk as (_ & Hlim & Hbt).
  rewrite process_request_unlisted by done.
  unfold RateLimiter.is_allowed. rewrite Hblk.
  assert (Hp : prune (RateLimiter.time_window (rate_cfg cfg)) (t_limiter tk)
                 (RateLimiter.window (rate_limiter s) ip)
               = RateLimiter.window (rate_limiter s) ip).
  { apply prune_all. rewrite Hrate. simpl.
    eapply Forall_impl; [exact Hall|]. simpl. intros u Hu.
    change (inject_Z 60) with 60%Q. lra. }
  rewrite check_window_full by (rewrite Hp, Hrate, Hlen; simpl; lia).
  rewrite Hp, Hrate. cbn [negb RateLimiter.block_duration].
  eexists _, _. split; [reflexivity|].
  unfold held. cbn [ip_filter rate_limiter traffic_monitor].
  destruct (auto_block cfg).
  - unfold IPFilter.block_temporarily. rewrite decide_True by done.
    cbn [IPFilter.whitelist IPFilter.blacklist IPFilter.temp_blocks].
    repeat split; [done|done|].
    eexists. split; [apply lookup_insert_eq|].
    change (inject_Z 300) with 300%Q. lra.
  - repeat split; [done|done|done|].
    eexists. split; [apply lookup_insert_eq|].
    change (inject_Z 300) with 300%Q. lra.
Qed.

(** While held, every request is denied and the state does not change. *)
Lemma held_step (tk : ticks) (s : t) :
  held cfg lo ip s -> within lo (lo + 300) tk ->
  exists (r : reason) (dt : details),
    process_request cfg tk ip e m s = Some (s, (false, r, dt))
    /\ classify r = if auto_block cfg then VTempBlocked else VRateLimited.
Proof.
  intros (Hw & Hb & Hheld) Htk.
  apply within_fields in Htk as (Hf & Hlim & _).
  destruct (auto_block cfg) eqn:Hab.
  - destruct Hheld as (ex & Hex & Hle).
    unfold process_request.
    rewrite (filter_is_allowed_temp (t_filter tk) ex) by (try done; lra).
    cbn [negb]. destruct s. by eexists _, _.
  - destruct Hheld as (Ht & ex & Hex & Hle).
    rewrite process_request_unlisted by done.
    unfold RateLimiter.is_allowed. rewrite Hex.
    assert (Hlt : Qltb (t_limiter tk) ex = true) by (apply Qltb_lt; lra).
    rewrite Hlt, Hab. cbn [negb]. destruct s. by eexists _, _.
Qed.

Lemma held_run (tks : list ticks) (s : t) :
  held cfg lo ip s -> Forall (within lo (lo + 300)) tks ->
  exists rs : list result,
    process_all cfg tks ip e m s = Some (s, rs)
    /\ map verdict rs
       = replicate (length tks)
           (false, if auto_block cfg then VTempBlocked else VRateLimited).
Proof.
  intros Hs. induction 1 as [|tk tks Htk _ (rs & Hrun & Hrs)].
  - by exists [].
  - destruct (held_step tk s Hs Htk) as (r & dt & Hreq & Hcls).
    cbn [process_all]. rewrite Hreq, Hrun.
    eexists. split; [reflexivity|]. simpl. unfold verdict at 1. simpl.
    by rewrite Hcls, Hrs.
Qed.

Lemma within_longer (tk : ticks) :
  within lo (lo + 1) tk -> within lo (lo + 300) tk.
Proof.
  unfold within. intros H. eapply Forall_impl; [exact H|].
  intros r Hr. simpl in *. lra.
Qed.

(** C1, as amended. With [max_requests = 100], [time_window = 60],
    [block_duration = 300], a monitor that does not flag 100 requests in
    its window (as with the default threshold 10 over 10 seconds) and a
    fresh address, 150 requests whose clock readings lie within one second
    yield exactly 100 allowed verdicts followed by 50 denials.  The first
    denial has reason RateLimited; the other 49 have reason TempBlocked
    when auto-block is enabled (the registry answers for the block the
    coordinator escalated) and RateLimited when it is disabled.  Every
    further request with readings before [lo + 300] is denied. *)
Theorem end_to_end (tks later : list ticks) (s : t) :
  admitted lo ip 0 s ->
  length tks = 150%nat ->
  Forall (within lo (lo + 1)) tks ->
  Forall (within lo (lo + 300)) later ->
  exists (s' : t) (rs rs' : list result),
    process_all cfg tks ip e m s = Some (s', rs)
    /\ map verdict rs
       = replicate 100 (true, VAllowed) ++ [(false, VRateLimited)]
         ++ replicate 49
              (false, if auto_block cfg then VTempBlocked else VRateLimited)
    /\ process_all cfg later ip e m s' = Some (s', rs')
    /\ Forall (fun r : result => r.1.1 = false) rs'.
Proof.
  intros Hs Hlen Htks Hlater.
  rewrite <- (take_drop 100 tks) in Htks |- *.
  apply Forall_app in Htks as [H1 H2].
  destruct (drop 100 tks) as [|tk rest] eqn:Hdrop.
  { apply (f_equal length) in Hdrop. rewrite length_drop in Hdrop.
    simpl in Hdrop. lia. }
  assert (Hrest : length rest = 49%nat).
  { apply (f_equal length) in Hdrop. rewrite length_drop in Hdrop.
    simpl in Hdrop. lia. }
  apply Forall_cons in H2 as [Htk H2].
  assert (Htake : length (take 100 tks) = 100%nat)
    by (rewrite length_take; lia).
  destruct (admitted_run (take 100 tks) 0 s Hs) as (s1 & rs1 & Hrun1 & Hrs1 & Hs1);
    [lia|done|].
  rewrite Htake in Hrs1, Hs1.
  destruct (limit_step tk s1 Hs1 Htk) as (s2 & dt & Hreq & Hs2).
  destruct (held_run rest s2 Hs2) as (rs2 & Hrun2 & Hrs2).
  { eapply Forall_impl; [exact H2|]. apply within_longer. }
  destruct (held_run later s2 Hs2 Hlater) as (rs' & Hrun' & Hrs').
  rewrite process_all_app, Hrun1. cbn [process_all]. rewrite Hreq, Hrun2.
  eexists _, _, rs'. split; [reflexivity|]. split; [|split; [done|]].
  - rewrite map_app, Hrs1. simpl. rewrite Hrs2, Hrest. done.
  - apply Forall_forall. intros r Hr.
    assert (Hv : verdict r ∈ map verdict rs')
      by (by apply (list_elem_of_fmap_2 verdict)).
    rewrite Hrs' in Hv. apply elem_of_replicate in Hv as [Hv _].
    by injection Hv.
Qed.

End EndToEnd.

Lemma end_to_end_witness :
  exists (s' : System.t) (rs rs' : list System.result),
    System.process_all System.default_config
      (replicate 150 (System.Ticks 0 0 0 0 0 0 0)) "10.0.0.1" "/api/data" "GET"
      (System.init System.default_config) = Some (s', rs)
    /\ map verdict rs
       = replicate 100 (true, System.VAllowed) ++ [(false, System.VRateLimited)]
         ++ replicate 49 (false, System.VTempBlocked)
    /\ System.process_all System.default_config
         [System.Ticks 299 299 299 299 299 299 299] "10.0.0.1" "/api/data" "GET" s'
       = Some (s', rs')
    /\ Forall (fun r : System.result => r.1.1 = false) rs'.
Proof.
  refine (end_to_end System.default_config "10.0.0.1" "/api/data" "GET" 0
            _ _ _
            (replicate 150 (System.Ticks 0 0 0 0 0 0 0))
            [System.Ticks 299 299 299 299 299 299 299]
            (System.init System.default_config) _ _ _ _).
  - reflexivity.
  - reflexivity.
  - by vm_compute.
  - unfold admitted.
    split; [refine (bool_decide_unpack _ _); vm_compute; exact I|].
    split; [refine (bool_decide_unpack _ _); vm_compute; exact I|].
    split; [reflexivity|]. split; [reflexivity|]. split; [reflexivity|].
    split; [apply Forall_nil_2|vm_compute; constructor].
  - reflexivity.
  - apply Forall_replicate. unfold within, readings. simpl.
    repeat constructor; by vm_compute.
  - unfold within, readings. simpl. repeat constructor; by vm_compute.
Defined.

(** C1, as stated, fails under the default configuration: of the 50 denials
    only the first carries the rate limiter's reason; the coordinator
    escalates it to a temporary block of the registry, which answers the
    remaining 49 requests. *)
Lemma end_to_end_temp_blocked :
  (fun x : System.t * list System.result => map verdict x.2) <$>
    System.process_all System.default_config
      (replicate 150 (System.Ticks 0 0 0 0 0 0 0)) "10.0.0.1" "/api/data" "GET"
      (System.init System.default_config)
  = Some (replicate 100 (true, System.VAllowed) ++ [(false, System.VRateLimited)]
          ++ replicate 49 (false, System.VTempBlocked)).
Proof. vm_compute. reflexivity. Qed.

(** * Further properties of the components *)

(** ** rate_limiter.py *)

Section LimiterMore.
Import RateLimiter.
Variable cfg : config.

Lemma prune_idem (w : Z) (now : Q) (l : list Q) :
  prune w now (prune w now l) = prune w now l.
Proof.
  unfold prune. induction l as [|u l IH]; simpl; [done|].
  destruct (Qltb (now - u) (inject_Z w)) eqn:E; simpl; [|done].
  by rewrite E, IH.
Qed.

Lemma prune_later (w : Z) (now1 now2 : Q) (l : list Q) :
  (now1 <= now2)%Q -> prune w now2 (prune w now1 l) = prune w now2 l.
Proof.
  intros Hle. unfold prune. induction l as [|u l IH]; simpl; [done|].
  destruct (Qltb (now1 - u) (inject_Z w)) eqn:E1; simpl.
  - by rewrite IH.
  - rewrite IH. destruct (Qltb (now2 - u) (inject_Z w)) eqn:E2; [|done].
    apply Qltb_ge in E1. apply Qltb_lt in E2. lra.
Qed.

Lemma prune_app (w : Z) (now : Q) (l1 l2 : list Q) :
  prune w now (l1 ++ l2) = prune w now l1 ++ prune w now l2.
Proof. apply List.filter_app. Qed.

Lemma py_int_nonneg (q : Q) : (0 <= q)%Q -> 0 <= py_int q.
Proof.
  unfold py_int, Qle. simpl. intros H. apply Z.quot_pos; lia.
Qed.

Lemma calls_cons (now : Q) (ts : list Q) (ip : string) (s : t) :
  (calls cfg (now :: ts) ip s).1
  = (calls cfg ts ip (is_allowed cfg now ip s).1).1
  /\ (calls cfg (now :: ts) ip s).2
     = (is_allowed cfg now ip s).2
       :: (calls cfg ts ip (is_allowed cfg now ip s).1).2.
Proof.
  cbn [calls]. destruct (is_allowed cfg now ip s) as [s1 r]. cbn [fst snd].
  by destruct (calls cfg ts ip s1) as [s2 rs].
Qed.

(** [is_allowed] touches the entries of its own address only. *)
Lemma is_allowed_frame (now : Q) (ip addr : string) (s : t) :
  ip <> addr ->
  requests (is_allowed cfg now ip s).1 !! addr = requests s !! addr
  /\ blocked_ips (is_allowed cfg now ip s).1 !! addr = blocked_ips s !! addr.
Proof.
  intros Hne.
  assert (Hcw : forall s0 : t,
    requests (check_window cfg now ip s0).1 !! addr = requests s0 !! addr
    /\ blocked_ips (check_window cfg now ip s0).1 !! addr
       = blocked_ips s0 !! addr).
  { intros s0. unfold check_window.
    destruct (max_requests cfg <=? _); simpl;
      rewrite ?lookup_insert_ne by done; done. }
  unfold is_allowed. destruct (blocked_ips s !! ip) as [ex|]; [|apply Hcw].
  destruct (Qltb now ex); [done|].
  destruct (Hcw (del_block s ip)) as [-> ->]. simpl.
  by rewrite lookup_delete_ne.
Qed.

(** Its result is decided by the entries of its own address. *)
Lemma is_allowed_local (now : Q) (ip : string) (s1 s2 : t) :
  requests s1 !! ip = requests s2 !! ip ->
  blocked_ips s1 !! ip = blocked_ips s2 !! ip ->
  (is_allowed cfg now ip s1).2 = (is_allowed cfg now ip s2).2
  /\ requests (is_allowed cfg now ip s1).1 !! ip
     = requests (is_allowed cfg now ip s2).1 !! ip
  /\ blocked_ips (is_allowed cfg now ip s1).1 !! ip
     = blocked_ips (is_allowed cfg now ip s2).1 !! ip.
Proof.
  intros Hr Hb.
  assert (Hcw : forall a b : t,
    requests a !! ip = requests b !! ip ->
    blocked_ips a !! ip = blocked_ips b !! ip ->
    (check_window cfg now ip a).2 = (check_window cfg now ip b).2
    /\ requests (check_window cfg now ip a).1 !! ip
       = requests (check_window cfg now ip b).1 !! ip
    /\ blocked_ips (check_window cfg now ip a).1 !! ip
       = blocked_ips (check_window cfg now ip b).1 !! ip).
  { intros a b Hab Hbl. unfold check_window, window. rewrite Hab.
    destruct (max_requests cfg <=? _); simpl;
      by rewrite !lookup_insert_eq. }
  unfold is_allowed. rewrite Hb.
  destruct (blocked_ips s2 !! ip) as [ex|] eqn:E;
    [|apply Hcw; [done|congruence]].
  destruct (Qltb now ex); [simpl; repeat split; congruence|].
  apply Hcw; [done|]. simpl. by rewrite !lookup_delete_eq.
Qed.

Lemma calls_frame (ts : list Q) (ip addr : string) (s : t) :
  ip <> addr ->
  requests (calls cfg ts ip s).1 !! addr = requests s !! addr
  /\ blocked_ips (calls cfg ts ip s).1 !! addr = blocked_ips s !! addr.
Proof.
  intros Hne. revert s. induction ts as [|now ts IH]; intros s; [done|].
  destruct (calls_cons now ts ip s) as [-> _].
  destruct (IH (is_allowed cfg now ip s).1) as [-> ->].
  by apply is_allowed_frame.
Qed.

(** X1. Requests of one address leave the window and the block of every
    other address untouched, and do not change the answer the other address
    gets. *)
Theorem limiter_address_independence (ts : list Q) (now : Q)
    (ip addr : string) (s : t) :
  ip <> addr ->
  requests (calls cfg ts ip s).1 !! addr = requests s !! addr
  /\ blocked_ips (calls cfg ts ip s).1 !! addr = blocked_ips s !! addr
  /\ (is_allowed cfg now addr (calls cfg ts ip s).1).2
     = (is_allowed cfg now addr s).2.
Proof.
  intros Hne. destruct (calls_frame ts ip addr s Hne) as [Hr Hb].
  repeat split; [done|done|]. by apply is_allowed_local.
Qed.

Lemma is_allowed_window (t0 now : Q) (ip : string) (s : t) :
  (t0 <= now)%Q ->
  prune (time_window cfg) now (window (is_allowed cfg t0 ip s).1 ip)
  = prune (time_window cfg) now
      (window s ip ++ (if (is_allowed cfg t0 ip s).2.1 then [t0] else [])).
Proof.
  intros Hle.
  assert (Hcw : forall s0 : t,
    prune (time_window cfg) now (window (check_window cfg t0 ip s0).1 ip)
    = prune (time_window cfg) now
        (window s0 ip ++ (if (check_window cfg t0 ip s0).2.1 then [t0] else []))).
  { intros s0.
    destruct (Z.le_gt_cases (max_requests cfg)
                (Z.of_nat (length (prune (time_window cfg) t0 (window s0 ip)))))
      as [Hfull|Hroom].
    - rewrite check_window_full by done. simpl.
      rewrite window_set_block, window_set_requests, decide_True by done.
      by rewrite app_nil_r, prune_later.
    - rewrite check_window_room by lia. simpl.
      rewrite !window_set_requests, decide_True by done.
      by rewrite !prune_app, prune_later. }
  unfold is_allowed. destruct (blocked_ips s !! ip) as [ex|]; [|apply Hcw].
  destruct (Qltb t0 ex); [by rewrite app_nil_r|].
  rewrite Hcw. by rewrite window_del_block.
Qed.

Lemma calls_window (ts : list Q) (now : Q) (ip : string) (s : t) :
  Forall (fun u : Q => (u <= now)%Q) ts ->
  prune (time_window cfg) now (window (calls cfg ts ip s).1 ip)
  = prune (time_window cfg) now
      (window s ip ++ allowed_times ts (calls cfg ts ip s).2).
Proof.
  intros Hts. revert s. induction Hts as [|t0 ts Ht0 _ IH]; intros s.
  - simpl. by rewrite app_nil_r.
  - destruct (calls_cons t0 ts ip s) as [-> ->].
    rewrite IH. cbn [allowed_times].
    destruct (is_allowed cfg t0 ip s) as [s1 [ok rr]] eqn:E. cbn [fst snd].
    pose proof (is_allowed_window t0 now ip s Ht0) as Hw. rewrite E in Hw.
    cbn [fst snd] in Hw.
    rewrite prune_app, Hw, <- prune_app. destruct ok; [|by rewrite app_nil_r].
    by rewrite <- app_assoc.
Qed.

Lemma calls_bounded (ts : list Q) (ip : string) (s : t) :
  0 <= max_requests cfg ->
  windows_bounded cfg s -> windows_bounded cfg (calls cfg ts ip s).1.
Proof.
  intros HM. revert s. induction ts as [|t0 ts IH]; intros s Hs; [done|].
  destruct (calls_cons t0 ts ip s) as [-> _]. apply IH.
  exact (step_bounded cfg (OpIsAllowed t0 ip) s HM Hs).
Qed.

(** X2. The rate limit itself: of the calls allowed for an address, at most
    [max_requests] have a reading within [time_window] seconds before any
    instant that no call lies after. *)
Theorem limiter_sliding_window (ts : list Q) (now : Q) (ip : string) (s : t) :
  0 <= max_requests cfg ->
  windows_bounded cfg s ->
  Forall (fun u : Q => (u <= now)%Q) ts ->
  Z.of_nat (length (prune (time_window cfg) now
                      (allowed_times ts (calls cfg ts ip s).2)))
    <= max_requests cfg.
Proof.
  intros HM Hs Hts.
  pose proof (calls_window ts now ip s Hts) as Hw.
  pose proof (calls_bounded ts ip s HM Hs ip) as Hb.
  pose proof (prune_length (time_window cfg) now
                (window (calls cfg ts ip s).1 ip)) as Hp.
  rewrite Hw, prune_app, length_app in Hp. lia.
Qed.

(** X3. A manual block holds until its expiry: [is_blocked] answers [True]
    exactly at readings before [now0 + duration], no call is allowed before
    it, and a duration of [0] stands for the configured [block_duration]. *)
Theorem limiter_manual_block (now0 now : Q) (ip : string) (d : option Z) (s : t) :
  (is_blocked now ip (block_ip cfg now0 ip d s)).2
    = Qltb now (now0 + inject_Z (py_or d (block_duration cfg)))
  /\ (is_allowed cfg now ip (block_ip cfg now0 ip d s)).2.1
     && Qltb now (now0 + inject_Z (py_or d (block_duration cfg))) = false
  /\ block_ip cfg now0 ip (Some 0) s = block_ip cfg now0 ip None s.
Proof.
  unfold is_blocked, is_allowed, block_ip, set_block. simpl.
  rewrite lookup_insert_eq.
  destruct (Qltb now (now0 + inject_Z (py_or d (block_duration cfg))));
    repeat split; try done. apply andb_false_r.
Qed.

(** X4. Blocking an address that had no block and unblocking it again gives
    back the state. *)
Theorem limiter_block_unblock (now : Q) (ip : string) (d : option Z) (s : t) :
  blocked_ips s !! ip = None ->
  unblock_ip ip (block_ip cfg now ip d s) = s.
Proof.
  intros H. unfold unblock_ip, block_ip, set_block, del_block. simpl.
  rewrite lookup_insert_eq. simpl. rewrite delete_insert_id by done.
  by destruct s.
Qed.

(** X5. Only an allowed call uses capacity: at the reading of the call,
    [get_request_count] has grown by one after an allowed call and is
    unchanged after a denied one. *)
Theorem limiter_request_count (now : Q) (ip : string) (s : t) :
  0 < time_window cfg ->
  (get_request_count cfg now ip (is_allowed cfg now ip s).1).2
  = (get_request_count cfg now ip s).2
    + (if (is_allowed cfg now ip s).2.1 then 1 else 0).
Proof.
  intros HW. unfold get_request_count. cbn [snd].
  assert (Hnow : Qltb (now - now) (inject_Z (time_window cfg)) = true).
  { apply Qltb_lt. rewrite Zlt_Qlt in HW.
    change (inject_Z 0) with 0%Q in HW. lra. }
  assert (Hcw : forall s0 : t,
    Z.of_nat (length (prune (time_window cfg) now
                        (window (check_window cfg now ip s0).1 ip)))
    = Z.of_nat (length (prune (time_window cfg) now (window s0 ip)))
      + (if (check_window cfg now ip s0).2.1 then 1 else 0)).
  { intros s0.
    destruct (Z.le_gt_cases (max_requests cfg)
                (Z.of_nat (length (prune (time_window cfg) now (window s0 ip)))))
      as [Hfull|Hroom].
    - rewrite check_window_full by done. simpl.
      rewrite window_set_block, window_set_requests, decide_True by done.
      rewrite prune_idem. lia.
    - rewrite check_window_room by lia. simpl.
      rewrite !window_set_requests, decide_True by done.
      rewrite prune_app, prune_idem, length_app. unfold prune at 2. simpl.
      rewrite Hnow. simpl. lia. }
  unfold is_allowed. destruct (blocked_ips s !! ip) as [ex|]; [|apply Hcw].
  destruct (Qltb now ex); [simpl; lia|].
  rewrite Hcw. by rewrite window_del_block.
Qed.

(** X6. The block list of [get_stats] names exactly the addresses for which
    [is_blocked] answers [True], each with a non-negative number of
    remaining seconds. *)
Theorem limiter_stats_blocked (now : Q) (ip : string) (s : t) :
  ((is_blocked now ip s).2 = true
   <-> is_Some (blocked_ip_list (get_stats cfg now s) !! ip))
  /\ (forall r : Z,
        blocked_ip_list (get_stats cfg now s) !! ip = Some r -> 0 <= r).
Proof.
  unfold get_stats, active_blocks. cbn [blocked_ip_list].
  rewrite lookup_fmap. unfold is_blocked.
  destruct (blocked_ips s !! ip) as [ex|] eqn:E.
  - destruct (Qltb now ex) eqn:Hlt.
    + rewrite (map_lookup_filter_Some_2 _ _ ip ex E Hlt). simpl.
      split; [done|]. intros r [= <-]. apply py_int_nonneg.
      apply Qltb_lt in Hlt. lra.
    + rewrite (map_lookup_filter_None_2 _ _ ip). 2:{ right. intros x Hx.
        rewrite E in Hx. injection Hx as <-. simpl. by rewrite Hlt. }
      simpl. split; [|done]. split; [done|]. by intros [? ?].
  - rewrite (map_lookup_filter_None_2 _ _ ip) by (by left).
    simpl. split; [|done]. split; [done|]. by intros [? ?].
Qed.

(** X7. A limit of zero or less admits nothing: every call is denied. *)
Theorem limiter_nonpositive_limit (now : Q) (ip : string) (s : t) :
  max_requests cfg <= 0 ->
  (is_allowed cfg now ip s).2.1 = false.
Proof.
  intros HM. apply (is_allowed_full cfg now ip s). lia.
Qed.

End LimiterMore.

Lemma limiter_address_independence_witness :
  (RateLimiter.is_allowed (RateLimiter.Config 2 60 300) 0 "10.0.0.2"
     (calls (RateLimiter.Config 2 60 300) [0; 0; 0]%Q "10.0.0.1"
        RateLimiter.init).1).2
  = (RateLimiter.is_allowed (RateLimiter.Config 2 60 300) 0 "10.0.0.2"
       RateLimiter.init).2.
Proof.
  refine (proj2 (proj2 (limiter_address_independence
                          (RateLimiter.Config 2 60 300) [0; 0; 0]%Q 0
                          "10.0.0.1" "10.0.0.2" RateLimiter.init _))).
  discriminate.
Defined.

Lemma limiter_sliding_window_witness :
  Z.of_nat (length (prune 60 1
                      (allowed_times [0; 0; 0]%Q
                         (calls (RateLimiter.Config 2 60 300) [0; 0; 0]%Q
                            "10.0.0.1" RateLimiter.init).2))) <= 2.
Proof.
  refine (limiter_sliding_window (RateLimiter.Config 2 60 300) [0; 0; 0]%Q 1
            "10.0.0.1" RateLimiter.init _ _ _).
  - simpl. lia.
  - intros addr. unfold RateLimiter.window, RateLimiter.init. simpl.
    rewrite lookup_empty. simpl. lia.
  - repeat constructor; by vm_compute.
Defined.

Lemma limiter_block_unblock_witness :
  RateLimiter.unblock_ip "10.0.0.1"
    (RateLimiter.block_ip (RateLimiter.Config 2 60 300) 0 "10.0.0.1" (Some 10)
       RateLimiter.init)
  = RateLimiter.init.
Proof.
  refine (limiter_block_unblock (RateLimiter.Config 2 60 300) 0 "10.0.0.1"
            (Some 10) RateLimiter.init _).
  reflexivity.
Defined.

Lemma limiter_request_count_witness :
  (RateLimiter.get_request_count (RateLimiter.Config 2 60 300) 0 "10.0.0.1"
     (RateLimiter.is_allowed (RateLimiter.Config 2 60 300) 0 "10.0.0.1"
        RateLimiter.init).1).2
  = (RateLimiter.get_request_count (RateLimiter.Config 2 60 300) 0 "10.0.0.1"
       RateLimiter.init).2
    + (if (RateLimiter.is_allowed (RateLimiter.Config 2 60 300) 0 "10.0.0.1"
             RateLimiter.init).2.1 then 1 else 0).
Proof.
  refine (limiter_request_count (RateLimiter.Config 2 60 300) 0 "10.0.0.1"
            RateLimiter.init _).
  reflexivity.
Defined.

Lemma limiter_nonpositive_limit_witness :
  (RateLimiter.is_allowed (RateLimiter.Config 0 60 300) 0 "10.0.0.1"
     RateLimiter.init).2.1 = false.
Proof.
  refine (limiter_nonpositive_limit (RateLimiter.Config 0 60 300) 0 "10.0.0.1"
            RateLimiter.init _).
  simpl. lia.
Defined.

(** ** ip_filter.py *)

Section FilterMore.
Import IPFilter.

(** X8. A temporary block of an unlisted address denies exactly the
    readings before [now0 + duration]; the first lookup at or after the
    expiry allows the request and removes the entry. *)
Theorem filter_temp_block_expiry (now0 now : Q) (ip : string) (d : Z) (s : t) :
  ip ∉ whitelist s ->
  ip ∉ blacklist s ->
  (is_allowed now ip (block_temporarily now0 ip d s)).2.1
    = negb (Qltb now (now0 + inject_Z d))
  /\ if Qltb now (now0 + inject_Z d) then
       (is_allowed now ip (block_temporarily now0 ip d s)).1
       = block_temporarily now0 ip d s
     else
       temp_blocks (is_allowed now ip (block_temporarily now0 ip d s)).1 !! ip
       = None.
Proof.
  intros Hw Hb. unfold block_temporarily. rewrite decide_True by done.
  unfold is_allowed. cbn [whitelist blacklist temp_blocks].
  rewrite decide_False by done. rewrite decide_False by done.
  rewrite lookup_insert_eq.
  destruct (Qltb now (now0 + inject_Z d)); [done|].
  split; [done|]. simpl. apply lookup_delete_eq.
Qed.

(** X9. Whitelisting is not undone by removing the address from the
    whitelist: the blacklist entry and the temporary block it erased stay
    erased, so the address is allowed. *)
Theorem filter_whitelist_erases (now : Q) (ip : string) (s : t) :
  is_allowed now ip (remove_from_whitelist ip (add_to_whitelist ip s))
  = (remove_from_whitelist ip (add_to_whitelist ip s), (true, Allowed)).
Proof.
  unfold is_allowed, remove_from_whitelist, add_to_whitelist.
  cbn [whitelist blacklist temp_blocks].
  rewrite decide_False
    by (rewrite elem_of_difference, elem_of_singleton; tauto).
  rewrite decide_False
    by (rewrite elem_of_difference, elem_of_singleton; tauto).
  by rewrite lookup_delete_eq.
Qed.

(** X10. The cleanup that [get_stats] performs never changes a later
    decision: at any reading not before that of [get_stats], [is_allowed]
    answers the same with and without it. *)
Theorem filter_stats_neutral (now now' : Q) (ip : string) (s : t) :
  (now <= now')%Q ->
  (is_allowed now' ip (get_stats now s).1).2 = (is_allowed now' ip s).2.
Proof.
  intros Hle. unfold get_stats, get_stats_cleanup, is_allowed.
  cbn [fst whitelist blacklist temp_blocks].
  destruct (decide (ip ∈ whitelist s)); [done|].
  destruct (decide (ip ∈ blacklist s)); [done|].
  destruct (temp_blocks s !! ip) as [ex|] eqn:E.
  - destruct (Qltb now ex) eqn:Hlt.
    + rewrite (map_lookup_filter_Some_2 _ _ ip ex E Hlt).
      by destruct (Qltb now' ex).
    + rewrite (map_lookup_filter_None_2 _ _ ip).
      2:{ right. intros x Hx. rewrite E in Hx. injection Hx as <-.
          simpl. by rewrite Hlt. }
      assert (Hexp : Qltb now' ex = false).
      { apply Qltb_ge. apply Qltb_ge in Hlt. lra. }
      by rewrite Hexp.
  - by rewrite (map_lookup_filter_None_2 _ _ ip) by (by left).
Qed.

(** X11. The temporary blocks that [get_stats] reports are exactly the
    addresses for which [is_temp_blocked] answers [True], each with a
    non-negative number of remaining seconds, and their number is
    [temp_blocked_count]. *)
Theorem filter_stats_temp_blocks (now : Q) (ip : string) (s : t) :
  ((is_temp_blocked now ip s).2 = true
   <-> is_Some (stat_temp_blocks (get_stats now s).2 !! ip))
  /\ (forall r : Z,
        stat_temp_blocks (get_stats now s).2 !! ip = Some r -> 0 <= r)
  /\ temp_blocked_count (get_stats now s).2
     = size (stat_temp_blocks (get_stats now s).2).
Proof.
  unfold get_stats, get_stats_cleanup.
  cbn [snd stat_temp_blocks temp_blocked_count temp_blocks].
  rewrite lookup_fmap, map_size_fmap. unfold is_temp_blocked.
  destruct (temp_blocks s !! ip) as [ex|] eqn:E.
  - destruct (Qltb now ex) eqn:Hlt.
    + rewrite (map_lookup_filter_Some_2 _ _ ip ex E Hlt). simpl.
      repeat split; try done. intros r [= <-]. apply py_int_nonneg.
      apply Qltb_lt in Hlt. lra.
    + rewrite (map_lookup_filter_None_2 _ _ ip).
      2:{ right. intros x Hx. rewrite E in Hx. injection Hx as <-.
          simpl. by rewrite Hlt. }
      simpl. repeat split; try done; by intros [? ?].
  - rewrite (map_lookup_filter_None_2 _ _ ip) by (by left).
    simpl. repeat split; try done; by intros [? ?].
Qed.

End FilterMore.

Lemma filter_temp_block_expiry_witness :
  (IPFilter.is_allowed 5 "10.0.0.2"
     (IPFilter.block_temporarily 0 "10.0.0.2" 5 (IPFilter.init [] []))).2.1
  = negb (Qltb 5 (0 + inject_Z 5)).
Proof.
  refine (proj1 (filter_temp_block_expiry 0 5 "10.0.0.2" 5
                   (IPFilter.init [] []) _ _)).
  - apply not_elem_of_empty.
  - apply not_elem_of_empty.
Defined.

Lemma filter_stats_neutral_witness :
  (IPFilter.is_allowed 7 "10.0.0.2"
     (IPFilter.get_stats 6
        (IPFilter.block_temporarily 0 "10.0.0.2" 5 (IPFilter.init [] []))).1).2
  = (IPFilter.is_allowed 7 "10.0.0.2"
       (IPFilter.block_temporarily 0 "10.0.0.2" 5 (IPFilter.init [] []))).2.
Proof.
  refine (filter_stats_neutral 6 7 "10.0.0.2"
            (IPFilter.block_temporarily 0 "10.0.0.2" 5 (IPFilter.init [] [])) _).
  by vm_compute.
Defined.

(** ** traffic_monitor.py *)

Section MonitorMore.
Import TrafficMonitor.
Variable cfg : config.

(** X12. The severity never decreases when the rate grows. *)
Theorem severity_monotone (r1 r2 : Q) :
  (r1 <= r2)%Q ->
  (severity_rank (_calculate_severity cfg r1)
   <= severity_rank (_calculate_severity cfg r2))%nat.
Proof.
  intros Hle.
  assert (Hmono : forall p : float64,
            py_gt r1 p = true -> py_gt r2 p = true).
  { intros [q| |]; simpl; [|done|done].
    rewrite !Qltb_lt. lra. }
  unfold _calculate_severity.
  pose proof (Hmono (py_float_mul (suspicious_threshold cfg) 10)) as H10.
  pose proof (Hmono (py_float_mul (suspicious_threshold cfg) 5)) as H5.
  pose proof (Hmono (py_float_mul (suspicious_threshold cfg) 2)) as H2.
  destruct (py_gt r1 (py_float_mul (suspicious_threshold cfg) 10));
    [rewrite H10 by done; simpl; lia|].
  destruct (py_gt r1 (py_float_mul (suspicious_threshold cfg) 5)).
  { rewrite H5 by done.
    destruct (py_gt r2 (py_float_mul (suspicious_threshold cfg) 10));
      simpl; lia. }
  destruct (py_gt r1 (py_float_mul (suspicious_threshold cfg) 2)).
  { rewrite H2 by done.
    destruct (py_gt r2 (py_float_mul (suspicious_threshold cfg) 10));
      destruct (py_gt r2 (py_float_mul (suspicious_threshold cfg) 5));
      simpl; lia. }
  simpl. lia.
Qed.

(** X13. [get_recent_alerts limit] returns the last [limit] alerts in their
    order when [limit] is positive, and drops the oldest [-limit] alerts
    when it is zero or negative. *)
Theorem get_recent_alerts_limit (limit : Z) (s : t) :
  get_recent_alerts limit s
  = if 0 <? limit then lastn (Z.to_nat limit) (alerts s)
    else drop (Z.to_nat (- limit)) (alerts s).
Proof.
  unfold get_recent_alerts, py_slice_from, lastn.
  destruct (Z.ltb_spec 0 limit) as [Hpos|Hneg];
    destruct (Z.ltb_spec (- limit) 0) as [H1|H1]; try lia.
  - f_equal. lia.
  - destruct (Z.le_gt_cases (- limit) (Z.of_nat (length (alerts s))))
      as [Hin|Hout].
    + f_equal. lia.
    + rewrite !drop_ge; [done|lia|lia].
Qed.

Lemma violations_set_requests (s : t) (ip addr : string) (l : list Q) :
  violations (set_requests s ip l) addr = violations s addr.
Proof. reflexivity. Qed.

Lemma violations_set_violations (s : t) (ip addr : string) (v : Z) :
  violations (set_violations s ip v) addr
  = if decide (ip = addr) then v else violations s addr.
Proof.
  unfold violations, set_violations. simpl. rewrite lookup_insert.
  by case_decide.
Qed.

(** What one monitor operation does to a violation counter. *)
Lemma record_request_violations (now na : Q) (ip e m addr : string) (s s' : t) :
  record_request cfg now na ip e m s = Some s' ->
  violations s' addr = violations s addr
  \/ (ip = addr /\ violations s' addr = violations s addr + 1).
Proof.
  unfold record_request. destruct (py_div _ _) as [rate|]; [|done].
  destruct (Qltb (suspicious_threshold cfg) rate); [|by intros [= <-]; left].
  match goal with
  | |- context [?a <=? ?b] => destruct (a <=? b)
  end; intros [= <-];
    unfold _trigger_alert, set_alerts, violations, set_violations, set_requests;
    simpl; rewrite lookup_insert; case_decide; simpl;
    [right; split; [done|by subst]|by left
    |right; split; [done|by subst]|by left].
Qed.

Lemma is_suspicious_violations (now : Q) (ip addr : string) (s s' : t)
    (r : bool * option details) :
  is_suspicious cfg now ip s = Some (s', r) ->
  violations s' addr = violations s addr /\ alerts s' = alerts s.
Proof.
  unfold is_suspicious.
  destruct (prune _ _ _) as [|q l]; [by intros [= <- _]|].
  destruct (py_div _ _) as [rate|]; [|done].
  destruct (Qltb (suspicious_threshold cfg) rate); intros [= <- _]; [|done].
  split; [|done]. rewrite violations_set_violations.
  case_decide; [by subst|done].
Qed.

Lemma step_violations (o : op) (s s' : t) (addr : string) :
  step cfg o s = Some s' -> keeps_counters o = true ->
  violations s addr <= violations s' addr.
Proof.
  destruct o as [now na ip e m|now ip|limit|ip|]; simpl; intros Hstep Hk;
    try done.
  - destruct (record_request_violations _ _ _ _ _ addr _ _ Hstep)
      as [->|[_ ->]]; lia.
  - destruct (is_suspicious cfg now ip s) as [[s1 r]|] eqn:E; [|done].
    injection Hstep as <-.
    destruct (is_suspicious_violations _ _ addr _ _ _ E) as [-> _]. lia.
  - injection Hstep as <-. lia.
Qed.

(** X14. Along a run without [reset_violations] and [reset], no violation
    counter ever decreases. *)
Theorem monitor_violations_monotone (ops : list op) (s s' : t) (addr : string) :
  run cfg ops s = Some s' ->
  forallb keeps_counters ops = true ->
  violations s addr <= violations s' addr.
Proof.
  revert s. induction ops as [|o ops IH]; intros s; simpl.
  - intros [= <-] _. lia.
  - destruct (step cfg o s) as [s1|] eqn:Hstep; [|done].
    intros Hrun Hk. apply andb_prop in Hk as [Hk1 Hk2].
    pose proof (step_violations o s s1 addr Hstep Hk1).
    pose proof (IH s1 Hrun Hk2). lia.
Qed.

Lemma step_violations_nonneg (o : op) (s s' : t) :
  step cfg o s = Some s' ->
  (forall ip : string, 0 <= violations s ip) ->
  forall ip : string, 0 <= violations s' ip.
Proof.
  intros Hstep Hs addr. specialize (Hs addr).
  destruct o as [now na ip e m|now ip|limit|ip|]; simpl in Hstep.
  - destruct (record_request_violations _ _ _ _ _ addr _ _ Hstep)
      as [->|[_ ->]]; lia.
  - destruct (is_suspicious cfg now ip s) as [[s1 r]|] eqn:E; [|done].
    injection Hstep as <-.
    destruct (is_suspicious_violations _ _ addr _ _ _ E) as [-> _]. lia.
  - by injection Hstep as <-.
  - injection Hstep as <-. unfold reset_violations.
    rewrite violations_set_violations. case_decide; lia.
  - injection Hstep as <-. unfold reset, violations. simpl.
    by rewrite lookup_empty.
Qed.

Lemma append_alert_Forall (P : alert -> Prop) (log : list alert) (a : alert) :
  Forall P log -> P a -> Forall P (append_alert log a).
Proof.
  intros Hlog Ha. unfold append_alert.
  assert (Forall P (log ++ [a])) by (apply Forall_app; auto).
  destruct (100 <? length (log ++ [a]))%nat; [by apply Forall_drop|done].
Qed.

Lemma step_alerts_Forall (o : op) (s s' : t) :
  step cfg o s = Some s' ->
  (forall ip : string, 0 <= violations s ip) ->
  Forall (fun a : alert =>
            alert_threshold cfg <= a_violation_count a
            /\ 0 < a_violation_count a) (alerts s) ->
  Forall (fun a : alert =>
            alert_threshold cfg <= a_violation_count a
            /\ 0 < a_violation_count a) (alerts s').
Proof.
  intros Hstep Hnn Hlog. rewrite (step_alerts cfg o s s' Hstep).
  destruct o as [now na ip e m|now ip|limit|ip|]; simpl; try done.
  destruct (py_div _ _) as [rate|]; [|done].
  destruct (Qltb (suspicious_threshold cfg) rate); [|done].
  destruct (Z.leb_spec (alert_threshold cfg) (violations s ip + 1))
    as [Hth|Hth]; [|done].
  simpl. apply append_alert_Forall; [done|]. simpl.
  specialize (Hnn ip). lia.
Qed.

(** X15. Every alert in the log of a monitor run from a fresh monitor was
    raised at a violation count that had reached [alert_threshold], and at
    least 1. *)
Theorem monitor_alerts_at_threshold (ops : list op) (s : t) :
  run cfg ops init = Some s ->
  Forall (fun a : alert =>
            alert_threshold cfg <= a_violation_count a
            /\ 0 < a_violation_count a) (alerts s).
Proof.
  assert (Hgen : forall (ops0 : list op) (s0 s1 : t),
    run cfg ops0 s0 = Some s1 ->
    (forall ip : string, 0 <= violations s0 ip) ->
    Forall (fun a : alert =>
              alert_threshold cfg <= a_violation_count a
              /\ 0 < a_violation_count a) (alerts s0) ->
    Forall (fun a : alert =>
              alert_threshold cfg <= a_violation_count a
              /\ 0 < a_violation_count a) (alerts s1)).
  { induction ops0 as [|o ops0 IH]; intros s0 s1; simpl.
    - by intros [= <-].
    - destruct (step cfg o s0) as [s2|] eqn:Hstep; [|done].
      intros Hrun Hnn Hlog. apply (IH s2 s1 Hrun).
      + by apply (step_violations_nonneg o s0).
      + by apply (step_alerts_Forall o s0). }
  intros Hrun. apply (Hgen ops init s Hrun).
  - intros ip. unfold violations, init. simpl. by rewrite lookup_empty.
  - constructor.
Qed.

(** X16. Recording and checking agree: at the reading at which a request
    was recorded, [is_suspicious] answers [True] exactly when the recording
    counted a violation. *)
Theorem monitor_record_then_suspicious (now na : Q) (ip e m : string) (s s1 : t) :
  0 < detection_window cfg ->
  record_request cfg now na ip e m s = Some s1 ->
  exists (s2 : t) (r : bool * option details),
    is_suspicious cfg now ip s1 = Some (s2, r)
    /\ violations s1 ip = violations s ip + (if r.1 then 1 else 0).
Proof.
  intros Hdw Hrec.
  assert (Hnow : (now - now < inject_Z (detection_window cfg))%Q).
  { rewrite Zlt_Qlt in Hdw. change (inject_Z 0) with 0%Q in Hdw. lra. }
  destruct (record_request_some cfg now na ip e m s) as (s1' & Hrec' & Hwin);
    [lia|].
  rewrite Hrec in Hrec'. injection Hrec' as <-.
  unfold is_suspicious. rewrite Hwin, prune_app_keep, prune_idem by done.
  remember (prune (detection_window cfg) now (window s ip) ++ [now]) as reqs
    eqn:Hreqs.
  unfold record_request in Hrec. rewrite <- Hreqs in Hrec.
  destruct reqs as [|q l]; [by destruct (prune _ _ _)|].
  destruct (py_div _ _) as [rate|]; [|done].
  destruct (Qltb (suspicious_threshold cfg) rate).
  - eexists _, _. split; [reflexivity|]. cbn [fst].
    match type of Hrec with
    | context [?a <=? ?b] => destruct (a <=? b)
    end; injection Hrec as <-;
      unfold _trigger_alert, set_alerts, violations, set_violations,
        set_requests; simpl; rewrite lookup_insert_eq; simpl; lia.
  - eexists _, _. split; [reflexivity|]. cbn [fst].
    injection Hrec as <-. rewrite violations_set_requests. lia.
Qed.

(** X17. Resetting a violation counter does not clear suspicion: whether
    [is_suspicious] answers [True] (or raises) is the same before and after
    [reset_violations], for every address. *)
Theorem monitor_reset_keeps_suspicion (now : Q) (ip addr : string) (s : t) :
  (fun x : t * (bool * option details) => x.2.1)
    <$> is_suspicious cfg now ip (reset_violations addr s)
  = (fun x : t * (bool * option details) => x.2.1)
      <$> is_suspicious cfg now ip s.
Proof.
  unfold is_suspicious.
  change (window (reset_violations addr s) ip) with (window s ip).
  destruct (prune _ _ _) as [|q l]; [done|].
  destruct (py_div _ _) as [rate|]; [|done].
  by destruct (Qltb (suspicious_threshold cfg) rate).
Qed.

End MonitorMore.

Lemma severity_monotone_witness :
  (severity_rank (TrafficMonitor._calculate_severity
                    (TrafficMonitor.Config 10 10 3) 25)
   <= severity_rank (TrafficMonitor._calculate_severity
                       (TrafficMonitor.Config 10 10 3) 60))%nat.
Proof.
  refine (severity_monotone (TrafficMonitor.Config 10 10 3) 25 60 _).
  by vm_compute.
Defined.

Lemma monitor_violations_monotone_witness :
  TrafficMonitor.violations TrafficMonitor.init "10.0.0.1"
  <= TrafficMonitor.violations
       (default TrafficMonitor.init
          (TrafficMonitor.run (TrafficMonitor.Config 0 1 1)
             [TrafficMonitor.OpRecordRequest 0 0 "10.0.0.1" "/" "GET";
              TrafficMonitor.OpIsSuspicious 0 "10.0.0.1"]
             TrafficMonitor.init)) "10.0.0.1".
Proof.
  refine (monitor_violations_monotone (TrafficMonitor.Config 0 1 1)
            [TrafficMonitor.OpRecordRequest 0 0 "10.0.0.1" "/" "GET";
             TrafficMonitor.OpIsSuspicious 0 "10.0.0.1"]
            TrafficMonitor.init _ "10.0.0.1" _ _).
  - vm_compute. reflexivity.
  - reflexivity.
Defined.

Lemma monitor_alerts_at_threshold_witness :
  Forall (fun a : TrafficMonitor.alert =>
            1 <= TrafficMonitor.a_violation_count a
            /\ 0 < TrafficMonitor.a_violation_count a)
    (TrafficMonitor.alerts
       (default TrafficMonitor.init
          (TrafficMonitor.run (TrafficMonitor.Config 0 1 1)
             [TrafficMonitor.OpRecordRequest 0 0 "10.0.0.1" "/" "GET"]
             TrafficMonitor.init))).
Proof.
  refine (monitor_alerts_at_threshold (TrafficMonitor.Config 0 1 1)
            [TrafficMonitor.OpRecordRequest 0 0 "10.0.0.1" "/" "GET"] _ _).
  vm_compute. reflexivity.
Defined.

Lemma monitor_record_then_suspicious_witness :
  exists (s2 : TrafficMonitor.t) (r : bool * option TrafficMonitor.details),
    TrafficMonitor.is_suspicious (TrafficMonitor.Config 0 1 1) 0 "10.0.0.1"
      (default TrafficMonitor.init
         (TrafficMonitor.record_request (TrafficMonitor.Config 0 1 1) 0 0
            "10.0.0.1" "/" "GET" TrafficMonitor.init))
    = Some (s2, r)
    /\ TrafficMonitor.violations
         (default TrafficMonitor.init
            (TrafficMonitor.record_request (TrafficMonitor.Config 0 1 1) 0 0
               "10.0.0.1" "/" "GET" TrafficMonitor.init)) "10.0.0.1"
       = TrafficMonitor.violations TrafficMonitor.init "10.0.0.1"
         + (if r.1 then 1 else 0).
Proof.
  refine (monitor_record_then_suspicious (TrafficMonitor.Config 0 1 1) 0 0
            "10.0.0.1" "/" "GET" TrafficMonitor.init _ _ _).
  - reflexivity.
  - vm_compute. reflexivity.
Defined.

(** ** mitigation_system.py *)

Section CoordinatorMore.
Import System.
Variable cfg : config.

Lemma is_suspicious_some (now : Q) (ip : string) (m0 : TrafficMonitor.t) :
  TrafficMonitor.detection_window (monitor_cfg cfg) <> 0 ->
  is_Some (TrafficMonitor.is_suspicious (monitor_cfg cfg) now ip m0).
Proof.
  intros Hdw. unfold TrafficMonitor.is_suspicious, py_div.
  destruct (prune _ _ _) as [|q l]; [done|].
  destruct (Z.eqb_spec (TrafficMonitor.detection_window (monitor_cfg cfg)) 0);
    [done|].
  by destruct (Qltb _ _).
Qed.

(** What a denial of the registry says about its state. *)
Lemma filter_is_allowed_denied (now : Q) (ip : string) (f : IPFilter.t) :
  (IPFilter.is_allowed now ip f).2.1 = false ->
  (IPFilter.is_allowed now ip f).1 = f
  /\ (ip ∉ IPFilter.whitelist f)
  /\ (((ip ∈ IPFilter.blacklist f)
       /\ (IPFilter.is_allowed now ip f).2.2 = IPFilter.Blacklisted)
      \/ ((ip ∉ IPFilter.blacklist f)
          /\ exists ex : Q,
               IPFilter.temp_blocks f !! ip = Some ex /\ (now < ex)%Q
               /\ (IPFilter.is_allowed now ip f).2.2
                  = IPFilter.TempBlocked (py_int (ex - now)))).
Proof.
  unfold IPFilter.is_allowed.
  destruct (decide (ip ∈ IPFilter.whitelist f)); [done|].
  destruct (decide (ip ∈ IPFilter.blacklist f)); [by intros _; auto|].
  destruct (IPFilter.temp_blocks f !! ip) as [ex|]; [|done].
  destruct (Qltb now ex) eqn:Hlt; [|done].
  intros _. apply Qltb_lt in Hlt. repeat split; [done|]. right. eauto.
Qed.

(** What a pass of the registry leaves behind. *)
Lemma filter_is_allowed_passed (now : Q) (ip : string) (f : IPFilter.t) :
  (IPFilter.is_allowed now ip f).2.1 = true ->
  IPFilter.whitelist (IPFilter.is_allowed now ip f).1 = IPFilter.whitelist f
  /\ IPFilter.blacklist (IPFilter.is_allowed now ip f).1 = IPFilter.blacklist f
  /\ (forall addr : string,
        ip <> addr ->
        IPFilter.temp_blocks (IPFilter.is_allowed now ip f).1 !! addr
        = IPFilter.temp_blocks f !! addr)
  /\ ((ip ∉ IPFilter.whitelist f) ->
      (ip ∉ IPFilter.blacklist f)
      /\ IPFilter.temp_blocks (IPFilter.is_allowed now ip f).1 !! ip = None).
Proof.
  unfold IPFilter.is_allowed.
  destruct (decide (ip ∈ IPFilter.whitelist f)); [done|].
  destruct (decide (ip ∈ IPFilter.blacklist f)); [done|].
  destruct (IPFilter.temp_blocks f !! ip) as [ex|] eqn:E; [|done].
  destruct (Qltb now ex); [done|]. intros _. simpl.
  repeat split; try done.
  - intros addr Hne. by apply lookup_delete_ne.
  - apply lookup_delete_eq.
Qed.

(** The outcomes of [process_request], one per [return] of the source. *)
Lemma process_request_inv (tk : ticks) (ip e m : string) (s s' : t)
    (ok : bool) (r : reason) (dt : details) :
  process_request cfg tk ip e m s = Some (s', (ok, r, dt)) ->
  let fa := IPFilter.is_allowed (t_filter tk) ip (ip_filter s) in
  let la := RateLimiter.is_allowed (rate_cfg cfg) (t_limiter tk) ip
              (rate_limiter s) in
  (fa.2.1 = false
   /\ s' = Mk (rate_limiter s) (traffic_monitor s) fa.1
   /\ ok = false /\ r = FilterReason fa.2.2
   /\ dt = Details ip e m (t_details tk) (Some by_ip_filter)
             (Some (FilterReason fa.2.2)) None false None)
  \/ (fa.2.1 = true /\ (ip ∈ IPFilter.whitelist fa.1)
      /\ exists m1 : TrafficMonitor.t,
           TrafficMonitor.record_request (monitor_cfg cfg) (t_record tk)
             (t_alert tk) ip e m (traffic_monitor s) = Some m1
           /\ s' = Mk (rate_limiter s) m1 fa.1
           /\ ok = true /\ r = WhitelistedIP
           /\ dt = Details ip e m (t_details tk) None None (Some by_whitelist)
                     false None)
  \/ (fa.2.1 = true /\ (ip ∉ IPFilter.whitelist fa.1) /\ la.2.1 = false
      /\ s' = Mk la.1 (traffic_monitor s)
                (if auto_block cfg then
                   IPFilter.block_temporarily (t_block tk) ip
                     (RateLimiter.block_duration (rate_cfg cfg)) fa.1
                 else fa.1)
      /\ ok = false /\ r = LimiterReason la.2.2
      /\ dt = Details ip e m (t_details tk) (Some by_rate_limiter)
                (Some (LimiterReason la.2.2)) None false None)
  \/ (fa.2.1 = true /\ (ip ∉ IPFilter.whitelist fa.1) /\ la.2.1 = true
      /\ exists (m1 m2 : TrafficMonitor.t) (sus : bool)
           (sd : option TrafficMonitor.details),
           TrafficMonitor.record_request (monitor_cfg cfg) (t_record tk)
             (t_alert tk) ip e m (traffic_monitor s) = Some m1
           /\ TrafficMonitor.is_suspicious (monitor_cfg cfg) (t_suspicious tk)
                ip m1 = Some (m2, (sus, sd))
           /\ ((sus && auto_block cfg && severity_in_high_critical sd = true
                /\ s' = Mk la.1 m2
                          (IPFilter.block_temporarily (t_block tk) ip 600 fa.1)
                /\ ok = false /\ r = SuspiciousActivity sd
                /\ dt = Details ip e m (t_details tk) None None None true sd)
               \/ (sus && auto_block cfg && severity_in_high_critical sd = false
                   /\ s' = Mk la.1 m2 fa.1
                   /\ ok = true /\ r = RequestAllowed
                   /\ dt = Details ip e m (t_details tk) None None
                             (Some by_all_checks_passed) sus
                             (if sus then sd else None)))).
Proof.
  intros Hreq fa la. subst fa la. unfold process_request in Hreq.
  destruct (IPFilter.is_allowed (t_filter tk) ip (ip_filter s))
    as [f1 [fok fr]].
  cbn [fst snd ip_filter rate_limiter traffic_monitor] in *.
  destruct fok; cbn [negb] in Hreq.
  2:{ left. by injection Hreq as <- <- <- <-. }
  right. unfold IPFilter.is_whitelisted in Hreq.
  destruct (decide (ip ∈ IPFilter.whitelist f1)) as [Hw|Hw].
  { left. rewrite bool_decide_eq_true_2 in Hreq by done.
    destruct (TrafficMonitor.record_request _ _ _ _ _ _ _) as [m1|]; [|done].
    injection Hreq as <- <- <- <-. repeat split; [done|]. by exists m1. }
  right. rewrite bool_decide_eq_false_2 in Hreq by done.
  destruct (RateLimiter.is_allowed (rate_cfg cfg) (t_limiter tk) ip
              (rate_limiter s)) as [r1 [lok lr]].
  cbn [fst snd ip_filter rate_limiter traffic_monitor] in *.
  destruct lok; cbn [negb] in Hreq.
  2:{ left. by injection Hreq as <- <- <- <-. }
  right. repeat split; [done|].
  destruct (TrafficMonitor.record_request _ _ _ _ _ _ _) as [m1|]; [|done].
  destruct (TrafficMonitor.is_suspicious _ _ _ _) as [[m2 [sus sd]]|] eqn:Hsus;
    [|done].
  cbn [fst snd ip_filter rate_limiter traffic_monitor] in *.
  exists m1, m2, sus, sd. split; [done|]. split; [done|].
  destruct (sus && auto_block cfg && severity_in_high_critical sd);
    injection Hreq as <- <- <- <-; [left|right]; done.
Qed.

(** X18. With a detection window other than zero [process_request] always
    returns a result. *)
Theorem process_request_returns (tk : ticks) (ip e m : string) (s : t) :
  TrafficMonitor.detection_window (monitor_cfg cfg) <> 0 ->
  is_Some (process_request cfg tk ip e m s).
Proof.
  intros Hdw. unfold process_request.
  destruct (IPFilter.is_allowed _ _ _) as [f1 [fok fr]].
  destruct fok; cbn [negb]; [|done].
  cbn [ip_filter rate_limiter traffic_monitor].
  destruct (IPFilter.is_whitelisted ip f1).
  - destruct (record_request_some (monitor_cfg cfg) (t_record tk) (t_alert tk)
                ip e m (traffic_monitor s) Hdw) as (m1 & -> & _). done.
  - destruct (RateLimiter.is_allowed _ _ _ _) as [r1 [lok lr]].
    destruct lok; cbn [negb]; [|done].
    cbn [ip_filter rate_limiter traffic_monitor].
    destruct (record_request_some (monitor_cfg cfg) (t_record tk) (t_alert tk)
                ip e m (traffic_monitor s) Hdw) as (m1 & -> & _).
    destruct (is_suspicious_some (t_suspicious tk) ip m1 Hdw)
      as [[m2 [sus sd]] ->].
    by destruct (sus && auto_block cfg && severity_in_high_critical sd).
Qed.

(** X19. With a detection window of zero [process_request] raises
    (ZeroDivisionError in [record_request]) exactly for the requests that
    the registry lets through and that are whitelisted or pass the rate
    limiter; the denials of the registry and of the rate limiter are still
    returned. *)
Theorem process_request_zero_window (tk : ticks) (ip e m : string) (s : t) :
  TrafficMonitor.detection_window (monitor_cfg cfg) = 0 ->
  process_request cfg tk ip e m s = None
  <-> (IPFilter.is_allowed (t_filter tk) ip (ip_filter s)).2.1 = true
      /\ ((ip ∈ IPFilter.whitelist (ip_filter s))
          \/ (RateLimiter.is_allowed (rate_cfg cfg) (t_limiter tk) ip
                (rate_limiter s)).2.1 = true).
Proof.
  intros Hdw.
  assert (Hrec : forall m0 : TrafficMonitor.t,
    TrafficMonitor.record_request (monitor_cfg cfg) (t_record tk) (t_alert tk)
      ip e m m0 = None).
  { intros m0. unfold TrafficMonitor.record_request, py_div. by rewrite Hdw. }
  pose proof (filter_is_allowed_passed (t_filter tk) ip (ip_filter s)) as Hpass.
  unfold process_request.
  destruct (IPFilter.is_allowed (t_filter tk) ip (ip_filter s))
    as [f1 [fok fr]].
  cbn [fst snd ip_filter rate_limiter traffic_monitor] in *.
  destruct fok; cbn [negb]; [|by split; [|intros [? _]]].
  destruct Hpass as (Hwl & _); [done|].
  unfold IPFilter.is_whitelisted. rewrite Hwl.
  destruct (decide (ip ∈ IPFilter.whitelist (ip_filter s))) as [Hw|Hw].
  - rewrite bool_decide_eq_true_2 by done. rewrite Hrec. tauto.
  - rewrite bool_decide_eq_false_2 by done.
    destruct (RateLimiter.is_allowed _ _ _ _) as [r1 [lok lr]].
    cbn [fst snd ip_filter rate_limiter traffic_monitor].
    destruct lok; cbn [negb].
    + rewrite Hrec. tauto.
    + split; [done|]. by intros [_ [?|?]].
Qed.

(** X20. The result is coherent: the allowed flag, the reason and the
    [details] fields agree.  A denial of the registry is tagged
    [ip_filter] and carries a blacklist or temporary-block reason, a denial
    of the rate limiter is tagged [rate_limiter]; a suspicious-activity
    denial has the [suspicious] flag and details but no [blocked_by] tag;
    an allowed result carries [allowed_by] and no [blocked_by]. *)
Theorem process_request_result_coherent (tk : ticks) (ip e m : string)
    (s s' : t) (ok : bool) (r : reason) (dt : details) :
  process_request cfg tk ip e m s = Some (s', (ok, r, dt)) ->
  d_ip dt = ip /\ d_endpoint dt = e /\ d_method dt = m
  /\ d_timestamp dt = t_details tk
  /\ match r with
     | FilterReason fr =>
         ok = false /\ d_blocked_by dt = Some by_ip_filter
         /\ d_reason dt = Some r /\ d_allowed_by dt = None
         /\ (fr = IPFilter.Blacklisted
             \/ exists rem : Z, fr = IPFilter.TempBlocked rem /\ 0 <= rem)
     | LimiterReason lr =>
         ok = false /\ d_blocked_by dt = Some by_rate_limiter
         /\ d_reason dt = Some r /\ d_allowed_by dt = None /\ is_Some lr
     | SuspiciousActivity sd =>
         ok = false /\ d_blocked_by dt = None /\ d_allowed_by dt = None
         /\ d_suspicious dt = true /\ d_suspicious_details dt = sd
         /\ is_Some sd
     | WhitelistedIP =>
         ok = true /\ d_allowed_by dt = Some by_whitelist
         /\ d_blocked_by dt = None
     | RequestAllowed =>
         ok = true /\ d_allowed_by dt = Some by_all_checks_passed
         /\ d_blocked_by dt = None
     end.
Proof.
  intros Hreq. apply process_request_inv in Hreq. cbv zeta in Hreq.
  destruct Hreq as [(Hf & _ & -> & -> & ->)
                   |[(_ & _ & m1 & _ & _ & -> & -> & ->)
                   |[(_ & _ & Hl & _ & -> & -> & ->)
                   |(_ & _ & _ & m1 & m2 & sus & sd & _ & Hsus
                     & [(Hc & _ & -> & -> & ->)|(_ & _ & -> & -> & ->)])]]];
    cbn [d_ip d_endpoint d_method d_timestamp d_blocked_by d_reason
         d_allowed_by d_suspicious d_suspicious_details];
    repeat split; try done.
  - destruct (filter_is_allowed_denied _ _ _ Hf)
      as (_ & _ & [[_ ->]|(_ & ex & _ & Hlt & ->)]); [by left|right].
    eexists. split; [done|]. apply py_int_nonneg. lra.
  - revert Hl. unfold RateLimiter.is_allowed, RateLimiter.check_window.
    destruct (RateLimiter.blocked_ips (rate_limiter s) !! ip) as [ex|];
      [destruct (Qltb (t_limiter tk) ex); [done|]|];
      by destruct (RateLimiter.max_requests (rate_cfg cfg) <=? _).
  - apply andb_prop in Hc as [Hc _]. apply andb_prop in Hc as [-> _].
    revert Hsus. unfold TrafficMonitor.is_suspicious.
    destruct (prune _ _ _) as [|q l]; [done|].
    destruct (py_div _ _) as [rate|]; [|done].
    destruct (Qltb _ rate); by intros [= _ <-].
Qed.

Lemma limiter_denied (now : Q) (ip : string) (r0 : RateLimiter.t) :
  (RateLimiter.is_allowed (rate_cfg cfg) now ip r0).2.1 = false ->
  is_Some (RateLimiter.blocked_ips
             (RateLimiter.is_allowed (rate_cfg cfg) now ip r0).1 !! ip)
  /\ (length (RateLimiter.window
                (RateLimiter.is_allowed (rate_cfg cfg) now ip r0).1 ip)
      <= length (RateLimiter.window r0 ip))%nat.
Proof.
  assert (Hcw : forall s0 : RateLimiter.t,
    (RateLimiter.check_window (rate_cfg cfg) now ip s0).2.1 = false ->
    is_Some (RateLimiter.blocked_ips
               (RateLimiter.check_window (rate_cfg cfg) now ip s0).1 !! ip)
    /\ (length (RateLimiter.window
                  (RateLimiter.check_window (rate_cfg cfg) now ip s0).1 ip)
        <= length (RateLimiter.window s0 ip))%nat).
  { intros s0. unfold RateLimiter.check_window.
    destruct (RateLimiter.max_requests (rate_cfg cfg) <=? _); [|done].
    intros _. cbn [fst]. rewrite window_set_block, window_set_requests.
    rewrite decide_True by done. split; [|apply prune_length].
    unfold RateLimiter.set_block. simpl. by rewrite lookup_insert_eq. }
  unfold RateLimiter.is_allowed.
  destruct (RateLimiter.blocked_ips r0 !! ip) as [ex|] eqn:E; [|apply Hcw].
  destruct (Qltb now ex); [intros _; cbn [fst]; by rewrite E|].
  intros H. apply Hcw in H. by rewrite window_del_block in H.
Qed.

(** X21. A request that the registry or the rate limiter denies is not
    observed by the monitor: after a registry denial the whole state is
    unchanged, and after a rate-limiter denial the monitor is unchanged and
    the rate-limiter window of the address has not grown. *)
Theorem denied_request_not_recorded (tk : ticks) (ip e m : string) (s s' : t)
    (r : reason) (dt : details) :
  process_request cfg tk ip e m s = Some (s', (false, r, dt)) ->
  match r with
  | FilterReason _ => s' = s
  | LimiterReason _ =>
      traffic_monitor s' = traffic_monitor s
      /\ (length (RateLimiter.window (rate_limiter s') ip)
          <= length (RateLimiter.window (rate_limiter s) ip))%nat
  | _ => True
  end.
Proof.
  intros Hreq. apply process_request_inv in Hreq. cbv zeta in Hreq.
  destruct Hreq as [(Hf & -> & _ & -> & _)
                   |[(_ & _ & m1 & _ & _ & _ & -> & _)
                   |[(_ & _ & Hl & -> & _ & -> & _)
                   |(_ & _ & _ & m1 & m2 & sus & sd & _ & _
                     & [(_ & _ & _ & -> & _)|(_ & _ & _ & -> & _)])]]];
    try done.
  - destruct (filter_is_allowed_denied _ _ _ Hf) as (-> & _). by destruct s.
  - split; [done|]. cbn [rate_limiter]. by apply limiter_denied.
Qed.

Lemma process_request_blacklisted (tk : ticks) (ip e m : string) (s : t) :
  ip ∉ IPFilter.whitelist (ip_filter s) ->
  ip ∈ IPFilter.blacklist (ip_filter s) ->
  process_request cfg tk ip e m s
  = Some (s, (false, FilterReason IPFilter.Blacklisted,
              Details ip e m (t_details tk) (Some by_ip_filter)
                      (Some (FilterReason IPFilter.Blacklisted))
                      None false None)).
Proof.
  intros Hw Hb. unfold process_request, IPFilter.is_allowed.
  rewrite decide_False by done. rewrite decide_True by done.
  cbn [negb]. by destruct s.
Qed.

Lemma process_all_blacklisted (tks : list ticks) (ip e m : string) (s : t) :
  ip ∉ IPFilter.whitelist (ip_filter s) ->
  ip ∈ IPFilter.blacklist (ip_filter s) ->
  exists rs : list result,
    process_all cfg tks ip e m s = Some (s, rs)
    /\ length rs = length tks
    /\ Forall (fun r : result =>
                 r.1 = (false, FilterReason IPFilter.Blacklisted)) rs.
Proof.
  intros Hw Hb. induction tks as [|tk tks (rs & Hrun & Hlen & Hall)].
  - by exists [].
  - cbn [process_all]. rewrite process_request_blacklisted, Hrun by done.
    eexists. split; [reflexivity|]. split; [simpl; lia|]. by constructor.
Qed.

(** X22. A permanent block is permanent: after [block_ip] with
    [permanent = True] every request of the address is denied as
    blacklisted, at any later readings, whatever its status was before
    (whitelisted included), and [unblock_ip] does not lift it. *)
Theorem permanent_block_stays (now : Q) (d : option Z) (tks : list ticks)
    (ip e m : string) (s : t) :
  (exists rs : list result,
      process_all cfg tks ip e m (block_ip cfg now ip d true s)
      = Some (block_ip cfg now ip d true s, rs)
      /\ length rs = length tks
      /\ Forall (fun r : result =>
                   r.1 = (false, FilterReason IPFilter.Blacklisted)) rs)
  /\ (exists rs : list result,
        process_all cfg tks ip e m
          (unblock_ip ip (block_ip cfg now ip d true s))
        = Some (unblock_ip ip (block_ip cfg now ip d true s), rs)
        /\ length rs = length tks
        /\ Forall (fun r : result =>
                     r.1 = (false, FilterReason IPFilter.Blacklisted)) rs).
Proof.
  split; apply process_all_blacklisted; simpl;
    rewrite ?elem_of_difference, ?elem_of_union, ?elem_of_singleton; tauto.
Qed.

(** X23. A manual temporary block of an unlisted address denies its
    requests, with the registry's temporary-block reason and a non-negative
    number of remaining seconds, at every reading before
    [now0 + duration]; a missing or zero duration stands for the rate
    limiter's [block_duration].  The denied request leaves the state as it
    was. *)
Theorem manual_temp_block_denies (now0 : Q) (d : option Z) (tk : ticks)
    (ip e m : string) (s : t) :
  ip ∉ IPFilter.whitelist (ip_filter s) ->
  ip ∉ IPFilter.blacklist (ip_filter s) ->
  (t_filter tk
   < now0 + inject_Z (py_or d (RateLimiter.block_duration (rate_cfg cfg))))%Q ->
  exists (rem : Z) (dt : details),
    process_request cfg tk ip e m (block_ip cfg now0 ip d false s)
    = Some (block_ip cfg now0 ip d false s,
            (false, FilterReason (IPFilter.TempBlocked rem), dt))
    /\ 0 <= rem.
Proof.
  intros Hw Hb Hlt. unfold block_ip, IPFilter.block_temporarily.
  rewrite decide_True by done. unfold process_request.
  rewrite (filter_is_allowed_temp (t_filter tk)
             (now0 + inject_Z (py_or d (RateLimiter.block_duration (rate_cfg cfg)))))
    by (try done; apply lookup_insert_eq).
  cbn [negb]. eexists _, _. split; [reflexivity|].
  apply py_int_nonneg. lra.
Qed.

Lemma process_all_whitelisted (tks : list ticks) (ip e m : string) (s : t) :
  ip ∈ IPFilter.whitelist (ip_filter s) ->
  TrafficMonitor.detection_window (monitor_cfg cfg) <> 0 ->
  exists (s' : t) (rs : list result),
    process_all cfg tks ip e m s = Some (s', rs)
    /\ length rs = length tks
    /\ Forall (fun r : result => r.1 = (true, WhitelistedIP)) rs.
Proof.
  intros Hw Hdw. revert s Hw.
  induction tks as [|tk tks IH]; intros s Hw.
  - by exists s, [].
  - cbn [process_all]. rewrite process_request_whitelisted by done.
    destruct (record_request_some (monitor_cfg cfg) (t_record tk) (t_alert tk)
                ip e m (traffic_monitor s) Hdw) as (m1 & -> & _).
    destruct (IH (Mk (rate_limiter s) m1 (ip_filter s)) Hw)
      as (s' & rs & -> & Hlen & Hall).
    eexists _, _. split; [reflexivity|]. split; [simpl; lia|].
    by constructor.
Qed.

(** X24. Whitelisting overrides everything: after [whitelist_ip], whatever
    the address was before (blacklisted, temporarily blocked, blocked by the
    rate limiter), and even after a later manual temporary block, every
    request of the address is allowed as whitelisted. *)
Theorem whitelist_ip_overrides (now : Q) (d : option Z) (tks : list ticks)
    (ip e m : string) (s : t) :
  TrafficMonitor.detection_window (monitor_cfg cfg) <> 0 ->
  exists (s' : t) (rs : list result),
    process_all cfg tks ip e m
      (block_ip cfg now ip d false (whitelist_ip ip s)) = Some (s', rs)
    /\ length rs = length tks
    /\ Forall (fun r : result => r.1 = (true, WhitelistedIP)) rs.
Proof.
  intros Hdw. apply process_all_whitelisted; [|done].
  unfold block_ip, whitelist_ip, IPFilter.block_temporarily.
  cbn [ip_filter]. case_decide; simpl;
    rewrite elem_of_union, elem_of_singleton; tauto.
Qed.

(** X25. A suspicious-activity denial happens only with auto-block on and a
    severity of HIGH or CRITICAL, and always leaves a temporary block of the
    address in the registry that expires 600 seconds after the reading of
    [block_temporarily]. *)
Theorem suspicious_denial_blocks (tk : ticks) (ip e m : string) (s s' : t)
    (sd : option TrafficMonitor.details) (dt : details) :
  process_request cfg tk ip e m s = Some (s', (false, SuspiciousActivity sd, dt)) ->
  auto_block cfg = true
  /\ IPFilter.temp_blocks (ip_filter s') !! ip
     = Some (t_block tk + inject_Z 600)%Q
  /\ exists d' : TrafficMonitor.details,
       sd = Some d'
       /\ (TrafficMonitor.d_severity d' = TrafficMonitor.HIGH
           \/ TrafficMonitor.d_severity d' = TrafficMonitor.CRITICAL).
Proof.
  intros Hreq. apply process_request_inv in Hreq. cbv zeta in Hreq.
  destruct Hreq as [(_ & _ & _ & ? & _)
                   |[(_ & _ & m1 & _ & _ & _ & ? & _)
                   |[(_ & _ & _ & _ & _ & ? & _)
                   |(Hf & Hw & _ & m1 & m2 & sus & sd' & _ & _
                     & [(Hc & -> & _ & Hr & _)|(_ & _ & ? & _)])]]];
    try done.
  injection Hr as <-.
  apply andb_prop in Hc as [Hc Hsev]. apply andb_prop in Hc as [_ Hab].
  destruct (filter_is_allowed_passed _ _ _ Hf) as (Hwl & Hbl & _ & Hun).
  rewrite Hwl in Hw. destruct (Hun Hw) as [Hb _].
  split; [done|]. split.
  - cbn [ip_filter]. unfold IPFilter.block_temporarily.
    rewrite decide_True by (by rewrite Hwl, Hbl).
    simpl. apply lookup_insert_eq.
  - unfold severity_in_high_critical in Hsev.
    destruct sd as [d'|]; [|done]. exists d'. split; [done|].
    destruct (TrafficMonitor.d_severity d'); auto; done.
Qed.

(** X26. After a rate-limiter denial the rate limiter holds a block of the
    address; with auto-block on the registry holds a temporary block of it
    that expires [block_duration] seconds after the reading of
    [block_temporarily], and with auto-block off the registry is left as
    its own check left it. *)
Theorem limiter_denial_escalates (tk : ticks) (ip e m : string) (s s' : t)
    (lr : option RateLimiter.reason) (dt : details) :
  process_request cfg tk ip e m s = Some (s', (false, LimiterReason lr, dt)) ->
  is_Some (RateLimiter.blocked_ips (rate_limiter s') !! ip)
  /\ if auto_block cfg then
       IPFilter.temp_blocks (ip_filter s') !! ip
       = Some (t_block tk
               + inject_Z (RateLimiter.block_duration (rate_cfg cfg)))%Q
     else
       ip_filter s' = (IPFilter.is_allowed (t_filter tk) ip (ip_filter s)).1.
Proof.
  intros Hreq. apply process_request_inv in Hreq. cbv zeta in Hreq.
  destruct Hreq as [(_ & _ & _ & ? & _)
                   |[(_ & _ & m1 & _ & _ & _ & ? & _)
                   |[(Hf & Hw & Hl & -> & _ & _ & _)
                   |(_ & _ & _ & m1 & m2 & sus & sd' & _ & _
                     & [(_ & _ & _ & ? & _)|(_ & _ & _ & ? & _)])]]];
    try done.
  cbn [rate_limiter ip_filter]. split; [by apply limiter_denied|].
  destruct (auto_block cfg); [|done].
  destruct (filter_is_allowed_passed _ _ _ Hf) as (Hwl & Hbl & _ & Hun).
  rewrite Hwl in Hw. destruct (Hun Hw) as [Hb _].
  unfold IPFilter.block_temporarily.
  rewrite decide_True by (by rewrite Hwl, Hbl).
  simpl. apply lookup_insert_eq.
Qed.

Lemma record_request_frame (now na : Q) (ip e m addr : string)
    (m0 m1 : TrafficMonitor.t) :
  ip <> addr ->
  TrafficMonitor.record_request (monitor_cfg cfg) now na ip e m m0 = Some m1 ->
  TrafficMonitor.ip_requests m1 !! addr = TrafficMonitor.ip_requests m0 !! addr
  /\ TrafficMonitor.ip_violations m1 !! addr
     = TrafficMonitor.ip_violations m0 !! addr.
Proof.
  intros Hne. unfold TrafficMonitor.record_request.
  destruct (py_div _ _) as [rate|]; [|done].
  destruct (Qltb _ rate).
  - match goal with
    | |- context [?a <=? ?b] => destruct (a <=? b)
    end; intros [= <-]; simpl; by rewrite !lookup_insert_ne.
  - intros [= <-]. simpl. by rewrite lookup_insert_ne.
Qed.

Lemma is_suspicious_frame (now : Q) (ip addr : string)
    (m0 m1 : TrafficMonitor.t) (r : bool * option TrafficMonitor.details) :
  ip <> addr ->
  TrafficMonitor.is_suspicious (monitor_cfg cfg) now ip m0 = Some (m1, r) ->
  TrafficMonitor.ip_requests m1 !! addr = TrafficMonitor.ip_requests m0 !! addr
  /\ TrafficMonitor.ip_violations m1 !! addr
     = TrafficMonitor.ip_violations m0 !! addr.
Proof.
  intros Hne. unfold TrafficMonitor.is_suspicious.
  destruct (prune _ _ _) as [|q l];
    [intros [= <- _]; simpl; by rewrite lookup_insert_ne|].
  destruct (py_div _ _) as [rate|]; [|done].
  destruct (Qltb _ rate); intros [= <- _]; simpl;
    by rewrite !lookup_insert_ne.
Qed.

Lemma block_temporarily_frame (now : Q) (ip addr : string) (d : Z)
    (f : IPFilter.t) :
  ip <> addr ->
  IPFilter.whitelist (IPFilter.block_temporarily now ip d f) = IPFilter.whitelist f
  /\ IPFilter.blacklist (IPFilter.block_temporarily now ip d f)
     = IPFilter.blacklist f
  /\ IPFilter.temp_blocks (IPFilter.block_temporarily now ip d f) !! addr
     = IPFilter.temp_blocks f !! addr.
Proof.
  intros Hne. unfold IPFilter.block_temporarily. case_decide; [|done].
  simpl. by rewrite lookup_insert_ne.
Qed.

Lemma filter_is_allowed_frame (now : Q) (ip addr : string) (f : IPFilter.t) :
  ip <> addr ->
  IPFilter.whitelist (IPFilter.is_allowed now ip f).1 = IPFilter.whitelist f
  /\ IPFilter.blacklist (IPFilter.is_allowed now ip f).1 = IPFilter.blacklist f
  /\ IPFilter.temp_blocks (IPFilter.is_allowed now ip f).1 !! addr
     = IPFilter.temp_blocks f !! addr.
Proof.
  intros Hne. unfold IPFilter.is_allowed.
  destruct (decide (ip ∈ IPFilter.whitelist f)); [done|].
  destruct (decide (ip ∈ IPFilter.blacklist f)); [done|].
  destruct (IPFilter.temp_blocks f !! ip) as [ex|]; [|done].
  destruct (Qltb now ex); [done|]. simpl. by rewrite lookup_delete_ne.
Qed.

Lemma process_request_frame (tk : ticks) (ip e m addr : string) (s s' : t)
    (res : result) :
  ip <> addr ->
  process_request cfg tk ip e m s = Some (s', res) ->
  same_for addr s s'.
Proof.
  intros Hne Hreq. destruct res as [[ok r] dt].
  apply process_request_inv in Hreq. cbv zeta in Hreq.
  destruct (filter_is_allowed_frame (t_filter tk) ip addr (ip_filter s) Hne)
    as (Hwl & Hbl & Htb).
  destruct (is_allowed_frame (rate_cfg cfg) (t_limiter tk) ip addr
              (rate_limiter s) Hne) as (Hrq & Hrb).
  unfold same_for.
  destruct Hreq as [(_ & -> & _)
                   |[(_ & _ & m1 & Hrec & -> & _)
                   |[(_ & _ & _ & -> & _)
                   |(_ & _ & _ & m1 & m2 & sus & sd & Hrec & Hsus
                     & [(_ & -> & _)|(_ & -> & _)])]]];
    cbn [rate_limiter traffic_monitor ip_filter].
  - by rewrite Hwl, Hbl, Htb.
  - destruct (record_request_frame _ _ _ _ _ addr _ _ Hne Hrec) as [-> ->].
    by rewrite Hwl, Hbl, Htb.
  - rewrite Hrq, Hrb. destruct (auto_block cfg).
    + destruct (block_temporarily_frame (t_block tk) ip addr
                  (RateLimiter.block_duration (rate_cfg cfg))
                  (IPFilter.is_allowed (t_filter tk) ip (ip_filter s)).1 Hne)
        as (-> & -> & ->).
      by rewrite Hwl, Hbl, Htb.
    + by rewrite Hwl, Hbl, Htb.
  - destruct (record_request_frame _ _ _ _ _ addr _ _ Hne Hrec) as [Ha Hb].
    destruct (is_suspicious_frame _ _ addr _ _ _ Hne Hsus) as [-> ->].
    destruct (block_temporarily_frame (t_block tk) ip addr 600
                (IPFilter.is_allowed (t_filter tk) ip (ip_filter s)).1 Hne)
      as (-> & -> & ->).
    by rewrite Hrq, Hrb, Ha, Hb, Hwl, Hbl, Htb.
  - destruct (record_request_frame _ _ _ _ _ addr _ _ Hne Hrec) as [Ha Hb].
    destruct (is_suspicious_frame _ _ addr _ _ _ Hne Hsus) as [-> ->].
    by rewrite Hrq, Hrb, Ha, Hb, Hwl, Hbl, Htb.
Qed.

Lemma same_for_trans (addr : string) (s1 s2 s3 : t) :
  same_for addr s1 s2 -> same_for addr s2 s3 -> same_for addr s1 s3.
Proof.
  unfold same_for.
  intros (A1 & A2 & A3 & A4 & A5 & A6 & A7) (B1 & B2 & B3 & B4 & B5 & B6 & B7).
  rewrite B1, B2, B3, B4, B5, B6, B7. done.
Qed.

Lemma process_all_frame (tks : list ticks) (ip e m addr : string) (s s' : t)
    (rs : list result) :
  ip <> addr ->
  process_all cfg tks ip e m s = Some (s', rs) ->
  same_for addr s s'.
Proof.
  intros Hne. revert s rs. induction tks as [|tk tks IH]; intros s rs.
  - intros [= <- _]. unfold same_for. tauto.
  - cbn [process_all].
    destruct (process_request cfg tk ip e m s) as [[s1 r]|] eqn:Hreq; [|done].
    destruct (process_all cfg tks ip e m s1) as [[s2 rs']|] eqn:Hrun; [|done].
    intros [= <- _]. eapply same_for_trans.
    + by eapply process_request_frame.
    + by eapply IH.
Qed.

Lemma filter_is_allowed_local (now : Q) (ip : string) (f f' : IPFilter.t) :
  ((ip ∈ IPFilter.whitelist f') <-> (ip ∈ IPFilter.whitelist f)) ->
  ((ip ∈ IPFilter.blacklist f') <-> (ip ∈ IPFilter.blacklist f)) ->
  IPFilter.temp_blocks f' !! ip = IPFilter.temp_blocks f !! ip ->
  (IPFilter.is_allowed now ip f').2 = (IPFilter.is_allowed now ip f).2
  /\ ((ip ∈ IPFilter.whitelist (IPFilter.is_allowed now ip f').1)
      <-> (ip ∈ IPFilter.whitelist (IPFilter.is_allowed now ip f).1)).
Proof.
  intros Hw Hb Ht. unfold IPFilter.is_allowed. rewrite Ht.
  destruct (decide (ip ∈ IPFilter.whitelist f'));
    destruct (decide (ip ∈ IPFilter.whitelist f));
    try (exfalso; tauto); try (simpl; split; [done|tauto]).
  destruct (decide (ip ∈ IPFilter.blacklist f'));
    destruct (decide (ip ∈ IPFilter.blacklist f));
    try (exfalso; tauto); try (simpl; split; [done|tauto]).
  destruct (IPFilter.temp_blocks f !! ip) as [ex|];
    [destruct (Qltb now ex)|]; simpl; (split; [done|tauto]).
Qed.

Lemma record_request_local (now na : Q) (ip e m : string)
    (m0 m0' : TrafficMonitor.t) :
  TrafficMonitor.ip_requests m0' !! ip = TrafficMonitor.ip_requests m0 !! ip ->
  TrafficMonitor.ip_violations m0' !! ip
    = TrafficMonitor.ip_violations m0 !! ip ->
  match TrafficMonitor.record_request (monitor_cfg cfg) now na ip e m m0',
        TrafficMonitor.record_request (monitor_cfg cfg) now na ip e m m0 with
  | Some a, Some b =>
      TrafficMonitor.ip_requests a !! ip = TrafficMonitor.ip_requests b !! ip
      /\ TrafficMonitor.ip_violations a !! ip
         = TrafficMonitor.ip_violations b !! ip
  | None, None => True
  | _, _ => False
  end.
Proof.
  intros Hr Hv.
  unfold TrafficMonitor.record_request, TrafficMonitor.window,
    TrafficMonitor.violations, TrafficMonitor._trigger_alert,
    TrafficMonitor.set_alerts, TrafficMonitor.set_violations,
    TrafficMonitor.set_requests.
  cbn [TrafficMonitor.ip_requests TrafficMonitor.ip_violations
       TrafficMonitor.alerts].
  rewrite Hr, Hv, !lookup_insert_eq.
  destruct (py_div _ _) as [rate|]; [|done].
  destruct (Qltb _ rate); [|simpl; by rewrite !lookup_insert_eq].
  destruct (_ <=? _); simpl; by rewrite !lookup_insert_eq.
Qed.

Lemma is_suspicious_local (now : Q) (ip : string) (m0 m0' : TrafficMonitor.t) :
  TrafficMonitor.ip_requests m0' !! ip = TrafficMonitor.ip_requests m0 !! ip ->
  TrafficMonitor.ip_violations m0' !! ip
    = TrafficMonitor.ip_violations m0 !! ip ->
  snd <$> TrafficMonitor.is_suspicious (monitor_cfg cfg) now ip m0'
  = snd <$> TrafficMonitor.is_suspicious (monitor_cfg cfg) now ip m0.
Proof.
  intros Hr Hv.
  unfold TrafficMonitor.is_suspicious, TrafficMonitor.window,
    TrafficMonitor.violations, TrafficMonitor.set_requests.
  cbn [TrafficMonitor.ip_requests TrafficMonitor.ip_violations].
  rewrite Hr, Hv.
  destruct (prune _ _ _) as [|q l]; [done|].
  destruct (py_div _ _) as [rate|]; [|done].
  by destruct (Qltb _ rate).
Qed.

(** The result of a request is decided by what the components hold for its
    own address. *)
Lemma process_request_local (tk : ticks) (ip e m : string) (s s' : t) :
  same_for ip s s' ->
  snd <$> process_request cfg tk ip e m s'
  = snd <$> process_request cfg tk ip e m s.
Proof.
  intros (Hrq & Hrb & Hmr & Hmv & Hwl & Hbl & Htb).
  destruct (filter_is_allowed_local (t_filter tk) ip (ip_filter s)
              (ip_filter s') Hwl Hbl Htb) as [Hfa Hfw].
  destruct (is_allowed_local (rate_cfg cfg) (t_limiter tk) ip
              (rate_limiter s') (rate_limiter s) Hrq Hrb) as (Hla & _ & _).
  pose proof (record_request_local (t_record tk) (t_alert tk) ip e m
                (traffic_monitor s) (traffic_monitor s') Hmr Hmv) as Hrec.
  unfold process_request.
  destruct (IPFilter.is_allowed (t_filter tk) ip (ip_filter s'))
    as [f1' [fok' fr']].
  destruct (IPFilter.is_allowed (t_filter tk) ip (ip_filter s))
    as [f1 [fok fr]].
  cbn [fst snd] in Hfa, Hfw. injection Hfa as -> ->.
  cbn [ip_filter rate_limiter traffic_monitor].
  destruct fok; cbn [negb]; [|done].
  unfold IPFilter.is_whitelisted. rewrite (bool_decide_ext _ _ Hfw).
  destruct (bool_decide (ip ∈ IPFilter.whitelist f1)).
  - destruct (TrafficMonitor.record_request _ _ _ _ _ _ (traffic_monitor s'));
      destruct (TrafficMonitor.record_request _ _ _ _ _ _ (traffic_monitor s));
      done.
  - destruct (RateLimiter.is_allowed (rate_cfg cfg) (t_limiter tk) ip
                (rate_limiter s')) as [r1' [lok' lr']].
    destruct (RateLimiter.is_allowed (rate_cfg cfg) (t_limiter tk) ip
                (rate_limiter s)) as [r1 [lok lr]].
    cbn [fst snd] in Hla. injection Hla as -> ->.
    cbn [ip_filter rate_limiter traffic_monitor].
    destruct lok; cbn [negb]; [|done].
    destruct (TrafficMonitor.record_request _ _ _ _ _ _ (traffic_monitor s'))
      as [m1'|];
      destruct (TrafficMonitor.record_request _ _ _ _ _ _ (traffic_monitor s))
        as [m1|]; try done.
    destruct Hrec as [Hr1 Hv1].
    pose proof (is_suspicious_local (t_suspicious tk) ip m1 m1' Hr1 Hv1) as Hsus.
    destruct (TrafficMonitor.is_suspicious _ _ _ m1') as [[m2' [sus' sd']]|];
      destruct (TrafficMonitor.is_suspicious _ _ _ m1) as [[m2 [sus sd]]|];
      try done.
    cbn [fmap option_fmap option_map snd] in Hsus. injection Hsus as -> ->.
    cbn [ip_filter rate_limiter traffic_monitor].
    by destruct (sus && auto_block cfg && severity_in_high_critical sd).
Qed.

(** X27. Admission is decided per address: the result of a request of one
    address, whether it is allowed, the reason and the details, is the same
    whether or not any number of requests of another address were processed
    before it. *)
Theorem admission_independent_of_others (tks : list ticks) (tk : ticks)
    (ip e m addr e' m' : string) (s s' : t) (rs : list result) :
  ip <> addr ->
  process_all cfg tks ip e m s = Some (s', rs) ->
  snd <$> process_request cfg tk addr e' m' s'
  = snd <$> process_request cfg tk addr e' m' s.
Proof.
  intros Hne Hrun. apply process_request_local.
  by eapply process_all_frame.
Qed.

End CoordinatorMore.

Lemma process_request_returns_witness :
  is_Some (System.process_request System.default_config
             (System.Ticks 0 0 0 0 0 0 0) "10.0.0.1" "/" "GET"
             (System.init System.default_config)).
Proof.
  refine (process_request_returns System.default_config
            (System.Ticks 0 0 0 0 0 0 0) "10.0.0.1" "/" "GET"
            (System.init System.default_config) _).
  discriminate.
Defined.

Lemma process_request_zero_window_witness :
  System.process_request
    (System.Config (RateLimiter.Config 100 60 300)
       (TrafficMonitor.Config 10 0 3) [] [] true)
    (System.Ticks 0 0 0 0 0 0 0) "10.0.0.1" "/" "GET"
    (System.init (System.Config (RateLimiter.Config 100 60 300)
                    (TrafficMonitor.Config 10 0 3) [] [] true))
  = None.
Proof.
  refine (proj2 (process_request_zero_window
                   (System.Config (RateLimiter.Config 100 60 300)
                      (TrafficMonitor.Config 10 0 3) [] [] true)
                   (System.Ticks 0 0 0 0 0 0 0) "10.0.0.1" "/" "GET"
                   (System.init (System.Config (RateLimiter.Config 100 60 300)
                                   (TrafficMonitor.Config 10 0 3) [] [] true))
                   _) _).
  - reflexivity.
  - split; [reflexivity|right; reflexivity].
Defined.

Lemma process_request_result_coherent_witness :
  exists (s' : System.t) (ok : bool) (r : System.reason) (dt : System.details),
    System.process_request System.default_config
      (System.Ticks 0 0 0 0 0 0 0) "10.0.0.1" "/" "GET"
      (System.init System.default_config) = Some (s', (ok, r, dt))
    /\ System.d_ip dt = "10.0.0.1"%string.
Proof.
  eexists _, _, _, _. split; [vm_compute; reflexivity|].
  refine (proj1 (process_request_result_coherent System.default_config
                   (System.Ticks 0 0 0 0 0 0 0) "10.0.0.1" "/" "GET"
                   (System.init System.default_config) _ _ _ _ _)).
  vm_compute. reflexivity.
Defined.

Lemma denied_request_not_recorded_witness :
  exists (s' : System.t) (dt : System.details),
    System.process_request
      (System.Config (RateLimiter.Config 100 60 300)
         (TrafficMonitor.Config 10 10 3) [] ["10.0.0.9"%string] true)
      (System.Ticks 0 0 0 0 0 0 0) "10.0.0.9" "/" "GET"
      (System.init (System.Config (RateLimiter.Config 100 60 300)
                      (TrafficMonitor.Config 10 10 3) [] ["10.0.0.9"%string]
                      true))
    = Some (s', (false, System.FilterReason IPFilter.Blacklisted, dt))
    /\ s' = System.init (System.Config (RateLimiter.Config 100 60 300)
                           (TrafficMonitor.Config 10 10 3) []
                           ["10.0.0.9"%string] true).
Proof.
  eexists _, _. split; [vm_compute; reflexivity|].
  refine (denied_request_not_recorded
            (System.Config (RateLimiter.Config 100 60 300)
               (TrafficMonitor.Config 10 10 3) [] ["10.0.0.9"%string] true)
            (System.Ticks 0 0 0 0 0 0 0) "10.0.0.9" "/" "GET"
            (System.init (System.Config (RateLimiter.Config 100 60 300)
                            (TrafficMonitor.Config 10 10 3) []
                            ["10.0.0.9"%string] true))
            _ (System.FilterReason IPFilter.Blacklisted) _ _).
  vm_compute. reflexivity.
Defined.

Lemma manual_temp_block_denies_witness :
  exists (rem : Z) (dt : System.details),
    System.process_request System.default_config
      (System.Ticks 1 1 1 1 1 1 1) "10.0.0.2" "/api/data" "GET"
      (System.block_ip System.default_config 0 "10.0.0.2" (Some 5) false
         (System.init System.default_config))
    = Some (System.block_ip System.default_config 0 "10.0.0.2" (Some 5) false
              (System.init System.default_config),
            (false, System.FilterReason (IPFilter.TempBlocked rem), dt))
    /\ 0 <= rem.
Proof.
  refine (manual_temp_block_denies System.default_config 0 (Some 5)
            (System.Ticks 1 1 1 1 1 1 1) "10.0.0.2" "/api/data" "GET"
            (System.init System.default_config) _ _ _).
  - refine (bool_decide_unpack _ _). vm_compute. exact I.
  - refine (bool_decide_unpack _ _). vm_compute. exact I.
  - reflexivity.
Defined.

Lemma whitelist_ip_overrides_witness :
  exists (s' : System.t) (rs : list System.result),
    System.process_all System.default_config
      (replicate 3 (System.Ticks 1 1 1 1 1 1 1)) "10.0.0.9" "/" "GET"
      (System.block_ip System.default_config 0 "10.0.0.9" None false
         (System.whitelist_ip "10.0.0.9"
            (System.block_ip System.default_config 0 "10.0.0.9" None true
               (System.init System.default_config))))
    = Some (s', rs)
    /\ length rs = 3%nat
    /\ Forall (fun r : System.result => r.1 = (true, System.WhitelistedIP)) rs.
Proof.
  refine (whitelist_ip_overrides System.default_config 0 None
            (replicate 3 (System.Ticks 1 1 1 1 1 1 1)) "10.0.0.9" "/" "GET"
            (System.block_ip System.default_config 0 "10.0.0.9" None true
               (System.init System.default_config)) _).
  discriminate.
Defined.

Lemma suspicious_denial_blocks_witness :
  exists (s' : System.t) (sd : option TrafficMonitor.details)
         (dt : System.details),
    System.process_request
      (System.Config (RateLimiter.Config 100 60 300)
         (TrafficMonitor.Config (1 # 10) 1 3) [] [] true)
      (System.Ticks 0 0 0 0 0 0 0) "10.0.0.1" "/" "GET"
      (System.init (System.Config (RateLimiter.Config 100 60 300)
                      (TrafficMonitor.Config (1 # 10) 1 3) [] [] true))
    = Some (s', (false, System.SuspiciousActivity sd, dt))
    /\ IPFilter.temp_blocks (System.ip_filter s') !! "10.0.0.1"
       = Some (0 + inject_Z 600)%Q.
Proof.
  eexists _, _, _. split; [vm_compute; reflexivity|].
  refine (proj1 (proj2 (suspicious_denial_blocks
            (System.Config (RateLimiter.Config 100 60 300)
               (TrafficMonitor.Config (1 # 10) 1 3) [] [] true)
            (System.Ticks 0 0 0 0 0 0 0) "10.0.0.1" "/" "GET"
            (System.init (System.Config (RateLimiter.Config 100 60 300)
                            (TrafficMonitor.Config (1 # 10) 1 3) [] [] true))
            _ _ _ _))).
  vm_compute. reflexivity.
Defined.

Lemma limiter_denial_escalates_witness :
  exists (s' : System.t) (lr : option RateLimiter.reason) (dt : System.details),
    System.process_request
      (System.Config (RateLimiter.Config 0 60 300)
         (TrafficMonitor.Config 10 10 3) [] [] true)
      (System.Ticks 0 0 0 0 0 0 0) "10.0.0.1" "/" "GET"
      (System.init (System.Config (RateLimiter.Config 0 60 300)
                      (TrafficMonitor.Config 10 10 3) [] [] true))
    = Some (s', (false, System.LimiterReason lr, dt))
    /\ is_Some (RateLimiter.blocked_ips (System.rate_limiter s') !! "10.0.0.1").
Proof.
  eexists _, _, _. split; [vm_compute; reflexivity|].
  refine (proj1 (limiter_denial_escalates
            (System.Config (RateLimiter.Config 0 60 300)
               (TrafficMonitor.Config 10 10 3) [] [] true)
            (System.Ticks 0 0 0 0 0 0 0) "10.0.0.1" "/" "GET"
            (System.init (System.Config (RateLimiter.Config 0 60 300)
                            (TrafficMonitor.Config 10 10 3) [] [] true))
            _ _ _ _)).
  vm_compute. reflexivity.
Defined.

Lemma admission_independent_of_others_witness :
  exists (s' : System.t) (rs : list System.result),
    System.process_all System.default_config
      (replicate 150 (System.Ticks 0 0 0 0 0 0 0)) "10.0.0.1" "/" "GET"
      (System.init System.default_config) = Some (s', rs)
    /\ snd <$> System.process_request System.default_config
                 (System.Ticks 1 1 1 1 1 1 1) "10.0.0.2" "/" "GET" s'
       = snd <$> System.process_request System.default_config
                   (System.Ticks 1 1 1 1 1 1 1) "10.0.0.2" "/" "GET"
                   (System.init System.default_config).
Proof.
  eexists _, _. split; [vm_compute; reflexivity|].
  refine (admission_independent_of_others System.default_config
            (replicate 150 (System.Ticks 0 0 0 0 0 0 0))
            (System.Ticks 1 1 1 1 1 1 1)
            "10.0.0.1" "/" "GET" "10.0.0.2" "/" "GET"
            (System.init System.default_config) _ _ _ _).
  - discriminate.
  - vm_compute. reflexivity.
Defined.

(** ** config.py *)

Section ConfigMore.
Import ConfigManager.

Lemma walk_not_none (keys : list string) (v dflt : value) :
  v <> VNone -> dflt <> VNone -> walk keys v dflt <> VNone.
Proof.
  revert v. induction keys as [|k keys IH]; intros v Hv Hd; [done|].
  simpl. destruct v as [| | | | | |d]; try done.
  destruct (d !! k) as [v'|]; [|done].
  destruct v'; try done; by apply IH.
Qed.

Lemma split_on_cons (sep : Ascii.ascii) (key : string) :
  exists (k : string) (keys : list string), split_on sep key = k :: keys.
Proof.
  induction key as [|c key (k & keys & IH)]; simpl; [by eexists _, _|].
  destruct (Ascii.eqb c sep); [by eexists _, _|].
  rewrite IH. by eexists _, _.
Qed.

(** X28. [get] never returns [None] when the default is not [None]: a key
    that is missing, that holds [None], or that lies below a value that is
    not a dictionary yields the default. *)
Theorem config_get_never_none (config : value) (key : string) (dflt : value) :
  dflt <> VNone -> get config key dflt <> VNone.
Proof.
  intros Hd. unfold get.
  destruct (split_on_cons dot key) as (k & keys & ->).
  simpl. destruct config as [| | | | | |d]; try done.
  destruct (d !! k) as [v'|]; [|done].
  destruct v'; try done; by apply walk_not_none.
Qed.

(** X29. Auto-block is on by default: [auto_block] is [True] unless the
    [ip_blocking] section is a dictionary whose [auto_block] entry holds a
    falsy value other than [None]; a missing section or entry, or an entry
    holding [None], leaves it on. *)
Theorem config_auto_block_default (d : gmap string value) :
  ConfigManager.auto_block (VDict d)
  = match d !! "ip_blocking"%string with
    | Some (VDict d2) =>
        match d2 !! "auto_block"%string with
        | Some VNone | None => true
        | Some v => truthy v
        end
    | _ => true
    end.
Proof.
  unfold ConfigManager.auto_block, get.
  change (split_on dot "ip_blocking.auto_block")
    with ["ip_blocking"%string; "auto_block"%string].
  simpl. destruct (d !! "ip_blocking"%string) as [v|]; [|done].
  destruct v as [| | | | | |d2]; try done.
  destruct (d2 !! "auto_block"%string) as [v|]; [|done].
  by destruct v.
Qed.

End ConfigMore.

Lemma config_get_never_none_witness :
  ConfigManager.get
    (ConfigManager.VDict
       {[ "logging"%string :=
            ConfigManager.VDict {[ "level"%string := ConfigManager.VNone ]} ]})
    "logging.level" (ConfigManager.VStr "INFO")
  <> ConfigManager.VNone.
Proof.
  refine (config_get_never_none _ "logging.level" (ConfigManager.VStr "INFO") _).
  discriminate.
Defined.

(** ** reset_all *)

Section ResetAll.
Import System.
Variable cfg : config.

Lemma fresh_request_allowed (tk : ticks) (ip e m : string) (s0 : t) :
  0 < RateLimiter.max_requests (rate_cfg cfg) ->
  0 < TrafficMonitor.detection_window (monitor_cfg cfg) ->
  (inject_Z 1
     <= TrafficMonitor.suspicious_threshold (monitor_cfg cfg)
        * inject_Z (TrafficMonitor.detection_window (monitor_cfg cfg)))%Q ->
  ip ∉ IPFilter.blacklist (ip_filter s0) ->
  IPFilter.temp_blocks (ip_filter s0) !! ip = None ->
  RateLimiter.blocked_ips (rate_limiter s0) !! ip = None ->
  RateLimiter.window (rate_limiter s0) ip = [] ->
  TrafficMonitor.window (traffic_monitor s0) ip = [] ->
  exists (s' : t) (r : reason) (dt : details),
    process_request cfg tk ip e m s0 = Some (s', (true, r, dt)).
Proof.
  intros HM Hdw Hquiet Hb Ht Hblk Hwin Hmon.
  assert (Hrec : TrafficMonitor.record_request (monitor_cfg cfg) (t_record tk)
                   (t_alert tk) ip e m (traffic_monitor s0)
                 = Some (TrafficMonitor.set_requests (traffic_monitor s0) ip
                           (prune (TrafficMonitor.detection_window
                                     (monitor_cfg cfg)) (t_record tk)
                              (TrafficMonitor.window (traffic_monitor s0) ip)
                            ++ [t_record tk]))).
  { apply record_request_quiet; [done|]. by rewrite Hmon. }
  destruct (decide (ip ∈ IPFilter.whitelist (ip_filter s0))) as [Hw|Hw].
  - rewrite process_request_whitelisted by done.
    rewrite Hrec. by eexists _, _, _.
  - rewrite process_request_unlisted by done.
    unfold RateLimiter.is_allowed. rewrite Hblk.
    rewrite check_window_room by (rewrite Hwin; simpl; lia).
    cbn [negb]. rewrite Hrec.
    rewrite is_suspicious_quiet; [by eexists _, _, _|done|].
    rewrite window_set_requests_mon, decide_True by done.
    by rewrite Hmon.
Qed.

(** X30. [reset_all] lifts every temporary and rate-limiter block and
    forgets all windows, but keeps the lists: with a limit of at least one
    request and a monitor that does not flag a single request, the next
    request of any address that is not blacklisted is allowed, and a
    blacklisted address that is not whitelisted is still denied. *)
Theorem reset_all_readmits (tk : ticks) (ip e m : string) (s : t) :
  0 < RateLimiter.max_requests (rate_cfg cfg) ->
  0 < TrafficMonitor.detection_window (monitor_cfg cfg) ->
  (inject_Z 1
     <= TrafficMonitor.suspicious_threshold (monitor_cfg cfg)
        * inject_Z (TrafficMonitor.detection_window (monitor_cfg cfg)))%Q ->
  ((ip ∉ IPFilter.blacklist (ip_filter s)) ->
   exists (s' : t) (r : reason) (dt : details),
     process_request cfg tk ip e m (reset_all s) = Some (s', (true, r, dt)))
  /\ ((ip ∉ IPFilter.whitelist (ip_filter s)) ->
      (ip ∈ IPFilter.blacklist (ip_filter s)) ->
      exists dt : details,
        process_request cfg tk ip e m (reset_all s)
        = Some (reset_all s, (false, FilterReason IPFilter.Blacklisted, dt))).
Proof.
  intros HM Hdw Hquiet. split.
  - intros Hb. apply fresh_request_allowed; try done;
      unfold RateLimiter.window, TrafficMonitor.window; simpl;
      by rewrite ?lookup_empty.
  - intros Hw Hb. rewrite process_request_blacklisted by done.
    by eexists.
Qed.

End ResetAll.

Lemma reset_all_readmits_witness :
  exists (s' : System.t) (r : System.reason) (dt : System.details),
    System.process_request System.default_config
      (System.Ticks 1 1 1 1 1 1 1) "10.0.0.1" "/" "GET"
      (System.reset_all
         (System.block_ip System.default_config 0 "10.0.0.1" None false
            (System.init System.default_config)))
    = Some (s', (true, r, dt)).
Proof.
  refine (proj1 (reset_all_readmits System.default_config
                   (System.Ticks 1 1 1 1 1 1 1) "10.0.0.1" "/" "GET"
                   (System.block_ip System.default_config 0 "10.0.0.1" None false
                      (System.init System.default_config)) _ _ _) _).
  - reflexivity.
  - reflexivity.
  - by vm_compute.
  - refine (bool_decide_unpack _ _). vm_compute. exact I.
Defined.
